(** * rklauncher: remote kernel descriptors and the kernel manager

    A shallow embedding of [rklauncher/__init__.py].

    - Python values are the fragment the module reads from and writes to
      its JSON manifest: [None], booleans, strings and dicts with string
      keys.  On this fragment Python's [==] is structural equality.
      Numbers and arrays are not modelled, and a dict keeps no order: when
      several entries of a manifest are malformed, which of them raises
      first is not what Python's insertion order would give.
    - The manifest file, the SSH session and the local [rk] program are the
      world the manager runs in.  A call is a function from the world to a
      result (a value or a raised exception) and the world it leaves behind;
      what a raising call did before it raised stays done.
    - Opening the session ([load_system_host_keys] and [connect]) can
      raise, and so can starting a local program with [subprocess.run] and
      opening the manifest for writing; [exec_command] and [SCPClient.put]
      are taken to return, and the local programs to leave the manifest
      file alone.
    - Calls to [logger] are left out.
    - [os.path] is [posixpath]. *)

From stdpp Require Import gmap strings list fin_maps.
From Stdlib Require Import Ascii.

Set Warnings "-register-all".

(** ** Python values *)

Inductive pyval :=
  | PNone
  | PBool (b : bool)
  | PStr (s : string)
  | PDict (d : gmap string pyval).

Global Instance pyval_eq_dec : EqDecision pyval.
Proof.
  refine (fix go (x y : pyval) {struct x} : Decision (x = y) :=
    let _ : EqDecision pyval := @go in
    match x, y with
    | PNone, PNone => left _
    | PBool a, PBool b => cast_if (decide (a = b))
    | PStr a, PStr b => cast_if (decide (a = b))
    | PDict a, PDict b => cast_if (decide (a = b))
    | _, _ => right _
    end); abstract congruence.
Defined.

(** [bool(v)]: [None], [False], [''] and [{}] are false. *)
Definition truthy (v : pyval) : bool :=
  match v with
  | PNone => false
  | PBool b => b
  | PStr s => negb (bool_decide (s = EmptyString))
  | PDict d => negb (bool_decide (d = ∅))
  end.

(** [a or b] *)
Definition py_or (a b : pyval) : pyval := if truthy a then a else b.

(** [a == b] and [a != b] on the fragment. *)
Definition py_eq (a b : pyval) : bool := bool_decide (a = b).
Definition py_ne (a b : pyval) : bool := negb (py_eq a b).

(** Exceptions, by class.  [PyException] is a bare [Exception(msg)]; the
    manager raises it at three places that differ in the message. *)
Inductive exn :=
  | ValueError
  | TypeError
  | KeyError (key : string)
  | AttributeError
  | FileNotFoundError
  | PermissionError
  | JSONDecodeError
  | SSHException
  | PyException (msg : string).

Global Instance exn_eq_dec : EqDecision exn.
Proof. solve_decision. Defined.

Inductive result (A : Type) :=
  | Ok (a : A)
  | Raise (e : exn).
Arguments Ok {A} a.
Arguments Raise {A} e.

(** ** String helpers *)

(** [s.startswith(p)] *)
Definition startswith (s p : string) : bool := String.prefix p s.

(** [s.endswith(p)] for a one-character [p]. *)
Fixpoint endswith_char (s : string) (c : ascii) : bool :=
  match s with
  | EmptyString => false
  | String a EmptyString => bool_decide (a = c)
  | String _ rest => endswith_char rest c
  end.

(** [needle in s] on strings: substring test. *)
Definition str_contains (s needle : string) : bool :=
  match String.index 0 needle s with Some _ => true | None => false end.

(** [s.split(sep)[0]] for a non-empty [sep]: what comes before the first
    occurrence of [sep], the whole of [s] when there is none. *)
Fixpoint split_head (sep s : string) : string :=
  match s with
  | EmptyString => EmptyString
  | String a rest =>
      if String.prefix sep s then EmptyString else String a (split_head sep rest)
  end.

(** How many times [c] occurs in [s]. *)
Fixpoint count_char (c : ascii) (s : string) : nat :=
  match s with
  | EmptyString => 0
  | String a rest => (if bool_decide (a = c) then 1 else 0) + count_char c rest
  end.

(** [posixpath.join(a, b)] on strings. *)
Definition posix_join (a b : string) : string :=
  if startswith b "/" then b
  else if bool_decide (a = EmptyString) || endswith_char a "/" then a +:+ b
  else a +:+ "/" +:+ b.

(** [os.path.join(a, b)]: [os.fspath] refuses what is not a string. *)
Definition os_path_join (a b : pyval) : result string :=
  match a, b with
  | PStr a, PStr b => Ok (posix_join a b)
  | _, _ => Raise TypeError
  end.

(** [os.path.join(a)] *)
Definition os_path_join1 (a : pyval) : result string :=
  match a with
  | PStr a => Ok a
  | _ => Raise TypeError
  end.

(** The double quote, as a one-character string. *)
Definition dquote : string := String (ascii_of_nat 34) EmptyString.

(** ** Dict operations on values *)

(** [y[key]] *)
Definition py_getitem (y : pyval) (key : string) : result pyval :=
  match y with
  | PDict d => match d !! key with Some v => Ok v | None => Raise (KeyError key) end
  | _ => Raise TypeError
  end.

(** [y.get(key)] *)
Definition py_get (y : pyval) (key : string) : result pyval :=
  match y with
  | PDict d => Ok (default PNone (d !! key))
  | _ => Raise AttributeError
  end.

(** [y.items()] *)
Definition py_items (y : pyval) : result (list (string * pyval)) :=
  match y with
  | PDict d => Ok (map_to_list d)
  | _ => Raise AttributeError
  end.

(** [key in y] for a string [key] *)
Definition py_contains (y : pyval) (key : string) : result bool :=
  match y with
  | PDict d => Ok (bool_decide (is_Some (d !! key)))
  | PStr s => Ok (str_contains s key)
  | _ => Raise TypeError
  end.

(** [y[key] = v], giving the updated object *)
Definition py_setitem (y : pyval) (key : string) (v : pyval) : result pyval :=
  match y with
  | PDict d => Ok (PDict (<[key := v]> d))
  | _ => Raise TypeError
  end.

(** [y.pop(key)], giving the popped value and the updated object *)
Definition py_pop (y : pyval) (key : string) : result (pyval * pyval) :=
  match y with
  | PDict d =>
      match d !! key with
      | Some v => Ok (v, PDict (delete key d))
      | None => Raise (KeyError key)
      end
  | _ => Raise AttributeError
  end.

(** [kwargs.get(name)] *)
Definition kwargs_get (kwargs : gmap string pyval) (name : string) : pyval :=
  default PNone (kwargs !! name).

(** ** The world: manifest file, SSH transport, local programs *)

(** What happened, in order: sessions opened, remote commands with the
    output they gave, files copied to the remote, local programs run. *)
Inductive event :=
  | Connect (host username key_filename : pyval)
  | Exec (cmd out err : string)
  | Put (local_path : pyval) (remote_path : string)
  | Run (argv : list string).

Global Instance event_eq_dec : EqDecision event.
Proof. solve_decision. Defined.

(** What the manager deals with outside itself.  [connect_reply] says
    whether opening a session raises; [exec_reply] gives the decoded
    standard output and standard error of a remote command, which may depend
    on everything done so far; remote commands and copies themselves return.
    On the local machine, [run_reply] says whether [subprocess.run] raises
    (the program cannot be started, or is interrupted) instead of returning,
    and [write_reply] whether opening the manifest for writing raises. *)
Record transport := {
  connect_reply : pyval → pyval → pyval → option exn;
  exec_reply : list event → string → string * string;
  run_reply : list event → list string → option exn;
  write_reply : list event → option exn
}.

(** The manifest file at [__get_local_kernelspec_path()].  Its text is
    kept parsed: [FileJson v] is a file holding a JSON document that
    [json.load] reads as [v] and that [json.dump(v)] writes. *)
Inductive file :=
  | FileMissing
  | FileUnreadable
  | FileNotJson
  | FileJson (v : pyval).

Record world := {
  manifest_file : file;
  trace : list event
}.

Definition M (A : Type) : Type := world → result A * world.

Global Instance M_ret : MRet M := λ A a w, (Ok a, w).
Global Instance M_bind : MBind M := λ A B k m w,
  match m w with
  | (Ok a, w') => k a w'
  | (Raise e, w') => (Raise e, w')
  end.

Definition raise {A} (e : exn) : M A := λ w, (Raise e, w).
Definition lift {A} (r : result A) : M A := λ w, (r, w).

Definition emit (e : event) : M unit :=
  λ w, (Ok tt, {| manifest_file := manifest_file w; trace := trace w ++ [e] |}).

(** [for x in xs: body(acc, x)], with the loop variables threaded. *)
Fixpoint for_each {A S} (xs : list A) (body : S → A → M S) (s : S) : M S :=
  match xs with
  | [] => mret s
  | x :: rest => s' ← body s x; for_each rest body s'
  end.

(** A list comprehension whose element expression can raise:
    [[f(x) for x in xs if ...]] with [f x = Ok None] for a skipped [x]. *)
Fixpoint comprehension {A B} (f : A → result (option B)) (xs : list A)
  : result (list B) :=
  match xs with
  | [] => Ok []
  | x :: rest =>
      match f x with
      | Raise e => Raise e
      | Ok o =>
          match comprehension f rest with
          | Raise e => Raise e
          | Ok ys => Ok (match o with Some y => y :: ys | None => ys end)
          end
      end
  end.

(** ** [RemoteKernel] *)

Record RemoteKernel := {
  rk_id : string;
  uri : pyval;
  python_cmd : pyval;
  venv_name : pyval;
  display_name : pyval
}.

Global Instance RemoteKernel_eq_dec : EqDecision RemoteKernel.
Proof. solve_decision. Defined.

(** What [__eq__] can be handed. *)
Inductive pyobj :=
  | ObjKernel (k : RemoteKernel)
  | ObjValue (v : pyval).

(** ** Example worlds

    The scenario of the specification: host [10.0.0.5], kernel id [k1],
    venv [envA], interpreter [python3.8]. *)

Definition nl : string := String (ascii_of_nat 10) EmptyString.

Definition example_repr (d : gmap string pyval) : string := "{...}".

(** Every session opens; a command answers as [reply] says; local
    programs start and the manifest can be written. *)
Definition accepting (reply : string → string * string) : transport :=
  {| connect_reply := λ _ _ _, None; exec_reply := λ _ cmd, reply cmd;
     run_reply := λ _ _, None; write_reply := λ _, None |}.

(** Every command prints nothing. *)
Definition silent : transport := accepting (λ _, (EmptyString, EmptyString)).

(** What [jupyter kernelspec list] prints when [k1] is registered. *)
Definition kernelspec_listing : string :=
  "Available kernels:" +:+ nl
  +:+ "  k1         /home/ubuntu/.local/share/jupyter/kernels/k1" +:+ nl
  +:+ "  python3    /home/ubuntu/envA/share/jupyter/kernels/python3" +:+ nl.

(** The remote has [k1] registered, and lists it on standard output. *)
Definition k1_registered : transport :=
  accepting (λ cmd,
    if bool_decide (cmd = "~/envA/jupyter kernelspec list")
    then (kernelspec_listing, EmptyString)
    else (EmptyString, EmptyString)).

(** The remote has no kernel registered; the listing prints its header
    and, on standard error, the two characters [k1]. *)
Definition k1_on_stderr : transport :=
  accepting (λ cmd,
    if bool_decide (cmd = "~/envA/jupyter kernelspec list")
    then ("Available kernels:" +:+ nl, "k1")
    else (EmptyString, EmptyString)).

(** The command that creates the venv of the example. *)
Definition is_creation (e : event) : bool :=
  match e with
  | Exec cmd _ _ => bool_decide (cmd = "virtualenv -p=python3.8 ~/envA")
  | _ => false
  end.

(** A remote that remembers: the probe of [~/envA] prints [True] once the
    venv has been created there. *)
Definition remembering : transport :=
  {| connect_reply := λ _ _ _, None;
     exec_reply := λ trace cmd,
       if bool_decide (cmd = "[ -d ~/envA ] && echo " +:+ dquote +:+ "True" +:+ dquote)
          && existsb is_creation trace
       then ("True" +:+ nl, EmptyString)
       else (EmptyString, EmptyString);
     run_reply := λ _ _, None; write_reply := λ _, None |}.

(** No session opens. *)
Definition refusing : transport :=
  {| connect_reply := λ _ _ _, Some SSHException;
     exec_reply := λ _ _, (EmptyString, EmptyString);
     run_reply := λ _ _, None; write_reply := λ _, None |}.

(** The local machine has no [sudo]: [subprocess.run] raises. *)
Definition no_registrar : transport :=
  {| connect_reply := λ _ _ _, None;
     exec_reply := λ _ _, (EmptyString, EmptyString);
     run_reply := λ _ _, Some FileNotFoundError; write_reply := λ _, None |}.

(** The manifest cannot be opened for writing. *)
Definition read_only_manifest : transport :=
  {| connect_reply := λ _ _ _, None;
     exec_reply := λ _ _, (EmptyString, EmptyString);
     run_reply := λ _ _, None; write_reply := λ _, Some PermissionError |}.

(** A remote whose [python] is the system's. *)
Definition system_python : transport :=
  accepting (λ cmd,
    if bool_decide (cmd = "which python")
    then ("/usr/bin/python" +:+ nl, EmptyString)
    else (EmptyString, EmptyString)).

Definition kernel_k1 : RemoteKernel :=
  {| rk_id := "k1"; uri := PStr "10.0.0.5"; python_cmd := PStr "python3.8";
     venv_name := PStr "envA"; display_name := PStr "10.0.0.5 :: k1" |}.

Definition kernel_k1_no_venv : RemoteKernel :=
  {| rk_id := "k1"; uri := PStr "10.0.0.5"; python_cmd := PStr "python3.8";
     venv_name := PNone; display_name := PStr "10.0.0.5 :: k1" |}.

Definition record_of (remote_host venv interpreter display : string)
  : gmap string pyval :=
  <["display_name" := PStr display]>
  (<["interpreter" := PStr interpreter]>
  (<["language" := PStr "python"]>
  (<["remote_host" := PStr remote_host]>
  (<["venv" := PStr venv]> ∅)))).

Definition record_k1 : gmap string pyval :=
  record_of "ubuntu@10.0.0.5" "envA" "python3.8" "10.0.0.5 :: k1".

Definition record_k2 : gmap string pyval :=
  record_of "ubuntu@10.0.0.6" "envB" "python3" "10.0.0.6 :: k2".

(** A record written by hand, with the bare host. *)
Definition record_k1_bare_host : gmap string pyval :=
  record_of "10.0.0.5" "envA" "python3.8" "10.0.0.5 :: k1".

Definition world_of (kernel_dict : gmap string pyval) : world :=
  {| manifest_file := FileJson (PDict kernel_dict); trace := [] |}.

Definition empty_manifest : world := world_of ∅.

Definition two_kernels : gmap string pyval :=
  <["k1" := PDict record_k1]> (<["k2" := PDict record_k2]> ∅).

Definition k1_bare_host : gmap string pyval :=
  <["k1" := PDict record_k1_bare_host]> ∅.

Section Launcher.

(** [str(d)] of a dict is not spelled out: any function will do. *)
Variable repr_dict : gmap string pyval → string.

Variable ssh : transport.

(** [str(v)], as [format] renders a field. *)
Definition py_str (v : pyval) : string :=
  match v with
  | PNone => "None"
  | PBool true => "True"
  | PBool false => "False"
  | PStr s => s
  | PDict d => repr_dict d
  end.

(** [RemoteKernel(uri, rk_id, venv, python_cmd, display_name)] *)
Definition RemoteKernel__init__
    (uri_ : pyval) (rk_id_ : string) (venv python_cmd_ display_name_ : pyval)
  : result RemoteKernel :=
  let self := {|
    rk_id := rk_id_;
    uri := uri_;
    python_cmd := python_cmd_;
    venv_name := venv;
    display_name :=
      py_or display_name_ (PStr (py_str uri_ +:+ " :: " +:+ rk_id_))
  |} in
  if negb (truthy uri_) || negb (truthy (PStr rk_id_)) || negb (truthy python_cmd_)
  then Raise ValueError
  else Ok self.

(** A field as [__str__] renders it: empty when the field is false. *)
Definition str_field (v : pyval) : string :=
  if truthy v then py_str v else EmptyString.

Definition RemoteKernel__str__ (self : RemoteKernel) : string :=
  "RemoteKernel " +:+ str_field (PStr (rk_id self))
  +:+ " :: uri='" +:+ str_field (uri self)
  +:+ "' " +:+ str_field (venv_name self)
  +:+ " python_cmd=" +:+ str_field (python_cmd self).

Definition RemoteKernel__eq__ (self : RemoteKernel) (other : pyobj) : bool :=
  match other with
  | ObjKernel other =>
      py_eq (uri self) (uri other)
      && py_eq (venv_name self) (venv_name other)
      && py_eq (python_cmd self) (python_cmd other)
  | ObjValue _ => false
  end.

(** ** [RKManager] *)

Definition set_manifest (f : file) : M unit :=
  λ w, (Ok tt, {| manifest_file := f; trace := trace w |}).

(** [sshclient.exec_command(cmd)], both streams read and decoded. *)
Definition __execute_ssh (cmd : string) : M (string * string) :=
  λ w, let '(stdout, stderr) := exec_reply ssh (trace w) cmd in
       (Ok (stdout, stderr),
        {| manifest_file := manifest_file w;
           trace := trace w ++ [Exec cmd stdout stderr] |}).

(** [load_system_host_keys] and [connect], then [func()]. *)
Definition __run_remote {A} (func : M A) (remotekernel : RemoteKernel)
    (ssh_key username : pyval) : M A :=
  emit (Connect (uri remotekernel) username ssh_key);;
  match connect_reply ssh (uri remotekernel) username ssh_key with
  | Some e => raise e
  | None => func
  end.

(** [json.load(open(path, 'r'))] *)
Definition __get_local_kernelspec_dict : M pyval :=
  λ w, match manifest_file w with
       | FileMissing => (Raise FileNotFoundError, w)
       | FileUnreadable => (Raise PermissionError, w)
       | FileNotJson => (Raise JSONDecodeError, w)
       | FileJson kernels_dict => (Ok kernels_dict, w)
       end.

(** [json.dump(v, open(path, 'w'))]: when the file cannot be opened for
    writing, [open] raises and the file stays as it was; otherwise the file
    is replaced whole. *)
Definition json_dump (v : pyval) : M unit :=
  λ w, match write_reply ssh (trace w) with
       | Some e => (Raise e, w)
       | None => set_manifest (FileJson v) w
       end.

(** [subprocess.run(argv)]: the call is recorded; it raises when the
    program cannot be started, and otherwise returns whatever the exit
    status, which is not looked at. *)
Definition run (argv : list string) : M unit :=
  λ w, (match run_reply ssh (trace w) argv with
        | Some e => Raise e
        | None => Ok tt
        end,
        {| manifest_file := manifest_file w; trace := trace w ++ [Run argv] |}).

Global Instance result_ret : MRet result := λ A a, Ok a.
Global Instance result_bind : MBind result := λ A B k r,
  match r with Ok a => k a | Raise e => Raise e end.

(** One turn of the comprehension in [get_installed]: the filter, then the
    constructor call with its arguments evaluated left to right. *)
Definition installed_entry (uri_ : pyval) (item : string * pyval)
  : result (option RemoteKernel) :=
  let '(x, y) := item in
  host ← py_getitem y "remote_host";
  if py_ne host uri_ then
    remote_host ← py_getitem y "remote_host";
    venv ← py_get y "venv";
    interpreter ← py_get y "interpreter";
    k ← RemoteKernel__init__ remote_host x venv interpreter PNone;
    Ok (Some k)
  else Ok None.

Definition get_installed (uri_ : pyval) : M (list RemoteKernel) :=
  kernels_dict ← __get_local_kernelspec_dict;
  items ← lift (py_items kernels_dict);
  lift (comprehension (installed_entry uri_) items).

Section create.

Variable remotekernel : RemoteKernel.
Variable ssh_key requirements_file : pyval.
Variable kwargs : gmap string pyval.

(** Names bound in [create] before the closure [__create] is defined. *)
Variable remote_venv_dir : pyval.
Variable remote_python_cmd remote_pip_cmd remote_jupyter_cmd : string.
Variable remote_username : pyval.

Definition already_exists_msg (id : string) : string :=
  "RemoteKernel " +:+ id +:+ " already exists and 'overwrite' not set".

Definition remote_exists_msg (id : string) : string :=
  "Kernel " +:+ id +:+ " exists on remote and 'overwrite' not set".

(** Check if kernel already exists on local *)
Definition check_local : M bool :=
  rks ← get_installed PNone;
  let duplicates : list RemoteKernel :=
    filter (λ x, RemoteKernel__eq__ x (ObjKernel remotekernel) = true) rks in
  let overwrite := false in
  if bool_decide (0 < length duplicates) then
    for_each duplicates (λ overwrite dupe,
      if bool_decide (rk_id dupe = rk_id remotekernel) then
        if truthy (kwargs_get kwargs "overwrite") then mret true
        else raise (PyException (already_exists_msg (rk_id dupe)))
      else mret overwrite) overwrite
  else mret overwrite.

Definition cmd_does_venv_exist : string :=
  "[ -d " +:+ py_str remote_venv_dir +:+ " ] && echo " +:+ dquote +:+ "True" +:+ dquote.

Definition cmd_create_venv : string :=
  "virtualenv -p=" +:+ py_str (python_cmd remotekernel) +:+ " " +:+ py_str remote_venv_dir.

(** Find/create venv on remote *)
Definition find_or_create_venv : M unit :=
  if truthy (venv_name remotekernel) then
    '(stdout, _) ← __execute_ssh cmd_does_venv_exist;
    if negb (truthy (PStr stdout)) then
      __execute_ssh cmd_create_venv;; mret tt
    else mret tt
  else mret tt.

Definition choose_sudo : M string :=
  let sudo := EmptyString in
  if negb (truthy (venv_name remotekernel)) then
    let cmd_python_location := "which " +:+ remote_python_cmd in
    '(py_location_stdout, _) ← __execute_ssh cmd_python_location;
    if startswith py_location_stdout "/usr" then mret "sudo" else mret sudo
  else mret sudo.

Definition install_ipython (sudo : string) : M unit :=
  let cmd_install_ipython := sudo +:+ " " +:+ remote_pip_cmd +:+ " install jupyter" in
  __execute_ssh cmd_install_ipython;; mret tt.

Definition cmd_does_remote_kernel_exist : string :=
  remote_jupyter_cmd +:+ " kernelspec list".

(** Create ipython kernel on remote: the look-up of existing
    registrations.  [stdout] is the pair [__execute_ssh] returns, and
    [stdout[1:]] is what is left of that pair after its first component. *)
Definition check_remote : M unit :=
  stdout ← __execute_ssh cmd_does_remote_kernel_exist;
  let names := (λ x, split_head "\s" x) <$> drop 1 [stdout.1; stdout.2] in
  if bool_decide (rk_id remotekernel ∈ names) then
    if negb (truthy (kwargs_get kwargs "overwrite")) then
      raise (PyException (remote_exists_msg (rk_id remotekernel)))
    else mret tt
  else mret tt.

Definition create_ipy_kernel (sudo : string) : M unit :=
  let cmd_create_ipy_kernel :=
    sudo +:+ " " +:+ remote_python_cmd
    +:+ " -m ipykernel install --name=" +:+ rk_id remotekernel in
  __execute_ssh cmd_create_ipy_kernel;; mret tt.

Definition cmd_install_reqs (sudo file : string) : string :=
  sudo +:+ " " +:+ remote_pip_cmd +:+ " install -r " +:+ file.

(** Install requirements file *)
Definition install_requirements (sudo : string) : M unit :=
  if truthy requirements_file then
    remote_requirements_file ←
      lift (os_path_join remote_venv_dir (PStr "requirements.txt"));
    emit (Put requirements_file remote_requirements_file);;
    __execute_ssh (cmd_install_reqs sudo remote_requirements_file);;
    mret tt
  else mret tt.

Definition manifest_record : gmap string pyval :=
  <["display_name" := display_name remotekernel]>
  (<["interpreter" := python_cmd remotekernel]>
  (<["language" := PStr "python"]>
  (<["remote_host" :=
       PStr (py_str remote_username +:+ "@" +:+ py_str (uri remotekernel))]>
  (<["venv" := venv_name remotekernel]> ∅)))).

(** Add remote ipython kernel spec to local rk config *)
Definition add_to_local_config : M unit :=
  kernel_dict ← __get_local_kernelspec_dict;
  kernel_dict ← lift (py_setitem kernel_dict (rk_id remotekernel) (PDict manifest_record));
  json_dump kernel_dict.

(** init remote ipython kernel *)
Definition init_rk (overwrite : bool) : M unit :=
  (if overwrite then run ["sudo"; "rk"; "uninstall"; rk_id remotekernel]
   else mret tt);;
  run ["sudo"; "rk"; "install"; rk_id remotekernel].

(** [__create] up to and including the registration of the kernel on the
    remote: everything before the requirements file is looked at. *)
Definition provision : M (bool * string) :=
  overwrite ← check_local;
  find_or_create_venv;;
  sudo ← choose_sudo;
  install_ipython sudo;;
  check_remote;;
  create_ipy_kernel sudo;;
  mret (overwrite, sudo).

(** The rest of [__create]. *)
Definition finish (overwrite : bool) (sudo : string) : M unit :=
  install_requirements sudo;;
  add_to_local_config;;
  init_rk overwrite.

Definition __create : M unit :=
  '(overwrite, sudo) ← provision;
  finish overwrite sudo.

End create.

Definition create (remotekernel : RemoteKernel) (ssh_key requirements_file : pyval)
    (kwargs : gmap string pyval) : M unit :=
  remote_venv_dir ← lift (
    if truthy (venv_name remotekernel) then
      let remote_venv_root_dir :=
        py_or (kwargs_get kwargs "remote_venv_root_dir") (PStr "~/") in
      dir ← os_path_join remote_venv_root_dir (venv_name remotekernel);
      Ok (PStr dir)
    else Ok PNone);
  remote_bin_dir ← lift (os_path_join1 (py_or remote_venv_dir (PStr EmptyString)));
  remote_python_cmd ← lift (os_path_join (PStr remote_bin_dir) (PStr "python"));
  remote_pip_cmd ← lift (os_path_join (PStr remote_bin_dir) (PStr "pip"));
  remote_jupyter_cmd ← lift (os_path_join (PStr remote_bin_dir) (PStr "jupyter"));
  let remote_username := py_or (kwargs_get kwargs "remote_username") (PStr "ubuntu") in
  __run_remote
    (__create remotekernel requirements_file kwargs remote_venv_dir
       remote_python_cmd remote_pip_cmd remote_jupyter_cmd remote_username)
    remotekernel ssh_key remote_username.

Definition not_in_local_config_msg (remotekernel : RemoteKernel) : string :=
  "RemoteKernel " +:+ RemoteKernel__str__ remotekernel +:+ " not in local config".

Definition __remove (remotekernel : RemoteKernel) : M unit :=
  kernel_dict ← __get_local_kernelspec_dict;
  present ← lift (py_contains kernel_dict (rk_id remotekernel));
  if negb present then raise (PyException (not_in_local_config_msg remotekernel))
  else
    run ["sudo"; "rk"; "uninstall"; rk_id remotekernel];;
    '(new_kd, _) ← lift (py_pop kernel_dict (rk_id remotekernel));
    json_dump new_kd.

Definition remove (remotekernel : RemoteKernel) (ssh_key : pyval) : M unit :=
  __run_remote (__remove remotekernel) remotekernel ssh_key (PStr "ubuntu").

(** ** Error classes of the specification

    The module raises built-in exceptions and bare [Exception]s; the
    specification names them by what they mean. *)

Definition ValidationError (e : exn) : Prop := e = ValueError.

Definition ManifestUnreadable (e : exn) : Prop :=
  e = FileNotFoundError ∨ e = PermissionError ∨ e = JSONDecodeError.

Definition AlreadyExistsError (id : string) (e : exn) : Prop :=
  e = PyException (already_exists_msg id).

Definition RemoteAlreadyExistsError (id : string) (e : exn) : Prop :=
  e = PyException (remote_exists_msg id).

Definition NotFoundError (remotekernel : RemoteKernel) (e : exn) : Prop :=
  e = PyException (not_in_local_config_msg remotekernel).

(** A value of a parameter documented as an optional string. *)
Definition is_opt_str (v : pyval) : Prop :=
  match v with PNone | PStr _ => True | _ => False end.

(** The descriptor [k] under another kernel id and display name. *)
Definition renamed (id : string) (name : pyval) (k : RemoteKernel) : RemoteKernel :=
  {| rk_id := id; uri := uri k; python_cmd := python_cmd k;
     venv_name := venv_name k; display_name := name |}.

(** ** What a call leaves of the world *)

(** [I] relates the world before a call to the world after it, whether
    the call returns or raises, and [P] holds of what it returns. *)
Definition preserves (I : world → world → Prop) {A} (P : A → Prop) (m : M A)
  : Prop :=
  ∀ w, I w (m w).2 ∧ ∀ a, (m w).1 = Ok a → P a.

Definition anything {A} : A → Prop := λ _, True.

(** The manifest file is what it was. *)
Definition same_manifest (w w' : world) : Prop :=
  manifest_file w' = manifest_file w.

(** The trace has grown by events that all satisfy [φ]. *)
Definition grown_by (φ : event → Prop) (w w' : world) : Prop :=
  ∃ evs, trace w' = trace w ++ evs ∧ Forall φ evs.

(** A relation kept by every step that leaves the manifest alone and only
    records events satisfying [φ]. *)
Definition quiet (φ : event → Prop) (w w' : world) : Prop :=
  same_manifest w w' ∧ grown_by φ w w'.

(** The privilege prefix [__create] computes. *)
Definition sudo_value (sudo : string) : Prop :=
  sudo = EmptyString ∨ sudo = "sudo".

(** Events of the requirements step: the copy of the file, and the
    install from it. *)
Definition requirements_event (remote_pip_cmd : string) (e : event) : Prop :=
  match e with
  | Put _ _ => True
  | Exec cmd _ _ =>
      ∃ sudo file, sudo_value sudo ∧ cmd = cmd_install_reqs remote_pip_cmd sudo file
  | _ => False
  end.

(** Events of the venv step: the directory probe and the creation. *)
Definition venv_step_event (probe creation : string) (e : event) : Prop :=
  match e with
  | Exec cmd _ _ => cmd = probe ∨ cmd = creation
  | _ => False
  end.

(** What the constructor checks: a descriptor it has returned. *)
Definition valid_descriptor (k : RemoteKernel) : Prop :=
  truthy (uri k) = true ∧ rk_id k ≠ EmptyString ∧ truthy (python_cmd k) = true.

(** Every entry of the manifest goes through the comprehension of
    [get_installed] without raising. *)
Definition reconstructs (kernel_dict : gmap string pyval) : Prop :=
  ∀ x y, kernel_dict !! x = Some y → ∃ o, installed_entry PNone (x, y) = Ok o.

(** Evaluate the counts of characters in literal strings. *)
Ltac count_closed :=
  repeat match goal with
  | H : context [count_char ?c (String ?a ?s)] |- _ =>
      let v := eval vm_compute in (count_char c (String a s)) in
      change (count_char c (String a s)) with v in H
  end.

(** ** Entries of the manifest, as [get_installed] reads them *)

(** An entry that the comprehension of [get_installed] gets past: a dict
    with a [remote_host] that either equals the filter, or is non-empty and
    comes with a non-empty key and a non-empty interpreter. *)
Definition entry_ok (uri_ : pyval) (x : string) (y : pyval) : Prop :=
  ∃ r h, y = PDict r ∧ r !! "remote_host" = Some h
    ∧ (h = uri_
       ∨ (truthy h = true ∧ x ≠ EmptyString
          ∧ truthy (default PNone (r !! "interpreter")) = true)).

(** The descriptor [get_installed] builds from the entry [x ↦ r] whose
    [remote_host] is [h]. *)
Definition listed (x : string) (r : gmap string pyval) (h : pyval) : RemoteKernel :=
  {| rk_id := x; uri := h;
     python_cmd := default PNone (r !! "interpreter");
     venv_name := default PNone (r !! "venv");
     display_name := PStr (py_str h +:+ " :: " +:+ x) |}.

(** The descriptor [k] with another venv name. *)
Definition with_venv (v : pyval) (k : RemoteKernel) : RemoteKernel :=
  {| rk_id := rk_id k; uri := uri k; python_cmd := python_cmd k;
     venv_name := v; display_name := display_name k |}.

(** The manifest holds, under the descriptor's kernel id, a record with
    the descriptor's host, venv and interpreter. *)
Definition holds_same (kernel_dict : gmap string pyval) (k : RemoteKernel) : Prop :=
  ∃ r, kernel_dict !! rk_id k = Some (PDict r)
    ∧ r !! "remote_host" = Some (uri k)
    ∧ default PNone (r !! "venv") = venv_name k
    ∧ default PNone (r !! "interpreter") = python_cmd k.

Definition is_run (e : event) : Prop :=
  match e with Run _ => True | _ => False end.

Definition is_remote (e : event) : Prop :=
  match e with Exec _ _ _ | Put _ _ => True | _ => False end.

(** * Properties *)

(** ** Running a sequence *)

Lemma bind_run {A B} (m : M A) (k : A → M B) w :
  (m ≫= k) w =
  match m w with
  | (Ok a, w') => k a w'
  | (Raise e, w') => (Raise e, w')
  end.
Proof. reflexivity. Qed.

Lemma bind_ok {A B} (m : M A) (k : A → M B) w a w' :
  m w = (Ok a, w') → (m ≫= k) w = k a w'.
Proof. intros H. rewrite bind_run, H. reflexivity. Qed.

Lemma bind_raise {A B} (m : M A) (k : A → M B) w e w' :
  m w = (Raise e, w') → (m ≫= k) w = (Raise e, w').
Proof. intros H. rewrite bind_run, H. reflexivity. Qed.

Lemma bind_ok_inv {A B} (m : M A) (k : A → M B) w b w'' :
  (m ≫= k) w = (Ok b, w'') →
  ∃ a w', m w = (Ok a, w') ∧ k a w' = (Ok b, w'').
Proof.
  rewrite bind_run. destruct (m w) as [[a|e] w']; intros H.
  - eauto.
  - discriminate.
Qed.

(** ** C6: validation in the constructor *)

(** C6.  Constructing a descriptor raises [ValueError] whenever the host,
    the kernel id or the interpreter command is empty, whatever the other
    arguments are; when all three are non-empty it returns the descriptor
    holding the arguments. *)
Theorem RemoteKernel_init_validates (uri_ : pyval) (rk_id_ : string)
    (venv python_cmd_ display_name_ : pyval) :
  (truthy uri_ = false ∨ rk_id_ = EmptyString ∨ truthy python_cmd_ = false →
   ∃ e, RemoteKernel__init__ uri_ rk_id_ venv python_cmd_ display_name_ = Raise e
        ∧ ValidationError e)
  ∧ (truthy uri_ = true → rk_id_ ≠ EmptyString → truthy python_cmd_ = true →
     ∃ k, RemoteKernel__init__ uri_ rk_id_ venv python_cmd_ display_name_ = Ok k
          ∧ uri k = uri_ ∧ rk_id k = rk_id_ ∧ venv_name k = venv
          ∧ python_cmd k = python_cmd_).
Proof.
  unfold RemoteKernel__init__, ValidationError. split.
  - intros [Hu | [Hi | Hp]].
    + rewrite Hu. simpl. eauto.
    + subst rk_id_. simpl. rewrite orb_true_r. simpl. eauto.
    + rewrite Hp. rewrite orb_true_r. eauto.
  - intros Hu Hi Hp. rewrite Hu, Hp. simpl.
    rewrite bool_decide_eq_false_2 by done. simpl. eauto 10.
Qed.

(** ** C7: descriptor equality *)

Lemma RemoteKernel_eq_spec (a b : RemoteKernel) :
  RemoteKernel__eq__ a (ObjKernel b) = true ↔
  uri a = uri b ∧ venv_name a = venv_name b ∧ python_cmd a = python_cmd b.
Proof.
  unfold RemoteKernel__eq__, py_eq.
  rewrite !andb_true_iff, !bool_decide_eq_true. tauto.
Qed.

(** C7.  Two descriptors are equal exactly when host, venv name and
    interpreter command all match; equality is reflexive, symmetric and
    transitive, and does not change when the kernel id and the display name
    of either side are replaced. *)
Theorem RemoteKernel_eq_equivalence :
  (∀ a b, RemoteKernel__eq__ a (ObjKernel b) = true ↔
          uri a = uri b ∧ venv_name a = venv_name b ∧ python_cmd a = python_cmd b)
  ∧ (∀ a, RemoteKernel__eq__ a (ObjKernel a) = true)
  ∧ (∀ a b, RemoteKernel__eq__ a (ObjKernel b) = RemoteKernel__eq__ b (ObjKernel a))
  ∧ (∀ a b c, RemoteKernel__eq__ a (ObjKernel b) = true →
              RemoteKernel__eq__ b (ObjKernel c) = true →
              RemoteKernel__eq__ a (ObjKernel c) = true)
  ∧ (∀ a b id name,
       RemoteKernel__eq__ (renamed id name a) (ObjKernel b)
         = RemoteKernel__eq__ a (ObjKernel b)
       ∧ RemoteKernel__eq__ a (ObjKernel (renamed id name b))
         = RemoteKernel__eq__ a (ObjKernel b)).
Proof.
  split; [exact RemoteKernel_eq_spec|].
  split; [intros a; by apply RemoteKernel_eq_spec|].
  split.
  { intros a b.
    destruct (RemoteKernel__eq__ b (ObjKernel a)) eqn:Hba.
    - apply RemoteKernel_eq_spec in Hba as (Hu & Hv & Hp).
      apply RemoteKernel_eq_spec. by split_and!.
    - destruct (RemoteKernel__eq__ a (ObjKernel b)) eqn:Hab; [|done].
      apply RemoteKernel_eq_spec in Hab as (Hu & Hv & Hp).
      rewrite <- Hba. symmetry. by apply RemoteKernel_eq_spec. }
  split.
  { intros a b c Hab Hbc.
    apply RemoteKernel_eq_spec in Hab as (Hu & Hv & Hp).
    apply RemoteKernel_eq_spec in Hbc as (Hu' & Hv' & Hp').
    apply RemoteKernel_eq_spec. split_and!; congruence. }
  intros a b id name. split; reflexivity.
Qed.

(** ** C9: loading the manifest *)

(** C9.  Loading returns the document stored in the file, whole, when the
    file holds one.  When the file is missing, unreadable or not JSON,
    loading raises; nothing is put in place of the document, and
    [get_installed], [__remove] and [__create] raise the same error
    without touching the world. *)
Theorem load_manifest_total_or_fatal (w : world) :
  match manifest_file w with
  | FileJson v => __get_local_kernelspec_dict w = (Ok v, w)
  | _ =>
      ∃ e, ManifestUnreadable e
        ∧ __get_local_kernelspec_dict w = (Raise e, w)
        ∧ (∀ uri_, get_installed uri_ w = (Raise e, w))
        ∧ (∀ remotekernel, __remove remotekernel w = (Raise e, w))
        ∧ (∀ remotekernel requirements_file kwargs remote_venv_dir
             remote_python_cmd remote_pip_cmd remote_jupyter_cmd remote_username,
             __create remotekernel requirements_file kwargs remote_venv_dir
               remote_python_cmd remote_pip_cmd remote_jupyter_cmd remote_username w
             = (Raise e, w))
  end.
Proof.
  assert (Hcallers : ∀ e, __get_local_kernelspec_dict w = (Raise e, w) →
    (∀ uri_, get_installed uri_ w = (Raise e, w))
    ∧ (∀ remotekernel, __remove remotekernel w = (Raise e, w))
    ∧ (∀ remotekernel requirements_file kwargs remote_venv_dir
         remote_python_cmd remote_pip_cmd remote_jupyter_cmd remote_username,
         __create remotekernel requirements_file kwargs remote_venv_dir
           remote_python_cmd remote_pip_cmd remote_jupyter_cmd remote_username w
         = (Raise e, w))).
  { intros e He.
    assert (Hg : ∀ uri_, get_installed uri_ w = (Raise e, w)).
    { intros uri_. unfold get_installed. by apply bind_raise. }
    split; [exact Hg|]. split.
    - intros remotekernel. unfold __remove. by apply bind_raise.
    - intros. unfold __create, provision, check_local.
      apply bind_raise. apply bind_raise. apply bind_raise. apply Hg. }
  unfold ManifestUnreadable.
  destruct (manifest_file w) eqn:Hf.
  - exists FileNotFoundError. split; [tauto|].
    assert (__get_local_kernelspec_dict w = (Raise FileNotFoundError, w))
      by (unfold __get_local_kernelspec_dict; by rewrite Hf).
    split; [done|]. by apply Hcallers.
  - exists PermissionError. split; [tauto|].
    assert (__get_local_kernelspec_dict w = (Raise PermissionError, w))
      by (unfold __get_local_kernelspec_dict; by rewrite Hf).
    split; [done|]. by apply Hcallers.
  - exists JSONDecodeError. split; [tauto|].
    assert (__get_local_kernelspec_dict w = (Raise JSONDecodeError, w))
      by (unfold __get_local_kernelspec_dict; by rewrite Hf).
    split; [done|]. by apply Hcallers.
  - unfold __get_local_kernelspec_dict. by rewrite Hf.
Qed.

(** ** C8 and C1: [remove] *)

Lemma run_remote_connected {A} (func : M A) remotekernel ssh_key username w :
  connect_reply ssh (uri remotekernel) username ssh_key = None →
  __run_remote func remotekernel ssh_key username w =
  func {| manifest_file := manifest_file w;
          trace := trace w ++ [Connect (uri remotekernel) username ssh_key] |}.
Proof.
  intros Hc. unfold __run_remote. rewrite bind_run. simpl. by rewrite Hc.
Qed.

Lemma run_remote_refused {A} (func : M A) remotekernel ssh_key username w e :
  connect_reply ssh (uri remotekernel) username ssh_key = Some e →
  __run_remote func remotekernel ssh_key username w =
  (Raise e, {| manifest_file := manifest_file w;
               trace := trace w ++ [Connect (uri remotekernel) username ssh_key] |}).
Proof.
  intros Hc. unfold __run_remote. rewrite bind_run. simpl. by rewrite Hc.
Qed.

(** C8.  With the session open and a manifest that does not hold the
    descriptor's kernel id, [remove] raises the not-in-local-config
    exception; the manifest file is what it was, and nothing was run. *)
Theorem remove_absent_raises_not_found (remotekernel : RemoteKernel)
    (ssh_key : pyval) (w : world) (kernel_dict : gmap string pyval) :
  connect_reply ssh (uri remotekernel) (PStr "ubuntu") ssh_key = None →
  manifest_file w = FileJson (PDict kernel_dict) →
  kernel_dict !! rk_id remotekernel = None →
  ∃ e, NotFoundError remotekernel e
    ∧ remove remotekernel ssh_key w =
      (Raise e,
       {| manifest_file := FileJson (PDict kernel_dict);
          trace := trace w ++ [Connect (uri remotekernel) (PStr "ubuntu") ssh_key] |}).
Proof.
  intros Hc Hf Hk. eexists. split; [reflexivity|].
  unfold remove. rewrite run_remote_connected by done.
  unfold __remove. rewrite bind_run.
  unfold __get_local_kernelspec_dict at 1. simpl. rewrite Hf.
  rewrite bind_run. unfold lift, py_contains. rewrite Hk.
  rewrite bool_decide_eq_false_2 by (by intros [? ?]). reflexivity.
Qed.

(** What [remove] does to a manifest that holds the kernel id: the local
    registrar is run, and then the file is rewritten with the popped record.
    When the registrar cannot be started, or the file cannot be opened for
    writing, the exception comes after the registrar was called, and the
    file is what it was. *)
Lemma remove_present_run (remotekernel : RemoteKernel) (ssh_key : pyval)
    (w : world) (kernel_dict : gmap string pyval) (record : pyval) :
  connect_reply ssh (uri remotekernel) (PStr "ubuntu") ssh_key = None →
  manifest_file w = FileJson (PDict kernel_dict) →
  kernel_dict !! rk_id remotekernel = Some record →
  remove remotekernel ssh_key w =
  match run_reply ssh (trace w ++ [Connect (uri remotekernel) (PStr "ubuntu") ssh_key])
          ["sudo"; "rk"; "uninstall"; rk_id remotekernel],
        write_reply ssh
          (trace w ++ [Connect (uri remotekernel) (PStr "ubuntu") ssh_key;
                       Run ["sudo"; "rk"; "uninstall"; rk_id remotekernel]]) with
  | None, None =>
      (Ok tt,
       {| manifest_file := FileJson record;
          trace := trace w ++ [Connect (uri remotekernel) (PStr "ubuntu") ssh_key;
                               Run ["sudo"; "rk"; "uninstall"; rk_id remotekernel]] |})
  | Some e, _ | None, Some e =>
      (Raise e,
       {| manifest_file := FileJson (PDict kernel_dict);
          trace := trace w ++ [Connect (uri remotekernel) (PStr "ubuntu") ssh_key;
                               Run ["sudo"; "rk"; "uninstall"; rk_id remotekernel]] |})
  end.
Proof.
  intros Hc Hf Hk.
  unfold remove. rewrite run_remote_connected by done.
  unfold __remove. rewrite bind_run.
  unfold __get_local_kernelspec_dict at 1. simpl. rewrite Hf.
  rewrite bind_run. unfold lift, py_contains. rewrite Hk.
  rewrite bool_decide_eq_true_2 by eauto. simpl.
  rewrite bind_run. unfold run. simpl. rewrite <- app_assoc. simpl.
  destruct (run_reply ssh _ _) as [e|]; [reflexivity|].
  rewrite bind_run. unfold py_pop. rewrite Hk.
  unfold json_dump, set_manifest. simpl.
  by destruct (write_reply ssh _).
Qed.

(** ** Relations kept along a sequence

    A relation between the world before and the world after that holds
    across no step at all and across two steps in a row holds across any
    sequence of calls that each keep it. *)

Section Preserves.

Variable I : world → world → Prop.
Hypothesis I_refl : ∀ w, I w w.
Hypothesis I_trans : ∀ a b c, I a b → I b c → I a c.

Lemma preserves_ret {A} (P : A → Prop) (a : A) : P a → preserves I P (mret a).
Proof. intros Ha w. split; [apply I_refl|]. intros a' [= <-]. exact Ha. Qed.

Lemma preserves_raise {A} (P : A → Prop) (e : exn) : preserves I P (raise e).
Proof. intros w. split; [apply I_refl|]. intros a' [=]. Qed.

Lemma preserves_lift {A} (P : A → Prop) (r : result A) :
  (∀ a, r = Ok a → P a) → preserves I P (lift r).
Proof. intros Hr w. split; [apply I_refl|]. exact Hr. Qed.

Lemma preserves_weaken {A} (P Q : A → Prop) (m : M A) :
  preserves I P m → (∀ a, P a → Q a) → preserves I Q m.
Proof. intros Hm HPQ w. destruct (Hm w). split; [done|]. eauto. Qed.

Lemma preserves_load : preserves I anything __get_local_kernelspec_dict.
Proof.
  intros w. unfold __get_local_kernelspec_dict.
  destruct (manifest_file w); (split; [apply I_refl|done]).
Qed.

Lemma preserves_bind {A B} (P : A → Prop) (Q : B → Prop) (m : M A) (k : A → M B) :
  preserves I P m → (∀ a, P a → preserves I Q (k a)) → preserves I Q (m ≫= k).
Proof.
  intros Hm Hk w. rewrite bind_run.
  destruct (Hm w) as [Hw Ha]. destruct (m w) as [[a|e] w']; simpl in *.
  - destruct (Hk a (Ha a eq_refl) w') as [Hw' Hb]. split; [|done].
    by eapply I_trans.
  - split; [done|]. intros b [=].
Qed.

Lemma preserves_for_each {A S} (P : S → Prop) (xs : list A)
    (body : S → A → M S) (s : S) :
  (∀ s x, P s → preserves I P (body s x)) → P s →
  preserves I P (for_each xs body s).
Proof.
  intros Hb. revert s. induction xs as [|x xs IH]; intros s Hs; simpl.
  - by apply preserves_ret.
  - eapply preserves_bind; [by apply Hb|]. intros s' Hs'. by apply IH.
Qed.

Lemma preserves_get_installed uri_ : preserves I anything (get_installed uri_).
Proof.
  unfold get_installed.
  eapply preserves_bind; [apply preserves_load|]. intros kernels_dict _.
  eapply (preserves_bind anything); [by apply preserves_lift|]. intros items _.
  by apply preserves_lift.
Qed.

Lemma preserves_check_local remotekernel kwargs :
  preserves I anything (check_local remotekernel kwargs).
Proof.
  unfold check_local.
  eapply preserves_bind; [apply preserves_get_installed|]. intros rks _.
  case_bool_decide; [|by apply preserves_ret].
  apply preserves_for_each; [|done]. intros s x _.
  case_bool_decide; [|by apply preserves_ret].
  destruct (truthy _); [by apply preserves_ret|apply preserves_raise].
Qed.

End Preserves.

Lemma same_manifest_refl w : same_manifest w w.
Proof. reflexivity. Qed.

Lemma same_manifest_trans a b c :
  same_manifest a b → same_manifest b c → same_manifest a c.
Proof. unfold same_manifest. congruence. Qed.

Lemma grown_by_refl φ w : grown_by φ w w.
Proof. exists []. by rewrite app_nil_r. Qed.

Lemma grown_by_trans φ a b c : grown_by φ a b → grown_by φ b c → grown_by φ a c.
Proof.
  intros (e1 & H1 & F1) (e2 & H2 & F2). exists (e1 ++ e2). split.
  - by rewrite H2, H1, app_assoc.
  - by apply Forall_app.
Qed.

Lemma quiet_refl φ w : quiet φ w w.
Proof. split; [apply same_manifest_refl|apply grown_by_refl]. Qed.

Lemma quiet_trans φ a b c : quiet φ a b → quiet φ b c → quiet φ a c.
Proof.
  intros [] []. split; [by eapply same_manifest_trans|by eapply grown_by_trans].
Qed.

Lemma quiet_emit φ e : φ e → preserves (quiet φ) anything (emit e).
Proof.
  intros He w. split; [|done]. split; [reflexivity|].
  exists [e]. split; [done|]. by constructor.
Qed.

Lemma quiet_run φ argv : φ (Run argv) → preserves (quiet φ) anything (run argv).
Proof.
  intros He w. split; [|done]. split; [reflexivity|].
  exists [Run argv]. split; [done|]. by constructor.
Qed.

Lemma quiet_execute_ssh φ cmd :
  (∀ out err, φ (Exec cmd out err)) →
  preserves (quiet φ) anything (__execute_ssh cmd).
Proof.
  intros He w. unfold __execute_ssh.
  destruct (exec_reply ssh (trace w) cmd) as [out err]. simpl.
  split; [|done]. split; [reflexivity|].
  exists [Exec cmd out err]. split; [done|]. by constructor.
Qed.

(** Steps of [__create], each leaving the manifest alone and recording
    only its own commands. *)
Section QuietSteps.

Variable φ : event → Prop.
Variable remotekernel : RemoteKernel.
Variable kwargs : gmap string pyval.
Variable remote_venv_dir : pyval.
Variable remote_python_cmd remote_pip_cmd remote_jupyter_cmd : string.

Local Abbreviation qbind := (preserves_bind (quiet φ) (quiet_trans φ)).
Local Abbreviation qret := (preserves_ret (quiet φ) (quiet_refl φ)).
Local Abbreviation qraise := (preserves_raise (quiet φ) (quiet_refl φ)).

Lemma quiet_check_local :
  preserves (quiet φ) anything (check_local remotekernel kwargs).
Proof. apply preserves_check_local; [apply quiet_refl|apply quiet_trans]. Qed.

Lemma quiet_find_or_create_venv :
  (∀ out err, φ (Exec (cmd_does_venv_exist remote_venv_dir) out err)) →
  (∀ out err, φ (Exec (cmd_create_venv remotekernel remote_venv_dir) out err)) →
  preserves (quiet φ) anything (find_or_create_venv remotekernel remote_venv_dir).
Proof.
  intros Hp Hc. unfold find_or_create_venv.
  destruct (truthy (venv_name remotekernel)); [|by apply qret].
  eapply qbind; [by apply quiet_execute_ssh|]. intros [stdout stderr] _.
  destruct (negb _); [|by apply qret].
  eapply qbind; [by apply quiet_execute_ssh|]. intros _ _. by apply qret.
Qed.

Lemma quiet_choose_sudo :
  (∀ out err, φ (Exec ("which " +:+ remote_python_cmd) out err)) →
  preserves (quiet φ) sudo_value (choose_sudo remotekernel remote_python_cmd).
Proof.
  intros Hw. unfold choose_sudo.
  destruct (negb _); [|apply qret; by left].
  eapply qbind; [by apply quiet_execute_ssh|]. intros [stdout stderr] _.
  destruct (startswith _ _); apply qret; [by right|by left].
Qed.

Lemma quiet_install_ipython sudo :
  (∀ out err, φ (Exec (sudo +:+ " " +:+ remote_pip_cmd +:+ " install jupyter") out err)) →
  preserves (quiet φ) anything (install_ipython remote_pip_cmd sudo).
Proof.
  intros Hi. unfold install_ipython.
  eapply qbind; [by apply quiet_execute_ssh|]. intros _ _. by apply qret.
Qed.

Lemma quiet_check_remote :
  (∀ out err, φ (Exec (cmd_does_remote_kernel_exist remote_jupyter_cmd) out err)) →
  preserves (quiet φ) anything (check_remote remotekernel kwargs remote_jupyter_cmd).
Proof.
  intros Hl. unfold check_remote.
  eapply qbind; [by apply quiet_execute_ssh|]. intros stdout _.
  case_bool_decide; [|by apply qret].
  destruct (negb _); [apply qraise|by apply qret].
Qed.

Lemma quiet_create_ipy_kernel sudo :
  (∀ out err, φ (Exec (sudo +:+ " " +:+ remote_python_cmd
                       +:+ " -m ipykernel install --name=" +:+ rk_id remotekernel)
                      out err)) →
  preserves (quiet φ) anything (create_ipy_kernel remotekernel remote_python_cmd sudo).
Proof.
  intros Hi. unfold create_ipy_kernel.
  eapply qbind; [by apply quiet_execute_ssh|]. intros _ _. by apply qret.
Qed.

(** What [provision] does after the venv step. *)
Lemma quiet_after_venv overwrite :
  (∀ out err, φ (Exec ("which " +:+ remote_python_cmd) out err)) →
  (∀ sudo out err, sudo_value sudo →
     φ (Exec (sudo +:+ " " +:+ remote_pip_cmd +:+ " install jupyter") out err)) →
  (∀ out err, φ (Exec (cmd_does_remote_kernel_exist remote_jupyter_cmd) out err)) →
  (∀ sudo out err, sudo_value sudo →
     φ (Exec (sudo +:+ " " +:+ remote_python_cmd
              +:+ " -m ipykernel install --name=" +:+ rk_id remotekernel) out err)) →
  preserves (quiet φ) (λ r : bool * string, sudo_value r.2)
    (sudo ← choose_sudo remotekernel remote_python_cmd;
     install_ipython remote_pip_cmd sudo;;
     check_remote remotekernel kwargs remote_jupyter_cmd;;
     create_ipy_kernel remotekernel remote_python_cmd sudo;;
     mret (overwrite, sudo)).
Proof.
  intros Hw Hi Hl Hk.
  eapply qbind; [by apply quiet_choose_sudo|]. intros sudo Hs.
  eapply qbind; [apply quiet_install_ipython; auto|]. intros _ _.
  eapply qbind; [by apply quiet_check_remote|]. intros _ _.
  eapply qbind; [apply quiet_create_ipy_kernel; auto|]. intros _ _.
  by apply qret.
Qed.

Lemma quiet_provision :
  (∀ out err, φ (Exec (cmd_does_venv_exist remote_venv_dir) out err)) →
  (∀ out err, φ (Exec (cmd_create_venv remotekernel remote_venv_dir) out err)) →
  (∀ out err, φ (Exec ("which " +:+ remote_python_cmd) out err)) →
  (∀ sudo out err, sudo_value sudo →
     φ (Exec (sudo +:+ " " +:+ remote_pip_cmd +:+ " install jupyter") out err)) →
  (∀ out err, φ (Exec (cmd_does_remote_kernel_exist remote_jupyter_cmd) out err)) →
  (∀ sudo out err, sudo_value sudo →
     φ (Exec (sudo +:+ " " +:+ remote_python_cmd
              +:+ " -m ipykernel install --name=" +:+ rk_id remotekernel) out err)) →
  preserves (quiet φ) (λ r : bool * string, sudo_value r.2)
    (provision remotekernel kwargs remote_venv_dir
       remote_python_cmd remote_pip_cmd remote_jupyter_cmd).
Proof.
  intros Hp Hc Hw Hi Hl Hk. unfold provision.
  eapply qbind; [apply quiet_check_local|]. intros overwrite _.
  eapply qbind; [by apply quiet_find_or_create_venv|]. intros _ _.
  by apply quiet_after_venv.
Qed.

Lemma quiet_run_remote {A} (P : A → Prop) (func : M A) ssh_key username :
  φ (Connect (uri remotekernel) username ssh_key) →
  preserves (quiet φ) P func →
  preserves (quiet φ) P (__run_remote func remotekernel ssh_key username).
Proof.
  intros Hc Hf. unfold __run_remote.
  eapply qbind; [by apply quiet_emit|]. intros _ _.
  destruct (connect_reply _ _ _ _); [apply qraise|done].
Qed.

End QuietSteps.

(** ** C10: a requirements file without a venv *)

Lemma install_jupyter_not_requirements sudo out err :
  sudo_value sudo →
  ¬ requirements_event "pip" (Exec (sudo +:+ " pip install jupyter") out err).
Proof.
  intros [-> | ->] (sudo' & file & [-> | ->] & Heq);
    unfold cmd_install_reqs in Heq; simpl in Heq; discriminate.
Qed.

Lemma ipykernel_not_requirements sudo id out err :
  sudo_value sudo →
  ¬ requirements_event "pip"
      (Exec (sudo +:+ " python -m ipykernel install --name=" +:+ id) out err).
Proof.
  intros [-> | ->] (sudo' & file & [-> | ->] & Heq);
    unfold cmd_install_reqs in Heq; simpl in Heq; discriminate.
Qed.

(** C10.  Given a requirements file and a descriptor without a venv name,
    [create] always raises, the manifest file is left as it was, and no
    copy of the requirements file and no install from it is among the
    events of the call.  When the session opens and the steps up to the
    registration of the remote kernel go through, the exception is the
    [TypeError] of joining the absent venv directory with
    [requirements.txt], raised in the world those steps left. *)
Theorem create_requirements_without_venv_raises (remotekernel : RemoteKernel)
    (ssh_key requirements_file : pyval) (kwargs : gmap string pyval) (w : world) :
  truthy (venv_name remotekernel) = false →
  truthy requirements_file = true →
  ∃ e w',
    create remotekernel ssh_key requirements_file kwargs w = (Raise e, w')
    ∧ quiet (λ ev, ¬ requirements_event "pip" ev) w w'
    ∧ ∀ r w1,
        __run_remote (provision remotekernel kwargs PNone "python" "pip" "jupyter")
          remotekernel ssh_key
          (py_or (kwargs_get kwargs "remote_username") (PStr "ubuntu")) w
        = (Ok r, w1) →
        e = TypeError ∧ w' = w1.
Proof.
  intros Hvenv Hreq.
  set (user := py_or (kwargs_get kwargs "remote_username") (PStr "ubuntu")).
  set (φ := λ ev, ¬ requirements_event "pip" ev).
  assert (Hcreate : create remotekernel ssh_key requirements_file kwargs w =
    __run_remote
      (__create remotekernel requirements_file kwargs PNone
         "python" "pip" "jupyter" user) remotekernel ssh_key user w).
  { unfold create. rewrite Hvenv. reflexivity. }
  assert (Hprov : preserves (quiet φ) (λ r : bool * string, sudo_value r.2)
    (__run_remote (provision remotekernel kwargs PNone "python" "pip" "jupyter")
       remotekernel ssh_key user)).
  { apply quiet_run_remote; [by intros []|].
    apply quiet_provision.
    - intros out err (sudo' & file & [-> | ->] & Heq);
        unfold cmd_install_reqs, cmd_does_venv_exist in Heq; simpl in Heq;
        discriminate.
    - intros out err (sudo' & file & [-> | ->] & Heq);
        unfold cmd_install_reqs, cmd_create_venv in Heq; simpl in Heq;
        discriminate.
    - intros out err (sudo' & file & [-> | ->] & Heq);
        unfold cmd_install_reqs in Heq; simpl in Heq; discriminate.
    - intros sudo out err Hs. by apply install_jupyter_not_requirements.
    - intros out err (sudo' & file & [-> | ->] & Heq);
        unfold cmd_install_reqs, cmd_does_remote_kernel_exist in Heq;
        simpl in Heq; discriminate.
    - intros sudo out err Hs. by apply ipykernel_not_requirements. }
  destruct (Hprov w) as [Hq _]. rewrite Hcreate.
  destruct (connect_reply ssh (uri remotekernel) user ssh_key) as [e|] eqn:Hc.
  - rewrite run_remote_refused with (e := e) by done.
    rewrite run_remote_refused with (e := e) in Hq by done.
    eexists _, _. split; [reflexivity|]. split; [exact Hq|].
    intros r w1. rewrite run_remote_refused with (e := e) by done. intros [=].
  - rewrite run_remote_connected by done.
    rewrite run_remote_connected in Hq by done.
    unfold __create. rewrite bind_run.
    destruct (provision _ _ _ _ _ _ _) as [[[overwrite sudo]|e] w1] eqn:Hp;
      simpl in Hq.
    + exists TypeError, w1. split.
      { unfold finish. rewrite bind_run. unfold install_requirements.
        rewrite Hreq. reflexivity. }
      split; [exact Hq|].
      intros r w2. rewrite run_remote_connected by done. rewrite Hp.
      by intros [= _ <-].
    + eexists _, _. split; [reflexivity|]. split; [exact Hq|].
      intros r w2. rewrite run_remote_connected by done. rewrite Hp.
      intros [=].
Qed.


(** ** C5: the venv is created only when the probe finds none *)

Lemma count_char_app c s t :
  count_char c (s +:+ t) = count_char c s + count_char c t.
Proof. induction s as [|a s IH]; simpl; [done|]. rewrite IH. lia. Qed.

Lemma count_char_posix_join c a b :
  c ≠ "/"%char → startswith b "/" = false →
  count_char c (posix_join a b) = count_char c a + count_char c b.
Proof.
  intros Hc Hb. unfold posix_join. rewrite Hb.
  destruct (_ || _); rewrite !count_char_app; [done|].
  simpl. rewrite bool_decide_eq_false_2 by done. lia.
Qed.

(** The listing of remote kernels is neither command of the venv step:
    the probe has one more bracket, the creation one more equals sign. *)
Lemma kernelspec_list_not_venv_step remotekernel dir out err :
  ¬ venv_step_event (cmd_does_venv_exist (PStr dir))
      (cmd_create_venv remotekernel (PStr dir))
      (Exec (cmd_does_remote_kernel_exist (posix_join dir "jupyter")) out err).
Proof.
  unfold venv_step_event, cmd_does_remote_kernel_exist, cmd_does_venv_exist,
    cmd_create_venv. simpl py_str. intros [Heq | Heq].
  - apply (f_equal (count_char "[")) in Heq.
    rewrite !count_char_app, count_char_posix_join in Heq by done.
    unfold dquote in Heq. count_closed. lia.
  - apply (f_equal (count_char "=")) in Heq.
    rewrite !count_char_app, count_char_posix_join in Heq by done.
    count_closed. lia.
Qed.

Lemma sudo_command_not_venv_step remotekernel dir sudo rest out err :
  sudo_value sudo →
  ¬ venv_step_event (cmd_does_venv_exist (PStr dir))
      (cmd_create_venv remotekernel (PStr dir))
      (Exec (sudo +:+ " " +:+ rest) out err).
Proof.
  unfold venv_step_event, cmd_does_venv_exist, cmd_create_venv.
  intros [-> | ->] [Heq | Heq]; simpl in Heq; discriminate.
Qed.

Lemma preserves_mono {A} (I J : world → world → Prop) (P : A → Prop) (m : M A) :
  (∀ w w', I w w' → J w w') → preserves I P m → preserves J P m.
Proof. intros HIJ Hm w. destruct (Hm w). split; [by apply HIJ|done]. Qed.

Lemma grown_execute_ssh φ cmd :
  (∀ out err, φ (Exec cmd out err)) →
  preserves (grown_by φ) anything (__execute_ssh cmd).
Proof.
  intros H. eapply preserves_mono; [|by apply quiet_execute_ssh].
  by intros ?? [].
Qed.

Lemma grown_emit φ e : φ e → preserves (grown_by φ) anything (emit e).
Proof.
  intros H. eapply preserves_mono; [|by apply quiet_emit]. by intros ?? [].
Qed.

Lemma grown_run φ argv : φ (Run argv) → preserves (grown_by φ) anything (run argv).
Proof.
  intros H. eapply preserves_mono; [|by apply quiet_run]. by intros ?? [].
Qed.

Lemma grown_json_dump φ v : preserves (grown_by φ) anything (json_dump v).
Proof.
  intros w. split; [|done]. unfold json_dump.
  destruct (write_reply ssh (trace w)); exists []; simpl; by rewrite app_nil_r.
Qed.

Lemma grown_finish φ remotekernel requirements_file remote_venv_dir
    remote_pip_cmd remote_username overwrite sudo :
  (∀ local_path remote_path, φ (Put local_path remote_path)) →
  (∀ file out err, φ (Exec (cmd_install_reqs remote_pip_cmd sudo file) out err)) →
  (∀ argv, φ (Run argv)) →
  preserves (grown_by φ) anything
    (finish remotekernel requirements_file remote_venv_dir remote_pip_cmd
       remote_username overwrite sudo).
Proof.
  intros Hput Hreq Hrun. unfold finish.
  pose proof (grown_by_refl φ) as Hr. pose proof (grown_by_trans φ) as Ht.
  eapply (preserves_bind _ Ht anything).
  { unfold install_requirements. destruct (truthy _); [|by apply preserves_ret].
    eapply (preserves_bind _ Ht anything); [by apply preserves_lift|].
    intros file _.
    eapply (preserves_bind _ Ht anything); [by apply grown_emit|]. intros _ _.
    eapply (preserves_bind _ Ht anything); [by apply grown_execute_ssh|].
    intros _ _. by apply preserves_ret. }
  intros _ _. eapply (preserves_bind _ Ht anything).
  { unfold add_to_local_config.
    eapply (preserves_bind _ Ht anything); [by apply preserves_load|].
    intros kernel_dict _.
    eapply (preserves_bind _ Ht anything); [by apply preserves_lift|].
    intros kernel_dict' _. apply grown_json_dump. }
  intros _ _. unfold init_rk.
  eapply (preserves_bind _ Ht anything); [|intros _ _; by apply grown_run].
  destruct overwrite; [by apply grown_run|by apply preserves_ret].
Qed.

Lemma check_local_world remotekernel kwargs w :
  (check_local remotekernel kwargs w).2 = w.
Proof.
  by destruct (preserves_check_local (λ w w', w' = w)
    (λ _, eq_refl) (λ a b c Hab Hbc, eq_trans Hbc Hab) remotekernel kwargs w).
Qed.

(** The venv step on a descriptor with a venv name: the probe, then the
    creation exactly when the probe printed nothing. *)
Lemma find_or_create_venv_run remotekernel remote_venv_dir w :
  truthy (venv_name remotekernel) = true →
  ∃ out err created,
    find_or_create_venv remotekernel remote_venv_dir w =
    (Ok tt,
     {| manifest_file := manifest_file w;
        trace := trace w
                 ++ Exec (cmd_does_venv_exist remote_venv_dir) out err :: created |})
    ∧ ((out = EmptyString
        ∧ ∃ o e, created = [Exec (cmd_create_venv remotekernel remote_venv_dir) o e])
       ∨ (out ≠ EmptyString ∧ created = [])).
Proof.
  intros Hvenv. unfold find_or_create_venv. rewrite Hvenv.
  rewrite bind_run. unfold __execute_ssh at 1.
  destruct (exec_reply ssh (trace w) (cmd_does_venv_exist remote_venv_dir))
    as [out err] eqn:Hprobe.
  exists out, err. simpl. case_bool_decide as Hout; simpl.
  - rewrite bind_run. unfold __execute_ssh. simpl.
    destruct (exec_reply ssh _ (cmd_create_venv remotekernel remote_venv_dir))
      as [o e].
    eexists. split; [|left; eauto]. simpl. by rewrite <- app_assoc.
  - exists []. split; [done|]. by right.
Qed.

Lemma os_path_join1_or_empty dir :
  os_path_join1 (py_or (PStr dir) (PStr EmptyString)) = Ok dir.
Proof. by destruct dir. Qed.

(** The venv step within the events of one [create], with the probe and
    the creation command as [find_or_create_venv] builds them. *)
Lemma create_venv_step_events (remotekernel : RemoteKernel)
    (ssh_key requirements_file : pyval) (kwargs : gmap string pyval) (w : world) :
  truthy (venv_name remotekernel) = true →
  match os_path_join (py_or (kwargs_get kwargs "remote_venv_root_dir") (PStr "~/"))
          (venv_name remotekernel) with
  | Raise e => create remotekernel ssh_key requirements_file kwargs w = (Raise e, w)
  | Ok dir =>
      ∃ evs,
        trace (create remotekernel ssh_key requirements_file kwargs w).2
          = trace w ++ evs
        ∧ ((∃ out err, Exec (cmd_create_venv remotekernel (PStr dir)) out err ∈ evs)
           ↔ (∃ err, Exec (cmd_does_venv_exist (PStr dir)) EmptyString err ∈ evs))
        ∧ ((∃ overwrite w1,
              __run_remote (check_local remotekernel kwargs) remotekernel ssh_key
                (py_or (kwargs_get kwargs "remote_username") (PStr "ubuntu")) w
              = (Ok overwrite, w1)) →
           ∃ out err, Exec (cmd_does_venv_exist (PStr dir)) out err ∈ evs)
  end.
Proof.
  intros Hvenv.
  set (user := py_or (kwargs_get kwargs "remote_username") (PStr "ubuntu")).
  destruct (os_path_join _ _) as [dir|e] eqn:Hjoin.
  2: { unfold create. rewrite Hvenv, Hjoin. reflexivity. }
  assert (Hcreate : create remotekernel ssh_key requirements_file kwargs w =
    __run_remote
      (__create remotekernel requirements_file kwargs (PStr dir)
         (posix_join dir "python") (posix_join dir "pip")
         (posix_join dir "jupyter") user) remotekernel ssh_key user w).
  { unfold create. rewrite Hvenv, Hjoin. rewrite bind_run. simpl.
    rewrite bind_run. unfold lift at 1. rewrite os_path_join1_or_empty.
    reflexivity. }
  rewrite Hcreate.
  set (probe := cmd_does_venv_exist (PStr dir)).
  set (creation := cmd_create_venv remotekernel (PStr dir)).
  set (φ := λ e, ¬ venv_step_event probe creation e).
  destruct (connect_reply ssh (uri remotekernel) user ssh_key) as [e|] eqn:Hc.
  { rewrite run_remote_refused with (e := e) by done. simpl.
    exists [Connect (uri remotekernel) user ssh_key]. split; [done|]. split.
    - split; [intros (? & ? & H)|intros (? & H)];
        apply list_elem_of_singleton in H; discriminate.
    - intros (ov & w1 & H).
      rewrite run_remote_refused with (e := e) in H by done. discriminate. }
  rewrite run_remote_connected by done.
  set (w0 := {| manifest_file := manifest_file w;
                trace := trace w ++ [Connect (uri remotekernel) user ssh_key] |}).
  unfold __create. rewrite bind_run. unfold provision. rewrite bind_run.
  pose proof (check_local_world remotekernel kwargs w0) as Hw0.
  destruct (check_local remotekernel kwargs w0) as [[ov|e] w0'] eqn:Hcl;
    simpl in Hw0; subst w0'.
  2: { simpl. exists [Connect (uri remotekernel) user ssh_key]. split; [done|].
       split.
       - split; [intros (? & ? & H)|intros (? & H)];
           apply list_elem_of_singleton in H; discriminate.
       - intros (ov & w1 & H).
         rewrite run_remote_connected in H by done. fold w0 in H.
         rewrite Hcl in H. discriminate. }
  rewrite bind_run.
  destruct (find_or_create_venv_run remotekernel (PStr dir) w0 Hvenv)
    as (out & err & created & Hrun & Hcreated).
  rewrite Hrun. rewrite <- bind_run.
  match goal with |- context [(?m ≫= ?k) ?w2] =>
    assert (Htail : preserves (grown_by φ) anything (m ≫= k));
      [|destruct (Htail w2) as [(rest & Htrace & Hrest) _]; rewrite Htrace]
  end.
  { eapply (preserves_bind _ (grown_by_trans φ)
              (λ r : bool * string, sudo_value r.2)).
    - apply (preserves_mono (quiet φ)); [by intros ?? []|].
      apply quiet_after_venv.
      + intros o e' [Heq | Heq]; simpl in Heq; discriminate.
      + intros sudo o e' Hs. by apply sudo_command_not_venv_step.
      + intros o e'. apply kernelspec_list_not_venv_step.
      + intros sudo o e' Hs. by apply sudo_command_not_venv_step.
    - intros [overwrite sudo] Hs. apply grown_finish.
      + by intros ?? [].
      + intros file o e'. by apply sudo_command_not_venv_step.
      + by intros ? []. }
  simpl.
  exists ([Connect (uri remotekernel) user ssh_key]
          ++ Exec probe out err :: created ++ rest).
  split; [by rewrite <- !app_assoc|].
  assert (Hno : ∀ cmd o e', Exec cmd o e' ∈ rest → cmd ≠ probe ∧ cmd ≠ creation).
  { intros cmd o e' Hin. rewrite Forall_forall in Hrest.
    specialize (Hrest _ Hin). unfold φ in Hrest. simpl in Hrest. tauto. }
  assert (Hdiff : probe ≠ creation) by (intros Heq; simpl in Heq; discriminate).
  split; [|intros _; exists out, err; apply elem_of_app; right; apply elem_of_cons; by left].
  split.
  - intros (o & e' & Hin).
    rewrite elem_of_app, list_elem_of_singleton, elem_of_cons, elem_of_app in Hin.
    destruct Hin as [Hin | [Hin | [Hin | Hin]]]; [discriminate|congruence| |].
    + destruct Hcreated as [[-> _] | [_ ->]].
      * exists err. apply elem_of_app. right. apply elem_of_cons. by left.
      * by apply elem_of_nil in Hin.
    + apply Hno in Hin. tauto.
  - intros (e' & Hin).
    rewrite elem_of_app, list_elem_of_singleton, elem_of_cons, elem_of_app in Hin.
    destruct Hin as [Hin | [Hin | [Hin | Hin]]]; [discriminate| | |].
    + injection Hin as <- <-.
      destruct Hcreated as [[_ (o & e2 & ->)] | [Hout _]]; [|done].
      exists o, e2. apply elem_of_app. right. apply elem_of_cons. right.
      apply elem_of_app. left. by apply list_elem_of_singleton.
    + destruct Hcreated as [[_ (o & e2 & ->)] | [_ ->]].
      * apply list_elem_of_singleton in Hin. injection Hin as Heq _ _.
        by destruct Hdiff.
      * by apply elem_of_nil in Hin.
    + apply Hno in Hin. tauto.
Qed.

(** C5.  On a descriptor with a venv name whose directory resolves to
    [dir], among the events of one [create] the creation command
    [virtualenv -p=<interpreter> <dir>] occurs exactly when the probe
    [[ -d <dir> ] && echo "True"] occurs with nothing on its standard
    output; a probe that printed something is followed by no creation.  The
    probe is issued whenever the session opens and the local duplicate check
    passes.  When the directory does not resolve, [create] raises before
    doing anything.  The two commands are written out character by
    character; character 34 is the double quote. *)
Theorem create_venv_created_iff_probe_absent (remotekernel : RemoteKernel)
    (ssh_key requirements_file : pyval) (kwargs : gmap string pyval) (w : world) :
  truthy (venv_name remotekernel) = true →
  match os_path_join (py_or (kwargs_get kwargs "remote_venv_root_dir") (PStr "~/"))
          (venv_name remotekernel) with
  | Raise e => create remotekernel ssh_key requirements_file kwargs w = (Raise e, w)
  | Ok dir =>
      ∃ evs,
        trace (create remotekernel ssh_key requirements_file kwargs w).2
          = trace w ++ evs
        ∧ ((∃ out err,
              Exec ("virtualenv -p=" +:+ py_str (python_cmd remotekernel)
                    +:+ " " +:+ dir) out err ∈ evs)
           ↔ (∃ err,
                Exec ("[ -d " +:+ dir +:+ " ] && echo "
                      +:+ String (ascii_of_nat 34) "True"
                      +:+ String (ascii_of_nat 34) EmptyString)
                  EmptyString err ∈ evs))
        ∧ ((∃ overwrite w1,
              __run_remote (check_local remotekernel kwargs) remotekernel ssh_key
                (py_or (kwargs_get kwargs "remote_username") (PStr "ubuntu")) w
              = (Ok overwrite, w1)) →
           ∃ out err,
             Exec ("[ -d " +:+ dir +:+ " ] && echo "
                   +:+ String (ascii_of_nat 34) "True"
                   +:+ String (ascii_of_nat 34) EmptyString) out err ∈ evs)
  end.
Proof.
  intros Hvenv.
  exact (create_venv_step_events remotekernel ssh_key requirements_file kwargs w
           Hvenv).
Qed.

(** ** Re-creating a kernel that the manifest already holds *)

Lemma comprehension_total {A B} (f : A → result (option B)) (xs : list A) :
  (∀ x, x ∈ xs → ∃ o, f x = Ok o) →
  ∃ ys, comprehension f xs = Ok ys
        ∧ ∀ y, y ∈ ys ↔ ∃ x, x ∈ xs ∧ f x = Ok (Some y).
Proof.
  induction xs as [|x xs IH]; intros Hall; simpl.
  - exists []. split; [done|]. intros y. split.
    + by intros ?%elem_of_nil.
    + by intros (x & ?%elem_of_nil & _).
  - destruct (Hall x) as [o Ho]; [by left|]. rewrite Ho.
    destruct IH as (ys & -> & Hys); [intros; apply Hall; by right|].
    eexists. split; [reflexivity|]. intros y.
    destruct o as [y0|].
    + rewrite elem_of_cons, Hys. split.
      * intros [-> | (x' & Hx' & Hf)]; [exists x; split; [by left|done]|].
        exists x'. split; [by right|done].
      * intros (x' & [-> | Hx']%elem_of_cons & Hf).
        -- left. congruence.
        -- right. eauto.
    + rewrite Hys. split.
      * intros (x' & Hx' & Hf). exists x'. split; [by right|done].
      * intros (x' & [-> | Hx']%elem_of_cons & Hf); [congruence|eauto].
Qed.

Lemma comprehension_ok_inv {A B} (f : A → result (option B)) (xs : list A) ys :
  comprehension f xs = Ok ys → ∀ x, x ∈ xs → ∃ o, f x = Ok o.
Proof.
  revert ys. induction xs as [|x xs IH]; intros ys Hc x' Hin.
  - by apply elem_of_nil in Hin.
  - simpl in Hc. destruct (f x) as [o|e] eqn:Hf; [|discriminate].
    destruct (comprehension f xs) as [ys'|e] eqn:Hrest; [|discriminate].
    apply elem_of_cons in Hin as [-> | Hin]; [eauto|]. by eapply IH.
Qed.

(** [get_installed] on a manifest that is a dict. *)
Lemma get_installed_run uri_ w kernel_dict :
  manifest_file w = FileJson (PDict kernel_dict) →
  get_installed uri_ w =
  (comprehension (installed_entry uri_) (map_to_list kernel_dict), w).
Proof.
  intros Hf. unfold get_installed. rewrite bind_run.
  unfold __get_local_kernelspec_dict. rewrite Hf. reflexivity.
Qed.

(** The loop over the duplicates raises as soon as one of them carries
    the new kernel id, when [overwrite] is not set. *)
Lemma duplicates_loop_raises remotekernel kwargs (duplicates : list RemoteKernel)
    (overwrite : bool) w :
  truthy (kwargs_get kwargs "overwrite") = false →
  (∃ dupe, dupe ∈ duplicates ∧ rk_id dupe = rk_id remotekernel) →
  for_each duplicates (λ overwrite dupe,
    if bool_decide (rk_id dupe = rk_id remotekernel) then
      if truthy (kwargs_get kwargs "overwrite") then mret true
      else raise (PyException (already_exists_msg (rk_id dupe)))
    else mret overwrite) overwrite w
  = (Raise (PyException (already_exists_msg (rk_id remotekernel))), w).
Proof.
  intros Hov. revert overwrite.
  induction duplicates as [|x xs IH]; intros overwrite (dupe & Hin & Hid).
  - by apply elem_of_nil in Hin.
  - simpl. rewrite bind_run. case_bool_decide as Hx.
    + rewrite Hov, Hx. reflexivity.
    + apply elem_of_cons in Hin as [-> | Hin]; [done|]. simpl.
      apply IH. eauto.
Qed.

(** The entry of a record that carries the fields of a valid descriptor. *)
Lemma installed_entry_of_record remotekernel (record : gmap string pyval) :
  valid_descriptor remotekernel →
  record !! "remote_host" = Some (uri remotekernel) →
  default PNone (record !! "venv") = venv_name remotekernel →
  default PNone (record !! "interpreter") = python_cmd remotekernel →
  ∃ k, installed_entry PNone (rk_id remotekernel, PDict record) = Ok (Some k)
       ∧ rk_id k = rk_id remotekernel ∧ uri k = uri remotekernel
       ∧ venv_name k = venv_name remotekernel
       ∧ python_cmd k = python_cmd remotekernel.
Proof.
  intros (Hu & Hi & Hp) Hhost Hvenv Hinterp.
  unfold installed_entry, py_getitem, py_get. rewrite Hhost. simpl.
  unfold py_ne, py_eq. rewrite bool_decide_eq_false_2; simpl.
  2: { intros Heq. rewrite Heq in Hu. discriminate. }
  rewrite Hvenv, Hinterp. unfold RemoteKernel__init__.
  rewrite Hu, Hp. simpl. rewrite bool_decide_eq_false_2 by done. simpl.
  eexists. split; [reflexivity|]. done.
Qed.

(** With a venv name and a venv root of their documented types, the part
    of [create] that runs before the session opens does not raise. *)
Lemma create_typed_run remotekernel ssh_key requirements_file kwargs :
  is_opt_str (venv_name remotekernel) →
  is_opt_str (kwargs_get kwargs "remote_venv_root_dir") →
  ∃ remote_venv_dir remote_python_cmd remote_pip_cmd remote_jupyter_cmd,
  ∀ w,
    create remotekernel ssh_key requirements_file kwargs w =
    __run_remote
      (__create remotekernel requirements_file kwargs remote_venv_dir
         remote_python_cmd remote_pip_cmd remote_jupyter_cmd
         (py_or (kwargs_get kwargs "remote_username") (PStr "ubuntu")))
      remotekernel ssh_key
      (py_or (kwargs_get kwargs "remote_username") (PStr "ubuntu")) w.
Proof.
  intros Hvenv Hroot. unfold create.
  destruct (truthy (venv_name remotekernel)) eqn:Ht.
  - destruct (venv_name remotekernel) as [| |name|]; try done.
    assert (∃ root, py_or (kwargs_get kwargs "remote_venv_root_dir") (PStr "~/")
                    = PStr root) as [root ->].
    { unfold py_or. destruct (kwargs_get _ _) as [| |r|]; try done;
        simpl; [eauto|]. destruct (negb _); eauto. }
    eexists _, _, _, _. intros w. rewrite bind_run. simpl.
    rewrite bind_run. unfold lift at 1. rewrite os_path_join1_or_empty.
    reflexivity.
  - eexists _, _, _, _. intros w. reflexivity.
Qed.

(** The duplicate check at work.  When the session opens, the manifest
    reads back, and it holds under the new descriptor's kernel id a record
    whose stored remote host is the descriptor's host itself and whose venv
    and interpreter are the descriptor's, [create] without [overwrite] raises
    the already-exists exception; the manifest file is untouched and nothing
    was run on the remote.  A record written by hand can be such a record; no
    record that [create] wrote is, since [create] stores
    [<remote_username>@<host>]. *)
Lemma create_existing_without_overwrite_raises (remotekernel : RemoteKernel)
    (ssh_key requirements_file : pyval) (kwargs : gmap string pyval) (w : world)
    (kernel_dict record : gmap string pyval) :
  valid_descriptor remotekernel →
  is_opt_str (venv_name remotekernel) →
  is_opt_str (kwargs_get kwargs "remote_venv_root_dir") →
  connect_reply ssh (uri remotekernel)
    (py_or (kwargs_get kwargs "remote_username") (PStr "ubuntu")) ssh_key = None →
  manifest_file w = FileJson (PDict kernel_dict) →
  reconstructs kernel_dict →
  kernel_dict !! rk_id remotekernel = Some (PDict record) →
  record !! "remote_host" = Some (uri remotekernel) →
  default PNone (record !! "venv") = venv_name remotekernel →
  default PNone (record !! "interpreter") = python_cmd remotekernel →
  truthy (kwargs_get kwargs "overwrite") = false →
  ∃ e, AlreadyExistsError (rk_id remotekernel) e
    ∧ create remotekernel ssh_key requirements_file kwargs w =
      (Raise e,
       {| manifest_file := FileJson (PDict kernel_dict);
          trace := trace w ++ [Connect (uri remotekernel)
                     (py_or (kwargs_get kwargs "remote_username") (PStr "ubuntu"))
                     ssh_key] |}).
Proof.
  intros Hvalid Hvenv Hroot Hc Hf Hrec Hk Hhost Hv Hi Hov.
  eexists. split; [reflexivity|].
  destruct (create_typed_run remotekernel ssh_key requirements_file kwargs
              Hvenv Hroot) as (dir & py & pip & jup & ->).
  rewrite run_remote_connected by done. rewrite <- Hf.
  set (w0 := {| manifest_file := manifest_file w; trace := _ |}).
  unfold __create, provision. do 2 apply bind_raise.
  unfold check_local. rewrite bind_run.
  rewrite (get_installed_run PNone w0 kernel_dict) by done.
  destruct (comprehension_total (installed_entry PNone) (map_to_list kernel_dict))
    as (rks & -> & Hrks).
  { intros [x y] Hin%elem_of_map_to_list. by apply Hrec. }
  destruct (installed_entry_of_record remotekernel record)
    as (k & Hentry & Hid & Hu & Hve & Hpy); [done..|].
  assert (Hdupe : k ∈ filter
    (λ x, RemoteKernel__eq__ x (ObjKernel remotekernel) = true) rks).
  { apply list_elem_of_filter. split.
    - apply RemoteKernel_eq_spec. done.
    - apply Hrks. exists (rk_id remotekernel, PDict record).
      split; [by apply elem_of_map_to_list|done]. }
  rewrite bool_decide_eq_true_2.
  2: { destruct (filter _ rks); [by apply elem_of_nil in Hdupe|simpl; lia]. }
  apply duplicates_loop_raises; [done|]. eauto.
Qed.

(** ** Listing after a successful [create] *)

Lemma lift_ok_inv {A} (r : result A) w a w' :
  lift r w = (Ok a, w') → r = Ok a ∧ w' = w.
Proof. unfold lift. by intros [= -> ->]. Qed.

Lemma create_ok_inv remotekernel ssh_key requirements_file kwargs w w' :
  create remotekernel ssh_key requirements_file kwargs w = (Ok tt, w') →
  ∃ remote_venv_dir remote_python_cmd remote_pip_cmd remote_jupyter_cmd,
    __run_remote
      (__create remotekernel requirements_file kwargs remote_venv_dir
         remote_python_cmd remote_pip_cmd remote_jupyter_cmd
         (py_or (kwargs_get kwargs "remote_username") (PStr "ubuntu")))
      remotekernel ssh_key
      (py_or (kwargs_get kwargs "remote_username") (PStr "ubuntu")) w
    = (Ok tt, w').
Proof.
  unfold create. intros H.
  apply bind_ok_inv in H as (dir & w1 & [_ ->]%lift_ok_inv & H).
  apply bind_ok_inv in H as (bin & w2 & [_ ->]%lift_ok_inv & H).
  apply bind_ok_inv in H as (py & w3 & [_ ->]%lift_ok_inv & H).
  apply bind_ok_inv in H as (pip & w4 & [_ ->]%lift_ok_inv & H).
  apply bind_ok_inv in H as (jup & w5 & [_ ->]%lift_ok_inv & H).
  eauto.
Qed.

Lemma run_remote_ok_inv {A} (func : M A) remotekernel ssh_key username w a w' :
  __run_remote func remotekernel ssh_key username w = (Ok a, w') →
  func {| manifest_file := manifest_file w;
          trace := trace w ++ [Connect (uri remotekernel) username ssh_key] |}
  = (Ok a, w').
Proof.
  unfold __run_remote. rewrite bind_run. simpl.
  by destruct (connect_reply _ _ _ _).
Qed.

(** [get_installed] returns only on a manifest that is a dict. *)
Lemma get_installed_ok_inv uri_ w rks w' :
  get_installed uri_ w = (Ok rks, w') →
  w' = w
  ∧ ∃ kernel_dict, manifest_file w = FileJson (PDict kernel_dict)
      ∧ comprehension (installed_entry uri_) (map_to_list kernel_dict) = Ok rks.
Proof.
  unfold get_installed. intros H.
  apply bind_ok_inv in H as (v & w1 & Hload & H).
  unfold __get_local_kernelspec_dict in Hload.
  destruct (manifest_file w) as [| | |v'] eqn:Hf; try discriminate.
  injection Hload as -> ->.
  apply bind_ok_inv in H as (items & w2 & [Hitems ->]%lift_ok_inv & H).
  apply lift_ok_inv in H as [Hc ->]. split; [done|].
  destruct v as [| | |kernel_dict]; try discriminate.
  injection Hitems as <-. eauto.
Qed.

Lemma check_local_ok_inv remotekernel kwargs w overwrite w' :
  check_local remotekernel kwargs w = (Ok overwrite, w') →
  ∃ rks, get_installed PNone w = (Ok rks, w).
Proof.
  unfold check_local. intros H.
  apply bind_ok_inv in H as (rks & w1 & Hg & _).
  pose proof Hg as [-> _]%get_installed_ok_inv. eauto.
Qed.

Lemma same_manifest_install_requirements requirements_file remote_venv_dir
    remote_pip_cmd sudo :
  preserves same_manifest anything
    (install_requirements requirements_file remote_venv_dir remote_pip_cmd sudo).
Proof.
  apply (preserves_mono (quiet (λ _, True))); [by intros ?? []|].
  pose proof (quiet_refl (λ _, True)) as Hr.
  pose proof (quiet_trans (λ _, True)) as Ht.
  unfold install_requirements. destruct (truthy _); [|by apply preserves_ret].
  eapply (preserves_bind _ Ht anything); [by apply preserves_lift|].
  intros file _.
  eapply (preserves_bind _ Ht anything); [by apply quiet_emit|]. intros _ _.
  eapply (preserves_bind _ Ht anything); [by apply quiet_execute_ssh|].
  intros _ _. by apply preserves_ret.
Qed.

Lemma same_manifest_init_rk remotekernel overwrite :
  preserves same_manifest anything (init_rk remotekernel overwrite).
Proof.
  apply (preserves_mono (quiet (λ _, True))); [by intros ?? []|].
  pose proof (quiet_refl (λ _, True)) as Hr.
  pose proof (quiet_trans (λ _, True)) as Ht.
  unfold init_rk.
  eapply (preserves_bind _ Ht anything); [|intros _ _; by apply quiet_run].
  destruct overwrite; [by apply quiet_run|by apply preserves_ret].
Qed.

Lemma add_to_local_config_ok_inv remotekernel remote_username w w' :
  add_to_local_config remotekernel remote_username w = (Ok tt, w') →
  ∃ kernel_dict,
    manifest_file w = FileJson (PDict kernel_dict)
    ∧ manifest_file w' =
      FileJson (PDict (<[rk_id remotekernel :=
                           PDict (manifest_record remotekernel remote_username)]>
                         kernel_dict)).
Proof.
  unfold add_to_local_config. intros H.
  apply bind_ok_inv in H as (v & w1 & Hload & H).
  unfold __get_local_kernelspec_dict in Hload.
  destruct (manifest_file w) as [| | |v'] eqn:Hf; try discriminate.
  injection Hload as -> ->.
  apply bind_ok_inv in H as (v2 & w2 & [Hset ->]%lift_ok_inv & H).
  destruct v as [| | |kernel_dict]; try discriminate.
  injection Hset as <-. unfold json_dump, set_manifest in H. simpl in H.
  destruct (write_reply ssh _); [discriminate|].
  injection H as <-. eauto.
Qed.

Lemma same_manifest_provision remotekernel kwargs remote_venv_dir
    remote_python_cmd remote_pip_cmd remote_jupyter_cmd :
  preserves same_manifest anything
    (provision remotekernel kwargs remote_venv_dir
       remote_python_cmd remote_pip_cmd remote_jupyter_cmd).
Proof.
  apply (preserves_mono (quiet (λ _, True))); [by intros ?? []|].
  eapply preserves_weaken; [by apply quiet_provision|done].
Qed.

Lemma remote_host_truthy user host : truthy (PStr (user +:+ "@" +:+ host)) = true.
Proof. by destruct user. Qed.

(** What the listing holds after a successful [create] of a valid
    descriptor: [get_installed] with no filter returns, and its list holds
    under the descriptor's kernel id a descriptor with the same venv and
    interpreter whose host is the stored remote host,
    [<remote_username>@<host>]. *)
Lemma create_then_get_installed_lists_kernel (remotekernel : RemoteKernel)
    (ssh_key requirements_file : pyval) (kwargs : gmap string pyval)
    (w w' : world) :
  valid_descriptor remotekernel →
  create remotekernel ssh_key requirements_file kwargs w = (Ok tt, w') →
  ∃ rks k,
    get_installed PNone w' = (Ok rks, w')
    ∧ k ∈ rks
    ∧ rk_id k = rk_id remotekernel
    ∧ uri k = PStr (py_str (py_or (kwargs_get kwargs "remote_username")
                                   (PStr "ubuntu"))
                    +:+ "@" +:+ py_str (uri remotekernel))
    ∧ venv_name k = venv_name remotekernel
    ∧ python_cmd k = python_cmd remotekernel.
Proof.
  intros Hvalid Hcreate.
  set (user := py_or (kwargs_get kwargs "remote_username") (PStr "ubuntu")) in *.
  apply create_ok_inv in Hcreate as (dir & py & pip & jup & Hrun).
  apply run_remote_ok_inv in Hrun.
  set (w0 := {| manifest_file := manifest_file w; trace := _ |}) in Hrun.
  unfold __create in Hrun.
  apply bind_ok_inv in Hrun as ([overwrite sudo] & w1 & Hprov & Hfinish).
  destruct (same_manifest_provision remotekernel kwargs dir py pip jup w0)
    as [Hm1 _]. rewrite Hprov in Hm1. simpl in Hm1.
  unfold provision in Hprov.
  apply bind_ok_inv in Hprov as (ov & w0' & Hcl & _).
  apply check_local_ok_inv in Hcl as (rks0 & Hg0).
  apply get_installed_ok_inv in Hg0 as (_ & kernel_dict & Hf0 & Hc0).
  unfold finish in Hfinish.
  apply bind_ok_inv in Hfinish as ([] & w2 & Hreq & Hfinish).
  destruct (same_manifest_install_requirements requirements_file dir pip sudo w1)
    as [Hm2 _]. rewrite Hreq in Hm2. simpl in Hm2.
  apply bind_ok_inv in Hfinish as ([] & w3 & Hadd & Hinit).
  apply add_to_local_config_ok_inv in Hadd as (kernel_dict' & Hf2 & Hf3).
  destruct (same_manifest_init_rk remotekernel overwrite w3) as [Hm3 _].
  rewrite Hinit in Hm3. simpl in Hm3.
  unfold same_manifest in *.
  assert (kernel_dict' = kernel_dict) as -> by congruence.
  rewrite <- Hm3 in Hf3.
  set (record := manifest_record remotekernel user) in *.
  set (stored := {| rk_id := rk_id remotekernel;
                    uri := PStr (py_str user +:+ "@" +:+ py_str (uri remotekernel));
                    python_cmd := python_cmd remotekernel;
                    venv_name := venv_name remotekernel;
                    display_name := PNone |}).
  destruct (installed_entry_of_record stored record)
    as (k & Hentry & Hid & Hu & Hv & Hp).
  { destruct Hvalid as (_ & Hi & Hpy). split_and!; [|done..].
    apply remote_host_truthy. }
  { done. }
  { done. }
  { done. }
  simpl in Hid, Hu, Hv, Hp.
  rewrite (get_installed_run PNone w' _ Hf3).
  destruct (comprehension_total (installed_entry PNone)
              (map_to_list (<[rk_id remotekernel := PDict record]> kernel_dict)))
    as (rks & Hcomp & Hrks).
  { intros [x y] Hin%elem_of_map_to_list.
    destruct (decide (x = rk_id remotekernel)) as [-> | Hne].
    - rewrite lookup_insert_eq in Hin. injection Hin as <-. eauto.
    - rewrite lookup_insert_ne in Hin by done.
      eapply comprehension_ok_inv; [exact Hc0|]. by apply elem_of_map_to_list. }
  exists rks, k. split; [subst record user; by rewrite Hcomp|].
  split; [|done]. apply Hrks. exists (rk_id remotekernel, PDict record). split; [|done].
  apply elem_of_map_to_list. apply lookup_insert_eq.
Qed.

(** ** C4: the look-up of remote registrations *)

(** What the look-up step does: it runs the listing, and raises exactly
    when [overwrite] is not set and the kernel id equals what standard
    error holds before its first backslash-s.  Standard output plays no
    part. *)
Lemma check_remote_run remotekernel kwargs remote_jupyter_cmd w :
  let cmd := cmd_does_remote_kernel_exist remote_jupyter_cmd in
  let reply := exec_reply ssh (trace w) cmd in
  check_remote remotekernel kwargs remote_jupyter_cmd w =
  (if bool_decide (rk_id remotekernel = split_head "\s" reply.2)
      && negb (truthy (kwargs_get kwargs "overwrite"))
   then Raise (PyException (remote_exists_msg (rk_id remotekernel)))
   else Ok tt,
   {| manifest_file := manifest_file w;
      trace := trace w ++ [Exec cmd reply.1 reply.2] |}).
Proof.
  intros cmd reply. unfold check_remote. rewrite bind_run.
  unfold __execute_ssh. fold cmd. fold reply.
  destruct reply as [stdout stderr]. simpl.
  rewrite (bool_decide_ext _ (rk_id remotekernel = split_head "\s" stderr))
    by apply list_elem_of_singleton.
  case_bool_decide; [|done]. by destruct (truthy _).
Qed.

(** ** [get_installed]: when it returns, and what it lists *)

Lemma installed_entry_dict uri_ x r h :
  r !! "remote_host" = Some h →
  installed_entry uri_ (x, PDict r) =
  if decide (h = uri_) then Ok None
  else if truthy h && negb (bool_decide (x = EmptyString))
          && truthy (default PNone (r !! "interpreter"))
       then Ok (Some (listed x r h))
       else Raise ValueError.
Proof.
  intros Hh. unfold installed_entry, py_getitem, py_get. rewrite Hh. simpl.
  unfold py_ne, py_eq. destruct (decide (h = uri_)) as [-> | Hne].
  - by rewrite bool_decide_eq_true_2.
  - rewrite bool_decide_eq_false_2 by done. simpl.
    unfold RemoteKernel__init__. simpl.
    destruct (truthy h); simpl; [|done].
    destruct (bool_decide (x = EmptyString)); simpl; [done|].
    by destruct (truthy (default PNone (r !! "interpreter"))).
Qed.

Lemma installed_entry_ok_iff uri_ x y :
  (∃ o, installed_entry uri_ (x, y) = Ok o) ↔ entry_ok uri_ x y.
Proof.
  unfold entry_ok. split.
  - intros [o Ho]. destruct y as [| | |r]; try discriminate.
    destruct (r !! "remote_host") as [h|] eqn:Hh.
    2: { unfold installed_entry, py_getitem in Ho. rewrite Hh in Ho.
         discriminate. }
    exists r, h. split_and!; [done..|].
    rewrite (installed_entry_dict _ _ _ _ Hh) in Ho.
    destruct (decide (h = uri_)); [by left|right].
    destruct (truthy h); [|discriminate].
    case_bool_decide; [discriminate|].
    destruct (truthy (default _ _)); [done|discriminate].
  - intros (r & h & -> & Hh & Hcase).
    rewrite (installed_entry_dict _ _ _ _ Hh).
    destruct (decide (h = uri_)); [eauto|].
    destruct Hcase as [? | (-> & Hx & ->)]; [done|].
    rewrite bool_decide_eq_false_2 by done. eauto.
Qed.

Lemma installed_entry_some_iff uri_ x y k :
  installed_entry uri_ (x, y) = Ok (Some k) ↔
  ∃ r h, y = PDict r ∧ r !! "remote_host" = Some h ∧ h ≠ uri_
         ∧ truthy h = true ∧ x ≠ EmptyString
         ∧ truthy (default PNone (r !! "interpreter")) = true
         ∧ k = listed x r h.
Proof.
  split.
  - intros Hk. destruct y as [| | |r]; try discriminate.
    destruct (r !! "remote_host") as [h|] eqn:Hh.
    2: { unfold installed_entry, py_getitem in Hk. rewrite Hh in Hk.
         discriminate. }
    rewrite (installed_entry_dict _ _ _ _ Hh) in Hk.
    destruct (decide (h = uri_)); [discriminate|].
    destruct (truthy h) eqn:Ht; [|discriminate].
    case_bool_decide; [discriminate|].
    destruct (truthy (default _ _)) eqn:Hi; [|discriminate].
    injection Hk as <-. exists r, h. by split_and!.
  - intros (r & h & -> & Hh & Hne & Ht & Hx & Hi & ->).
    rewrite (installed_entry_dict _ _ _ _ Hh).
    rewrite decide_False by done. rewrite Ht, Hi.
    by rewrite bool_decide_eq_false_2.
Qed.

Lemma get_installed_world uri_ w : (get_installed uri_ w).2 = w.
Proof.
  by destruct (preserves_get_installed (λ w w', w' = w)
    (λ _, eq_refl) (λ a b c Hab Hbc, eq_trans Hbc Hab) uri_ w).
Qed.

(** X1.  [get_installed] leaves the world as it was.  It returns exactly
    when the manifest file holds a dict every entry of which is a dict with a
    [remote_host] that equals the filter, or is non-empty and comes with a
    non-empty key and interpreter; one entry that is not makes the whole
    listing raise. *)
Theorem get_installed_returns_iff (uri_ : pyval) (w : world) :
  (get_installed uri_ w).2 = w
  ∧ ((∃ rks, (get_installed uri_ w).1 = Ok rks) ↔
     ∃ kernel_dict, manifest_file w = FileJson (PDict kernel_dict)
       ∧ ∀ x y, kernel_dict !! x = Some y → entry_ok uri_ x y).
Proof.
  split; [apply get_installed_world|]. split.
  - intros [rks Hr].
    destruct (get_installed uri_ w) as [r w'] eqn:Hg. simpl in Hr. subst r.
    apply get_installed_ok_inv in Hg as (_ & kernel_dict & Hf & Hc).
    exists kernel_dict. split; [done|]. intros x y Hxy.
    apply installed_entry_ok_iff.
    eapply comprehension_ok_inv; [exact Hc|]. by apply elem_of_map_to_list.
  - intros (kernel_dict & Hf & Hall).
    rewrite (get_installed_run _ _ _ Hf). simpl.
    destruct (comprehension_total (installed_entry uri_) (map_to_list kernel_dict))
      as (rks & Hc & _); [|eauto].
    intros [x y] Hin%elem_of_map_to_list.
    apply installed_entry_ok_iff. by apply Hall.
Qed.

(** The descriptors of a returned listing are the entries whose host is
    not the filter. *)
Lemma listing_elem uri_ kernel_dict rks k :
  comprehension (installed_entry uri_) (map_to_list kernel_dict) = Ok rks →
  k ∈ rks ↔
  ∃ r, kernel_dict !! rk_id k = Some (PDict r)
       ∧ r !! "remote_host" = Some (uri k) ∧ uri k ≠ uri_
       ∧ k = listed (rk_id k) r (uri k).
Proof.
  intros Hc.
  destruct (comprehension_total (installed_entry uri_) (map_to_list kernel_dict))
    as (rks' & Hc' & Hrks).
  { by eapply comprehension_ok_inv. }
  rewrite Hc in Hc'. injection Hc' as <-. rewrite Hrks. split.
  - intros ([x y] & Hin%elem_of_map_to_list & Hk).
    apply installed_entry_some_iff
      in Hk as (r & h & -> & Hh & Hne & _ & _ & _ & ->).
    exists r. by split_and!.
  - intros (r & Hr & Hh & Hne & Hk).
    exists (rk_id k, PDict r). split; [by apply elem_of_map_to_list|].
    destruct (comprehension_ok_inv _ _ _ Hc (rk_id k, PDict r)) as [o Ho].
    { by apply elem_of_map_to_list. }
    rewrite Ho. rewrite (installed_entry_dict _ _ _ _ Hh) in Ho.
    rewrite decide_False in Ho by done.
    destruct (_ && _); [|discriminate]. injection Ho as <-. by rewrite <- Hk.
Qed.

(** X2.  What a returned listing holds: a descriptor is in it exactly
    when the manifest has, under the descriptor's kernel id, a dict whose
    [remote_host] is the descriptor's host and not the filter, and the
    descriptor is the one built from that entry, with venv and interpreter
    read from the record and the display name [<remote_host> :: <id>].  The
    stored display name is not read back.  Every listed descriptor is one
    the constructor accepts. *)
Theorem get_installed_lists_entries (uri_ : pyval) (w w' : world)
    (kernel_dict : gmap string pyval) (rks : list RemoteKernel) :
  manifest_file w = FileJson (PDict kernel_dict) →
  get_installed uri_ w = (Ok rks, w') →
  ∀ k, (k ∈ rks ↔
        ∃ r, kernel_dict !! rk_id k = Some (PDict r)
             ∧ r !! "remote_host" = Some (uri k) ∧ uri k ≠ uri_
             ∧ k = listed (rk_id k) r (uri k))
       ∧ (k ∈ rks → valid_descriptor k).
Proof.
  intros Hf Hg k. rewrite (get_installed_run _ _ _ Hf) in Hg.
  injection Hg as Hc _. split; [by apply listing_elem|].
  intros Hin.
  destruct (comprehension_total (installed_entry uri_) (map_to_list kernel_dict))
    as (rks' & Hc' & Hrks).
  { by eapply comprehension_ok_inv. }
  rewrite Hc in Hc'. injection Hc' as <-.
  apply Hrks in Hin as ([x y] & _ & Hk).
  apply installed_entry_some_iff
    in Hk as (r & h & _ & _ & _ & Ht & Hx & Hi & ->).
  by split_and!.
Qed.

Lemma comprehension_sublist {A B C} (f : A → result (option B))
    (g : B → C) (h : A → C) (xs : list A) (ys : list B) :
  (∀ x y, f x = Ok (Some y) → g y = h x) →
  comprehension f xs = Ok ys →
  sublist (g <$> ys) (h <$> xs).
Proof.
  intros Hgh. revert ys. induction xs as [|x xs IH]; intros ys Hc; simpl in Hc.
  - injection Hc as <-. constructor.
  - destruct (f x) as [o|e] eqn:Hf; [|discriminate].
    destruct (comprehension f xs) as [ys'|e] eqn:Hrest; [|discriminate].
    injection Hc as <-. specialize (IH ys' eq_refl).
    destruct o as [y|]; simpl.
    + rewrite (Hgh _ _ Hf). by constructor.
    + by constructor.
Qed.

(** X3.  A returned listing has at most one descriptor per kernel id,
    and no more descriptors than the manifest has entries. *)
Theorem get_installed_distinct_ids (uri_ : pyval) (w w' : world)
    (kernel_dict : gmap string pyval) (rks : list RemoteKernel) :
  manifest_file w = FileJson (PDict kernel_dict) →
  get_installed uri_ w = (Ok rks, w') →
  NoDup (rk_id <$> rks) ∧ length rks ≤ size kernel_dict.
Proof.
  intros Hf Hg. rewrite (get_installed_run _ _ _ Hf) in Hg.
  injection Hg as Hc _.
  assert (Hsub : sublist (rk_id <$> rks) ((map_to_list kernel_dict).*1)).
  { apply (comprehension_sublist (installed_entry uri_)); [|done].
    intros [x y] k Hk.
    by apply installed_entry_some_iff in Hk as (r & h & _ & _ & _ & _ & _ & _ & ->). }
  split.
  - exact (sublist_NoDup _ _ (NoDup_fst_map_to_list kernel_dict) Hsub).
  - apply sublist_length in Hsub.
    by rewrite !length_fmap, length_map_to_list in Hsub.
Qed.

(** ** The local duplicate check *)

Lemma duplicates_loop_none remotekernel kwargs (duplicates : list RemoteKernel)
    (overwrite : bool) w :
  (∀ dupe, dupe ∈ duplicates → rk_id dupe ≠ rk_id remotekernel) →
  for_each duplicates (λ overwrite dupe,
    if bool_decide (rk_id dupe = rk_id remotekernel) then
      if truthy (kwargs_get kwargs "overwrite") then mret true
      else raise (PyException (already_exists_msg (rk_id dupe)))
    else mret overwrite) overwrite w
  = (Ok overwrite, w).
Proof.
  induction duplicates as [|x xs IH]; intros Hall; [done|].
  simpl. rewrite bind_run.
  rewrite bool_decide_eq_false_2 by (apply Hall; by left). simpl.
  apply IH. intros dupe Hin. apply Hall. by right.
Qed.

Lemma duplicates_loop_stays_true remotekernel kwargs
    (duplicates : list RemoteKernel) w :
  truthy (kwargs_get kwargs "overwrite") = true →
  for_each duplicates (λ overwrite dupe,
    if bool_decide (rk_id dupe = rk_id remotekernel) then
      if truthy (kwargs_get kwargs "overwrite") then mret true
      else raise (PyException (already_exists_msg (rk_id dupe)))
    else mret overwrite) true w
  = (Ok true, w).
Proof.
  intros Hov. induction duplicates as [|x xs IH]; [done|].
  simpl. rewrite bind_run. rewrite Hov in IH |- *.
  case_bool_decide; simpl; exact IH.
Qed.

Lemma duplicates_loop_overwrite remotekernel kwargs (duplicates : list RemoteKernel)
    (overwrite : bool) w :
  truthy (kwargs_get kwargs "overwrite") = true →
  (∃ dupe, dupe ∈ duplicates ∧ rk_id dupe = rk_id remotekernel) →
  for_each duplicates (λ overwrite dupe,
    if bool_decide (rk_id dupe = rk_id remotekernel) then
      if truthy (kwargs_get kwargs "overwrite") then mret true
      else raise (PyException (already_exists_msg (rk_id dupe)))
    else mret overwrite) overwrite w
  = (Ok true, w).
Proof.
  intros Hov. revert overwrite.
  induction duplicates as [|x xs IH]; intros overwrite (dupe & Hin & Hid).
  - by apply elem_of_nil in Hin.
  - simpl. rewrite bind_run. case_bool_decide as Hx.
    + pose proof (duplicates_loop_stays_true remotekernel kwargs xs w Hov) as Ht.
      rewrite Hov in Ht |- *. exact Ht.
    + apply elem_of_cons in Hin as [-> | Hin]; [done|]. simpl.
      apply IH. eauto.
Qed.

(** A duplicate under the new kernel id is found exactly when the manifest
    holds the id with the descriptor's host, venv and interpreter. *)
Lemma same_id_duplicate_iff remotekernel kernel_dict rks :
  valid_descriptor remotekernel →
  comprehension (installed_entry PNone) (map_to_list kernel_dict) = Ok rks →
  (∃ dupe,
     dupe ∈ filter (λ x, RemoteKernel__eq__ x (ObjKernel remotekernel) = true) rks
     ∧ rk_id dupe = rk_id remotekernel)
  ↔ holds_same kernel_dict remotekernel.
Proof.
  intros (Hu & _ & _) Hc. unfold holds_same. split.
  - intros (dupe & [Heq Hin]%list_elem_of_filter & Hid).
    apply RemoteKernel_eq_spec in Heq as (Hur & Hv & Hp).
    apply (listing_elem _ _ _ _ Hc) in Hin as (r & Hr & Hh & _ & Hk).
    exists r. rewrite <- Hid, <- Hur, <- Hv, <- Hp.
    split_and!; [done..| |]; by rewrite Hk.
  - intros (r & Hr & Hh & Hv & Hp).
    exists (listed (rk_id remotekernel) r (uri remotekernel)). split; [|done].
    apply list_elem_of_filter. split.
    + apply RemoteKernel_eq_spec. by split_and!.
    + apply (listing_elem _ _ _ _ Hc). exists r. simpl. split_and!; [done..| |done].
      intros Heq. rewrite Heq in Hu. discriminate.
Qed.

(** The three cases of the local duplicate check. *)
Lemma check_local_run (remotekernel : RemoteKernel)
    (kwargs : gmap string pyval) (w : world) (kernel_dict : gmap string pyval) :
  valid_descriptor remotekernel →
  manifest_file w = FileJson (PDict kernel_dict) →
  (∀ x y, kernel_dict !! x = Some y → entry_ok PNone x y) →
  (holds_same kernel_dict remotekernel →
   check_local remotekernel kwargs w =
   (if truthy (kwargs_get kwargs "overwrite") then Ok true
    else Raise (PyException (already_exists_msg (rk_id remotekernel))), w))
  ∧ (¬ holds_same kernel_dict remotekernel →
     check_local remotekernel kwargs w = (Ok false, w)).
Proof.
  intros Hvalid Hf Hall.
  destruct (comprehension_total (installed_entry PNone) (map_to_list kernel_dict))
    as (rks & Hc & _).
  { intros [x y] Hin%elem_of_map_to_list.
    apply installed_entry_ok_iff. by apply Hall. }
  pose proof (same_id_duplicate_iff remotekernel kernel_dict rks Hvalid Hc)
    as Hdupe.
  unfold check_local. rewrite bind_run, (get_installed_run _ _ _ Hf), Hc.
  split.
  - intros Hsame. apply Hdupe in Hsame as Hex.
    rewrite bool_decide_eq_true_2.
    2: { destruct Hex as (dupe & Hin & _).
         destruct (filter _ rks); [by apply elem_of_nil in Hin|simpl; lia]. }
    destruct (truthy (kwargs_get kwargs "overwrite")) eqn:Hov.
    + pose proof (duplicates_loop_overwrite remotekernel kwargs _ false w Hov Hex)
        as Hloop.
      rewrite Hov in Hloop. exact Hloop.
    + pose proof (duplicates_loop_raises remotekernel kwargs _ false w Hov Hex)
        as Hloop.
      rewrite Hov in Hloop. exact Hloop.
  - intros Hnot. case_bool_decide; [|done].
    apply duplicates_loop_none. intros dupe Hin Hid. apply Hnot, Hdupe. eauto.
Qed.

(** X4.  The local duplicate check of [__create], on a manifest that
    lists.  It looks only at the entry under the new kernel id, and only if
    that entry has the descriptor's host, venv and interpreter: then it
    raises the already-exists exception, or returns [True] when [overwrite]
    is set.  In every other case it returns [False], whether or not the
    kernel id is already in the manifest and whatever [overwrite] is.  It
    never changes the world. *)
Theorem check_local_cases (remotekernel : RemoteKernel)
    (kwargs : gmap string pyval) (w : world) (kernel_dict : gmap string pyval) :
  valid_descriptor remotekernel →
  manifest_file w = FileJson (PDict kernel_dict) →
  (∀ x y, kernel_dict !! x = Some y → entry_ok PNone x y) →
  (holds_same kernel_dict remotekernel →
   check_local remotekernel kwargs w =
   (if truthy (kwargs_get kwargs "overwrite") then Ok true
    else Raise (PyException (already_exists_msg (rk_id remotekernel))), w))
  ∧ (¬ holds_same kernel_dict remotekernel →
     check_local remotekernel kwargs w = (Ok false, w)).
Proof. apply check_local_run. Qed.

(** ** What [create] does to the manifest and to the local registrar *)

Lemma bind_raise_inv {A B} (m : M A) (k : A → M B) w e w'' :
  (m ≫= k) w = (Raise e, w'') →
  m w = (Raise e, w'') ∨ ∃ a w', m w = (Ok a, w') ∧ k a w' = (Raise e, w'').
Proof.
  rewrite bind_run. destruct (m w) as [[a|e'] w'] eqn:Hm; intros H.
  - right. eauto.
  - left. by injection H as -> ->.
Qed.

(** [init_rk] that returns has run the registrar: uninstall first when
    overwriting, then install. *)
Lemma init_rk_ok_inv remotekernel overwrite w w' :
  init_rk remotekernel overwrite w = (Ok tt, w') →
  w' = {| manifest_file := manifest_file w;
          trace := trace w
                   ++ (if overwrite
                       then [Run ["sudo"; "rk"; "uninstall"; rk_id remotekernel]]
                       else [])
                   ++ [Run ["sudo"; "rk"; "install"; rk_id remotekernel]] |}.
Proof.
  unfold init_rk, run. rewrite bind_run. destruct overwrite; simpl.
  - destruct (run_reply ssh (trace w) _); [discriminate|].
    rewrite <- app_assoc. simpl.
    destruct (run_reply ssh _ _); [discriminate|]. by intros [= <-].
  - destruct (run_reply ssh (trace w) _); [discriminate|]. by intros [= <-].
Qed.

(** [init_rk] that raises was stopped by the start of a registrar call,
    which is the last thing recorded; the manifest is as [init_rk] found
    it. *)
Lemma init_rk_raise_inv remotekernel overwrite w e w' :
  init_rk remotekernel overwrite w = (Raise e, w') →
  manifest_file w' = manifest_file w
  ∧ ∃ pre argv,
      trace w' = trace w ++ pre ++ [Run argv]
      ∧ run_reply ssh (trace w ++ pre) argv = Some e
      ∧ (pre = [] ∧ argv = ["sudo"; "rk"; "uninstall"; rk_id remotekernel]
         ∨ pre = [] ∧ argv = ["sudo"; "rk"; "install"; rk_id remotekernel]
         ∨ pre = [Run ["sudo"; "rk"; "uninstall"; rk_id remotekernel]]
           ∧ argv = ["sudo"; "rk"; "install"; rk_id remotekernel]).
Proof.
  unfold init_rk, run. rewrite bind_run. destruct overwrite; simpl.
  - destruct (run_reply ssh (trace w) _) as [e1|] eqn:H1.
    + intros [= <- <-]. split; [done|].
      exists [], ["sudo"; "rk"; "uninstall"; rk_id remotekernel].
      rewrite app_nil_r. split_and!; [done|done|by left].
    + destruct (run_reply ssh (trace w ++ _) _) as [e2|] eqn:H2; [|discriminate].
      intros [= <- <-]. split; [done|].
      exists [Run ["sudo"; "rk"; "uninstall"; rk_id remotekernel]],
             ["sudo"; "rk"; "install"; rk_id remotekernel].
      simpl. rewrite <- app_assoc. split_and!; [done|done|by right; right].
  - destruct (run_reply ssh (trace w) _) as [e1|] eqn:H1; [|discriminate].
    intros [= <- <-]. split; [done|].
    exists [], ["sudo"; "rk"; "install"; rk_id remotekernel].
    rewrite app_nil_r. split_and!; [done|done|by right; left].
Qed.

(** [add_to_local_config] either rewrites the file with the new record
    put under the kernel id, or raises and leaves the world as it was. *)
Lemma add_to_local_config_run remotekernel remote_username w :
  add_to_local_config remotekernel remote_username w =
  match manifest_file w with
  | FileJson (PDict kernel_dict) =>
      match write_reply ssh (trace w) with
      | Some e => (Raise e, w)
      | None =>
          (Ok tt,
           {| manifest_file :=
                FileJson (PDict (<[rk_id remotekernel :=
                                     PDict (manifest_record remotekernel remote_username)]>
                                   kernel_dict));
              trace := trace w |})
      end
  | FileJson _ => (Raise TypeError, w)
  | FileMissing => (Raise FileNotFoundError, w)
  | FileUnreadable => (Raise PermissionError, w)
  | FileNotJson => (Raise JSONDecodeError, w)
  end.
Proof.
  unfold add_to_local_config. rewrite bind_run.
  unfold __get_local_kernelspec_dict.
  destruct (manifest_file w) as [| | |v]; try done. by destruct v.
Qed.

Lemma quiet_install_requirements φ requirements_file remote_venv_dir
    remote_pip_cmd sudo :
  (∀ local_path remote_path, φ (Put local_path remote_path)) →
  (∀ file out err, φ (Exec (cmd_install_reqs remote_pip_cmd sudo file) out err)) →
  preserves (quiet φ) anything
    (install_requirements requirements_file remote_venv_dir remote_pip_cmd sudo).
Proof.
  intros Hput Hexec.
  pose proof (quiet_refl φ) as Hr. pose proof (quiet_trans φ) as Ht.
  unfold install_requirements. destruct (truthy _); [|by apply preserves_ret].
  eapply (preserves_bind _ Ht anything); [by apply preserves_lift|].
  intros file _.
  eapply (preserves_bind _ Ht anything); [by apply quiet_emit|]. intros _ _.
  eapply (preserves_bind _ Ht anything); [by apply quiet_execute_ssh|].
  intros _ _. by apply preserves_ret.
Qed.

(** [provision] hands on the flag of the local check. *)
Lemma provision_ok_inv remotekernel kwargs remote_venv_dir remote_python_cmd
    remote_pip_cmd remote_jupyter_cmd w overwrite sudo w1 :
  provision remotekernel kwargs remote_venv_dir remote_python_cmd
    remote_pip_cmd remote_jupyter_cmd w = (Ok (overwrite, sudo), w1) →
  check_local remotekernel kwargs w = (Ok overwrite, w).
Proof.
  unfold provision. intros H.
  apply bind_ok_inv in H as (ov & w0 & Hcl & H).
  pose proof (check_local_world remotekernel kwargs w) as Hw.
  rewrite Hcl in Hw. simpl in Hw. subst w0.
  repeat (apply bind_ok_inv in H as (? & ? & _ & H)).
  injection H as -> _ _. done.
Qed.

(** A call that is not the running of a local program. *)
Lemma not_run_exec cmd out err : ¬ is_run (Exec cmd out err).
Proof. by intros []. Qed.

Lemma quiet_provision_no_run remotekernel kwargs remote_venv_dir
    remote_python_cmd remote_pip_cmd remote_jupyter_cmd :
  preserves (quiet (λ e, ¬ is_run e)) anything
    (provision remotekernel kwargs remote_venv_dir remote_python_cmd
       remote_pip_cmd remote_jupyter_cmd).
Proof.
  eapply preserves_weaken; [|done].
  apply quiet_provision; intros; apply not_run_exec.
Qed.

(** The whole of a [create] that returns. *)
Lemma create_ok_run remotekernel ssh_key requirements_file kwargs w w' :
  create remotekernel ssh_key requirements_file kwargs w = (Ok tt, w') →
  let user := py_or (kwargs_get kwargs "remote_username") (PStr "ubuntu") in
  ∃ kernel_dict overwrite evs,
    manifest_file w = FileJson (PDict kernel_dict)
    ∧ (∀ x y, kernel_dict !! x = Some y → entry_ok PNone x y)
    ∧ check_local remotekernel kwargs
        {| manifest_file := manifest_file w;
           trace := trace w ++ [Connect (uri remotekernel) user ssh_key] |}
      = (Ok overwrite,
         {| manifest_file := manifest_file w;
            trace := trace w ++ [Connect (uri remotekernel) user ssh_key] |})
    ∧ manifest_file w' =
      FileJson (PDict (<[rk_id remotekernel :=
                           PDict (manifest_record remotekernel user)]> kernel_dict))
    ∧ trace w' =
      trace w ++ evs
      ++ (if overwrite
          then [Run ["sudo"; "rk"; "uninstall"; rk_id remotekernel]] else [])
      ++ [Run ["sudo"; "rk"; "install"; rk_id remotekernel]]
    ∧ Forall (λ e, ¬ is_run e) evs.
Proof.
  intros Hcreate user.
  apply create_ok_inv in Hcreate as (dir & py & pip & jup & Hrun).
  fold user in Hrun. apply run_remote_ok_inv in Hrun.
  set (w0 := {| manifest_file := manifest_file w; trace := _ |}) in *.
  unfold __create in Hrun.
  apply bind_ok_inv in Hrun as ([overwrite sudo] & w1 & Hprov & Hfinish).
  destruct (quiet_provision_no_run remotekernel kwargs dir py pip jup w0)
    as [[Hm1 (ev1 & Ht1 & Hf1)] _].
  rewrite Hprov in Hm1, Ht1. simpl in Hm1, Ht1.
  apply provision_ok_inv in Hprov as Hcl.
  pose proof Hcl as (rks0 & Hg0)%check_local_ok_inv.
  apply get_installed_ok_inv in Hg0 as (_ & kernel_dict & Hf0 & Hc0).
  unfold finish in Hfinish.
  apply bind_ok_inv in Hfinish as ([] & w2 & Hreq & Hfinish).
  destruct (quiet_install_requirements (λ e, ¬ is_run e) requirements_file
              dir pip sudo) with (w := w1) as [[Hm2 (ev2 & Ht2 & Hf2)] _].
  { by intros ?? []. }
  { intros. apply not_run_exec. }
  rewrite Hreq in Hm2, Ht2. simpl in Hm2, Ht2.
  apply bind_ok_inv in Hfinish as ([] & w3 & Hadd & Hinit).
  rewrite add_to_local_config_run in Hadd.
  unfold same_manifest in *. rewrite Hm2, Hm1 in Hadd.
  change (manifest_file w0) with (manifest_file w) in Hf0, Hadd.
  rewrite Hf0 in Hadd.
  destruct (write_reply ssh (trace w2)); [discriminate|]. injection Hadd as <-.
  apply init_rk_ok_inv in Hinit as ->. simpl.
  exists kernel_dict, overwrite, ([Connect (uri remotekernel) user ssh_key]
                                  ++ ev1 ++ ev2).
  split_and!; [done| |done|done| |].
  - intros x y Hxy. apply installed_entry_ok_iff.
    eapply comprehension_ok_inv; [exact Hc0|]. by apply elem_of_map_to_list.
  - rewrite Ht2, Ht1. simpl. by rewrite <- !app_assoc.
  - apply Forall_app. split; [|by apply Forall_app].
    apply Forall_singleton. by intros [].
Qed.

Lemma holds_same_dec kernel_dict remotekernel :
  holds_same kernel_dict remotekernel ∨ ¬ holds_same kernel_dict remotekernel.
Proof.
  unfold holds_same.
  destruct (kernel_dict !! rk_id remotekernel) as [[| | |r]|] eqn:Hk;
    try (right; by intros (r' & [=] & _)).
  destruct (decide (r !! "remote_host" = Some (uri remotekernel)
                    ∧ default PNone (r !! "venv") = venv_name remotekernel
                    ∧ default PNone (r !! "interpreter") = python_cmd remotekernel))
    as [Hy | Hn].
  - left. eauto.
  - right. intros (r' & [= <-] & H). by apply Hn.
Qed.

(** X5.  A [create] that returns has rewritten the manifest with one
    entry changed: under the descriptor's kernel id it now holds the record
    with the descriptor's display name, interpreter and venv, the language
    [python] and the remote host [<remote_username>@<host>]; every other
    entry is what it was.  The entry is replaced whether or not the kernel id
    was there before. *)
Theorem create_success_updates_manifest (remotekernel : RemoteKernel)
    (ssh_key requirements_file : pyval) (kwargs : gmap string pyval)
    (w w' : world) :
  create remotekernel ssh_key requirements_file kwargs w = (Ok tt, w') →
  ∃ kernel_dict kernel_dict' record,
    manifest_file w = FileJson (PDict kernel_dict)
    ∧ manifest_file w' = FileJson (PDict kernel_dict')
    ∧ kernel_dict' !! rk_id remotekernel = Some (PDict record)
    ∧ (∀ id, id ≠ rk_id remotekernel → kernel_dict' !! id = kernel_dict !! id)
    ∧ record !! "display_name" = Some (display_name remotekernel)
    ∧ record !! "interpreter" = Some (python_cmd remotekernel)
    ∧ record !! "language" = Some (PStr "python")
    ∧ record !! "remote_host" =
      Some (PStr (py_str (py_or (kwargs_get kwargs "remote_username")
                                (PStr "ubuntu"))
                  +:+ "@" +:+ py_str (uri remotekernel)))
    ∧ record !! "venv" = Some (venv_name remotekernel)
    ∧ size record = 5.
Proof.
  intros Hcreate.
  apply create_ok_run in Hcreate
    as (kernel_dict & overwrite & evs & Hf & _ & _ & Hf' & _ & _).
  eexists kernel_dict, _, _. split; [exact Hf|]. split; [exact Hf'|].
  split; [apply lookup_insert_eq|].
  split; [intros id Hid; by apply lookup_insert_ne|].
  split_and!; reflexivity.
Qed.

Lemma create_raise_inv remotekernel ssh_key requirements_file kwargs w e w' :
  create remotekernel ssh_key requirements_file kwargs w = (Raise e, w') →
  w' = w
  ∨ ∃ remote_venv_dir remote_python_cmd remote_pip_cmd remote_jupyter_cmd,
      __run_remote
        (__create remotekernel requirements_file kwargs remote_venv_dir
           remote_python_cmd remote_pip_cmd remote_jupyter_cmd
           (py_or (kwargs_get kwargs "remote_username") (PStr "ubuntu")))
        remotekernel ssh_key
        (py_or (kwargs_get kwargs "remote_username") (PStr "ubuntu")) w
      = (Raise e, w').
Proof.
  unfold create. intros H.
  apply bind_raise_inv in H as [H | (dir & w1 & [_ ->]%lift_ok_inv & H)];
    [left; unfold lift in H; by injection H as _ <-|].
  apply bind_raise_inv in H as [H | (bin & w2 & [_ ->]%lift_ok_inv & H)];
    [left; unfold lift in H; by injection H as _ <-|].
  apply bind_raise_inv in H as [H | (py & w3 & [_ ->]%lift_ok_inv & H)];
    [left; unfold lift in H; by injection H as _ <-|].
  apply bind_raise_inv in H as [H | (pip & w4 & [_ ->]%lift_ok_inv & H)];
    [left; unfold lift in H; by injection H as _ <-|].
  apply bind_raise_inv in H as [H | (jup & w5 & [_ ->]%lift_ok_inv & H)];
    [left; unfold lift in H; by injection H as _ <-|].
  right. eauto.
Qed.

(** X6.  A [create] that raises has done one of two things.  Either it
    has left the manifest file as it was and has called no local program:
    whatever it did, it did on the remote.  Or it was stopped by the local
    registrar failing to start: the exception is the one [subprocess.run]
    raised on its last call ([sudo rk uninstall <id>] or
    [sudo rk install <id>]), and by then the manifest has been rewritten with
    the descriptor's record under its kernel id. *)
Theorem create_failure_manifest (remotekernel : RemoteKernel)
    (ssh_key requirements_file : pyval) (kwargs : gmap string pyval)
    (w w' : world) (e : exn) :
  create remotekernel ssh_key requirements_file kwargs w = (Raise e, w') →
  (manifest_file w' = manifest_file w
   ∧ ∃ evs, trace w' = trace w ++ evs ∧ Forall (λ ev, ¬ is_run ev) evs)
  ∨ (∃ kernel_dict evs pre argv,
       manifest_file w = FileJson (PDict kernel_dict)
       ∧ manifest_file w' =
         FileJson (PDict (<[rk_id remotekernel :=
                              PDict (manifest_record remotekernel
                                       (py_or (kwargs_get kwargs "remote_username")
                                              (PStr "ubuntu")))]> kernel_dict))
       ∧ trace w' = trace w ++ evs ++ pre ++ [Run argv]
       ∧ Forall (λ ev, ¬ is_run ev) evs
       ∧ run_reply ssh (trace w ++ evs ++ pre) argv = Some e
       ∧ (pre = [] ∧ argv = ["sudo"; "rk"; "uninstall"; rk_id remotekernel]
          ∨ pre = [] ∧ argv = ["sudo"; "rk"; "install"; rk_id remotekernel]
          ∨ pre = [Run ["sudo"; "rk"; "uninstall"; rk_id remotekernel]]
            ∧ argv = ["sudo"; "rk"; "install"; rk_id remotekernel])).
Proof.
  set (φ := λ ev, ¬ is_run ev).
  set (user := py_or (kwargs_get kwargs "remote_username") (PStr "ubuntu")).
  pose proof (quiet_trans φ) as Htrans.
  intros Hcreate.
  apply create_raise_inv in Hcreate as [-> | (dir & py & pip & jup & Hrun)].
  { left. by apply quiet_refl. }
  fold user in Hrun.
  destruct (connect_reply ssh (uri remotekernel) user ssh_key) as [e'|] eqn:Hc.
  { rewrite run_remote_refused with (e := e') in Hrun by done.
    injection Hrun as _ <-. left. split; [reflexivity|].
    eexists. split; [reflexivity|]. apply Forall_singleton. by intros []. }
  rewrite run_remote_connected in Hrun by done.
  set (w0 := {| manifest_file := manifest_file w; trace := _ |}) in Hrun.
  assert (Hw0 : quiet φ w w0).
  { split; [reflexivity|]. eexists. split; [reflexivity|].
    apply Forall_singleton. by intros []. }
  unfold __create in Hrun.
  destruct (quiet_provision_no_run remotekernel kwargs dir py pip jup w0)
    as [Hq1 _].
  apply bind_raise_inv in Hrun as [Hp | ([overwrite sudo] & w1 & Hp & Hfinish)];
    rewrite Hp in Hq1; simpl in Hq1; [left; by eapply Htrans|].
  pose proof (Htrans _ _ _ Hw0 Hq1) as Hw1.
  unfold finish in Hfinish.
  destruct (quiet_install_requirements φ requirements_file dir pip sudo)
    with (w := w1) as [Hq2 _].
  { by intros ?? []. }
  { intros. apply not_run_exec. }
  apply bind_raise_inv in Hfinish as [Hr | ([] & w2 & Hr & Hfinish)];
    rewrite Hr in Hq2; simpl in Hq2; [left; by eapply Htrans|].
  pose proof (Htrans _ _ _ Hw1 Hq2) as [Hm2 (evs & Ht2 & Hevs)].
  apply bind_raise_inv in Hfinish as [Ha | ([] & w3 & Ha & Hinit)].
  - left. rewrite add_to_local_config_run in Ha.
    assert (w' = w2) as ->; [|by split; [|exists evs]].
    destruct (manifest_file w2) as [| | |v]; try by injection Ha as _ <-.
    destruct v; try by injection Ha as _ <-.
    destruct (write_reply ssh (trace w2)); [|discriminate]. by injection Ha as _ <-.
  - right. rewrite add_to_local_config_run in Ha.
    unfold same_manifest in Hm2.
    destruct (manifest_file w2) as [| | |v] eqn:Hf2; try discriminate.
    destruct v as [| | |kernel_dict]; try discriminate.
    destruct (write_reply ssh (trace w2)); [discriminate|]. injection Ha as <-.
    apply init_rk_raise_inv in Hinit
      as (Hm3 & pre & argv & Ht3 & Hreply & Hcases). simpl in Hm3, Ht3, Hreply.
    rewrite Ht2, <- app_assoc in Hreply.
    exists kernel_dict, evs, pre, argv.
    split_and!; [by rewrite <- Hm2|by rewrite Hm3| |done|done|done].
    by rewrite Ht3, Ht2, <- app_assoc.
Qed.

(** X7.  A [create] that returns ends by running the local registrar,
    and runs no local program before that: [sudo rk install <id>] last,
    preceded by [sudo rk uninstall <id>] exactly when [overwrite] is set and
    the manifest held the kernel id with the descriptor's host, venv and
    interpreter. *)
Theorem create_runs_registrar_last (remotekernel : RemoteKernel)
    (ssh_key requirements_file : pyval) (kwargs : gmap string pyval)
    (w w' : world) (kernel_dict : gmap string pyval) :
  valid_descriptor remotekernel →
  manifest_file w = FileJson (PDict kernel_dict) →
  create remotekernel ssh_key requirements_file kwargs w = (Ok tt, w') →
  ∃ evs overwrite,
    trace w' =
    trace w ++ evs
    ++ (if overwrite : bool
        then [Run ["sudo"; "rk"; "uninstall"; rk_id remotekernel]] else [])
    ++ [Run ["sudo"; "rk"; "install"; rk_id remotekernel]]
    ∧ Forall (λ ev, ¬ is_run ev) evs
    ∧ (overwrite = true ↔
       truthy (kwargs_get kwargs "overwrite") = true
       ∧ holds_same kernel_dict remotekernel).
Proof.
  intros Hvalid Hf Hcreate.
  apply create_ok_run in Hcreate
    as (kernel_dict' & overwrite & evs & Hf' & Hall & Hcl & _ & Ht & Hevs).
  assert (kernel_dict' = kernel_dict) as -> by congruence.
  exists evs, overwrite. split; [exact Ht|]. split; [exact Hevs|].
  set (w0 := {| manifest_file := manifest_file w; trace := _ |}) in Hcl.
  destruct (check_local_run remotekernel kwargs w0 kernel_dict Hvalid Hf Hall)
    as [Hsame Hnot].
  split.
  - intros ->. destruct (truthy (kwargs_get kwargs "overwrite")) eqn:Hov.
    + split; [done|].
      destruct (holds_same_dec kernel_dict remotekernel) as [Hs | Hn];
        [done|].
      rewrite (Hnot Hn) in Hcl. discriminate.
    + destruct (holds_same_dec kernel_dict remotekernel) as [Hs | Hn].
      * rewrite (Hsame Hs) in Hcl. discriminate.
      * rewrite (Hnot Hn) in Hcl. discriminate.
  - intros [Hov Hs]. rewrite (Hsame Hs), Hov in Hcl. by injection Hcl as <-.
Qed.

(** ** [create] after [create] *)

Lemma string_length_app (s t : string) :
  String.length (s +:+ t) = String.length s + String.length t.
Proof. induction s as [|a s IH]; simpl; [done|]. by rewrite IH. Qed.

(** The stored remote host is never the host it was made from. *)
Lemma remote_host_differs user (v : pyval) :
  PStr (user +:+ "@" +:+ py_str v) ≠ v.
Proof.
  destruct v as [| |h|]; try done. simpl. intros [= Heq].
  apply (f_equal String.length) in Heq.
  rewrite !string_length_app in Heq. simpl in Heq. lia.
Qed.

(** X8.  After a [create] of a valid descriptor has returned, the local
    duplicate check of another [create] of the same descriptor passes and
    reports no overwrite, whatever the options: the record just written holds
    [<remote_username>@<host>], which is not the descriptor's host.  So the
    second [create] neither raises the already-exists exception nor, with
    [overwrite] set, runs [rk uninstall]. *)
Theorem create_again_passes_local_check (remotekernel : RemoteKernel)
    (ssh_key requirements_file : pyval) (kwargs kwargs' : gmap string pyval)
    (w w' : world) :
  valid_descriptor remotekernel →
  create remotekernel ssh_key requirements_file kwargs w = (Ok tt, w') →
  check_local remotekernel kwargs' w' = (Ok false, w').
Proof.
  intros Hvalid Hcreate.
  apply create_ok_run in Hcreate
    as (kernel_dict & overwrite & evs & Hf & Hall & _ & Hf' & _ & _).
  set (user := py_or (kwargs_get kwargs "remote_username") (PStr "ubuntu")) in *.
  set (record := manifest_record remotekernel user) in *.
  destruct (check_local_run remotekernel kwargs' w'
              (<[rk_id remotekernel := PDict record]> kernel_dict) Hvalid Hf')
    as [_ Hnot].
  - intros x y Hxy. apply lookup_insert_Some in Hxy as [[<- <-] | [_ Hxy]].
    + exists record, (PStr (py_str user +:+ "@" +:+ py_str (uri remotekernel))).
      split_and!; [done..|]. right.
      destruct Hvalid as (_ & Hid & Hpy). split_and!; [|done..].
      apply remote_host_truthy.
    + by apply Hall.
  - apply Hnot. intros (r & Hr & Hh & _).
    rewrite lookup_insert_eq in Hr. injection Hr as <-.
    change (record !! "remote_host")
      with (Some (PStr (py_str user +:+ "@" +:+ py_str (uri remotekernel)))) in Hh.
    injection Hh as Hh. by apply remote_host_differs in Hh.
Qed.

(** ** [remove]: what it does and what it leaves *)

(** X9.  [remove] opens a session to the descriptor's host as [ubuntu]
    and does nothing on the remote: after the connection, the only event is
    at most one call of [sudo rk uninstall <id>].  When it raises, the
    manifest file is as it was; on a manifest that is a dict, it raises
    after the registrar was called only when the registrar could not be
    started or the manifest could not be opened for writing, and with that
    exception.  When it returns, the registrar was called. *)
Theorem remove_touches_no_remote (remotekernel : RemoteKernel)
    (ssh_key : pyval) (w : world) :
  ∃ evs,
    trace (remove remotekernel ssh_key w).2 =
    trace w ++ Connect (uri remotekernel) (PStr "ubuntu") ssh_key :: evs
    ∧ (evs = [] ∨ evs = [Run ["sudo"; "rk"; "uninstall"; rk_id remotekernel]])
    ∧ (∀ e, (remove remotekernel ssh_key w).1 = Raise e →
            manifest_file (remove remotekernel ssh_key w).2 = manifest_file w
            ∧ ((∃ kernel_dict, manifest_file w = FileJson (PDict kernel_dict)) →
               evs = []
               ∨ evs = [Run ["sudo"; "rk"; "uninstall"; rk_id remotekernel]]
                 ∧ (run_reply ssh
                      (trace w ++ [Connect (uri remotekernel) (PStr "ubuntu") ssh_key])
                      ["sudo"; "rk"; "uninstall"; rk_id remotekernel] = Some e
                    ∨ run_reply ssh
                        (trace w ++ [Connect (uri remotekernel) (PStr "ubuntu") ssh_key])
                        ["sudo"; "rk"; "uninstall"; rk_id remotekernel] = None
                      ∧ write_reply ssh
                          (trace w
                           ++ [Connect (uri remotekernel) (PStr "ubuntu") ssh_key;
                               Run ["sudo"; "rk"; "uninstall"; rk_id remotekernel]])
                        = Some e)))
    ∧ ((remove remotekernel ssh_key w).1 = Ok tt →
       evs = [Run ["sudo"; "rk"; "uninstall"; rk_id remotekernel]]).
Proof.
  unfold remove.
  destruct (connect_reply ssh (uri remotekernel) (PStr "ubuntu") ssh_key)
    as [e|] eqn:Hc.
  { rewrite run_remote_refused with (e := e) by done. simpl.
    exists []. split_and!; [done|by left| |done]. intros e' _. split; [done|by left]. }
  rewrite run_remote_connected by done.
  unfold __remove. rewrite bind_run. unfold __get_local_kernelspec_dict. simpl.
  destruct (manifest_file w) as [| | |v] eqn:Hf; simpl;
    try (exists []; split_and!; [done|by left| |done];
         intros e' _; split; [done|by left]).
  rewrite bind_run. unfold lift.
  destruct (py_contains v (rk_id remotekernel)) as [[|]|e] eqn:Hin; simpl.
  - rewrite bind_run. unfold run. simpl.
    exists [Run ["sudo"; "rk"; "uninstall"; rk_id remotekernel]].
    destruct (run_reply ssh _ _) as [e1|] eqn:Hrun; simpl.
    { split_and!; [by rewrite <- app_assoc|by right| |done].
      intros e' [= <-]. split; [done|]. intros _. right. split; [done|]. by left. }
    rewrite bind_run.
    destruct (py_pop v (rk_id remotekernel)) as [[new_kd rest]|e] eqn:Hpop; simpl.
    + unfold json_dump, set_manifest. simpl. rewrite <- app_assoc. simpl.
      destruct (write_reply ssh _) as [e2|] eqn:Hwrite; simpl.
      * split_and!; [done|by right| |done].
        intros e' [= <-]. split; [done|]. intros _. right. split; [done|]. by right.
      * split_and!; [done|by right|done|done].
    + split_and!; [by rewrite <- app_assoc|by right| |done].
      intros e' _. split; [done|]. intros [kernel_dict [= ->]].
      simpl in Hin, Hpop. injection Hin as Hin.
      apply bool_decide_eq_true in Hin as [y Hy]. by rewrite Hy in Hpop.
  - exists []. split_and!; [done|by left| |done]. intros e' _. split; [done|by left].
  - exists []. split_and!; [done|by left| |done]. intros e' _. split; [done|by left].
Qed.

Lemma comprehension_raises {A B} (f : A → result (option B)) (xs : list A) x e :
  x ∈ xs → f x = Raise e → ∃ e', comprehension f xs = Raise e'.
Proof.
  intros Hin Hf. destruct (comprehension f xs) as [ys|e'] eqn:Hc; [|eauto].
  destruct (comprehension_ok_inv _ _ _ Hc x Hin) as [o Ho]. congruence.
Qed.

(** X10.  [create] and then [remove] of the same descriptor, both
    returning, do not give back the manifest there was.  With the session
    open, the registrar started and the manifest writable, [remove] returns;
    the file is left holding the record alone, [get_installed] raises on it
    whatever the filter, and so does the local check of every later
    [create]. *)
Theorem create_then_remove_breaks_listing (remotekernel : RemoteKernel)
    (ssh_key ssh_key' requirements_file : pyval) (kwargs : gmap string pyval)
    (w w1 : world) :
  create remotekernel ssh_key requirements_file kwargs w = (Ok tt, w1) →
  connect_reply ssh (uri remotekernel) (PStr "ubuntu") ssh_key' = None →
  run_reply ssh (trace w1 ++ [Connect (uri remotekernel) (PStr "ubuntu") ssh_key'])
    ["sudo"; "rk"; "uninstall"; rk_id remotekernel] = None →
  write_reply ssh
    (trace w1 ++ [Connect (uri remotekernel) (PStr "ubuntu") ssh_key';
                  Run ["sudo"; "rk"; "uninstall"; rk_id remotekernel]]) = None →
  ∃ w2,
    remove remotekernel ssh_key' w1 = (Ok tt, w2)
    ∧ manifest_file w2 =
      FileJson (PDict (manifest_record remotekernel
                         (py_or (kwargs_get kwargs "remote_username")
                                (PStr "ubuntu"))))
    ∧ (∀ uri_, ∃ e, get_installed uri_ w2 = (Raise e, w2))
    ∧ (∀ other kwargs', ∃ e, check_local other kwargs' w2 = (Raise e, w2)).
Proof.
  intros Hcreate Hc Hrun Hwrite.
  apply create_ok_run in Hcreate
    as (kernel_dict & overwrite & evs & _ & _ & _ & Hf1 & _ & _).
  set (record := manifest_record remotekernel _) in *.
  eexists. split.
  { erewrite remove_present_run; [|done|exact Hf1|apply lookup_insert_eq].
    by rewrite Hrun, Hwrite. }
  split; [done|].
  match goal with |- context [get_installed _ ?x] => set (w2 := x) end.
  assert (Hlist : ∀ uri_, ∃ e, get_installed uri_ w2 = (Raise e, w2)).
  { intros uri_. rewrite (get_installed_run uri_ w2 record) by done.
    destruct (comprehension_raises (installed_entry uri_) (map_to_list record)
                ("language", PStr "python") TypeError) as [e He].
    - by apply elem_of_map_to_list.
    - done.
    - rewrite He. eauto. }
  split; [exact Hlist|].
  intros other kwargs'. destruct (Hlist PNone) as [e He].
  exists e. unfold check_local. by apply bind_raise.
Qed.

(** ** The options of [create] *)

Lemma bind_ext {A B} (m1 m2 : M A) (k1 k2 : A → M B) w :
  m1 w = m2 w → (∀ a w', k1 a w' = k2 a w') → (m1 ≫= k1) w = (m2 ≫= k2) w.
Proof.
  intros Hm Hk. rewrite !bind_run, Hm.
  destruct (m2 w) as [[a|e] w']; [apply Hk|done].
Qed.

Lemma for_each_ext {A S} (xs : list A) (body1 body2 : S → A → M S) s w :
  (∀ s x w, body1 s x w = body2 s x w) →
  for_each xs body1 s w = for_each xs body2 s w.
Proof.
  intros Hb. revert s w. induction xs as [|x xs IH]; intros s w; [done|].
  simpl. apply bind_ext; [apply Hb|]. intros s' w'. apply IH.
Qed.

Lemma check_local_overwrite_ext remotekernel kwargs1 kwargs2 w :
  truthy (kwargs_get kwargs1 "overwrite") = truthy (kwargs_get kwargs2 "overwrite") →
  check_local remotekernel kwargs1 w = check_local remotekernel kwargs2 w.
Proof.
  intros Hov. unfold check_local. apply bind_ext; [done|]. intros rks w'.
  case_bool_decide; [|done]. apply for_each_ext. intros s x w''.
  by rewrite Hov.
Qed.

Lemma check_remote_overwrite_ext remotekernel kwargs1 kwargs2 jupyter w :
  truthy (kwargs_get kwargs1 "overwrite") = truthy (kwargs_get kwargs2 "overwrite") →
  check_remote remotekernel kwargs1 jupyter w
  = check_remote remotekernel kwargs2 jupyter w.
Proof. intros Hov. by rewrite !check_remote_run, Hov. Qed.

(** X11.  [create] reads three options and nothing else of [kwargs]:
    whether [overwrite] is true, [remote_venv_root_dir] or ['~/'] when that
    is false, and [remote_username] or ['ubuntu'] when that is false.  Two
    option bags that agree on these give the same result and the same world;
    an option that is empty, [None] or [False] is an option left out, and
    any other key is ignored. *)
Theorem create_reads_three_options (remotekernel : RemoteKernel)
    (ssh_key requirements_file : pyval) (kwargs1 kwargs2 : gmap string pyval)
    (w : world) :
  truthy (kwargs_get kwargs1 "overwrite") = truthy (kwargs_get kwargs2 "overwrite") →
  py_or (kwargs_get kwargs1 "remote_venv_root_dir") (PStr "~/")
  = py_or (kwargs_get kwargs2 "remote_venv_root_dir") (PStr "~/") →
  py_or (kwargs_get kwargs1 "remote_username") (PStr "ubuntu")
  = py_or (kwargs_get kwargs2 "remote_username") (PStr "ubuntu") →
  create remotekernel ssh_key requirements_file kwargs1 w
  = create remotekernel ssh_key requirements_file kwargs2 w.
Proof.
  intros Hov Hroot Huser. unfold create. rewrite Hroot, Huser.
  apply bind_ext; [done|]. intros dir w1.
  apply bind_ext; [done|]. intros bin w2.
  apply bind_ext; [done|]. intros py w3.
  apply bind_ext; [done|]. intros pip w4.
  apply bind_ext; [done|]. intros jup w5.
  unfold __run_remote. apply bind_ext; [done|]. intros _ w6.
  destruct (connect_reply _ _ _ _); [done|].
  unfold __create. apply bind_ext; [|done].
  unfold provision. apply bind_ext; [by apply check_local_overwrite_ext|].
  intros overwrite w7.
  apply bind_ext; [done|]. intros _ w8.
  apply bind_ext; [done|]. intros sudo w9.
  apply bind_ext; [done|]. intros _ w10.
  apply bind_ext; [by apply check_remote_overwrite_ext|done].
Qed.

(** ** The commands of a [create] that returns *)

Lemma execute_ssh_run cmd w :
  __execute_ssh cmd w =
  (Ok (exec_reply ssh (trace w) cmd),
   {| manifest_file := manifest_file w;
      trace := trace w ++ [Exec cmd (exec_reply ssh (trace w) cmd).1
                                    (exec_reply ssh (trace w) cmd).2] |}).
Proof. unfold __execute_ssh. by destruct (exec_reply ssh (trace w) cmd). Qed.

Lemma choose_sudo_run remotekernel remote_python_cmd w :
  choose_sudo remotekernel remote_python_cmd w =
  if truthy (venv_name remotekernel) then (Ok EmptyString, w)
  else
    let reply := exec_reply ssh (trace w) ("which " +:+ remote_python_cmd) in
    (Ok (if startswith reply.1 "/usr" then "sudo" else EmptyString),
     {| manifest_file := manifest_file w;
        trace := trace w ++ [Exec ("which " +:+ remote_python_cmd)
                               reply.1 reply.2] |}).
Proof.
  unfold choose_sudo. destruct (truthy (venv_name remotekernel)); [done|].
  simpl. rewrite bind_run, execute_ssh_run.
  destruct (exec_reply ssh (trace w) _) as [out err]. simpl.
  by destruct (startswith out "/usr").
Qed.

Lemma install_ipython_run remote_pip_cmd sudo w :
  install_ipython remote_pip_cmd sudo w =
  let cmd := sudo +:+ " " +:+ remote_pip_cmd +:+ " install jupyter" in
  (Ok tt,
   {| manifest_file := manifest_file w;
      trace := trace w ++ [Exec cmd (exec_reply ssh (trace w) cmd).1
                                    (exec_reply ssh (trace w) cmd).2] |}).
Proof. unfold install_ipython. by rewrite bind_run, execute_ssh_run. Qed.

Lemma create_ipy_kernel_run remotekernel remote_python_cmd sudo w :
  create_ipy_kernel remotekernel remote_python_cmd sudo w =
  let cmd := sudo +:+ " " +:+ remote_python_cmd
             +:+ " -m ipykernel install --name=" +:+ rk_id remotekernel in
  (Ok tt,
   {| manifest_file := manifest_file w;
      trace := trace w ++ [Exec cmd (exec_reply ssh (trace w) cmd).1
                                    (exec_reply ssh (trace w) cmd).2] |}).
Proof. unfold create_ipy_kernel. by rewrite bind_run, execute_ssh_run. Qed.

Lemma install_requirements_run requirements_file remote_venv_dir remote_pip_cmd
    sudo w :
  install_requirements requirements_file remote_venv_dir remote_pip_cmd sudo w =
  if truthy requirements_file then
    match os_path_join remote_venv_dir (PStr "requirements.txt") with
    | Raise e => (Raise e, w)
    | Ok file =>
        let cmd := cmd_install_reqs remote_pip_cmd sudo file in
        let w1 := {| manifest_file := manifest_file w;
                     trace := trace w ++ [Put requirements_file file] |} in
        (Ok tt,
         {| manifest_file := manifest_file w;
            trace := trace w1 ++ [Exec cmd (exec_reply ssh (trace w1) cmd).1
                                           (exec_reply ssh (trace w1) cmd).2] |})
    end
  else (Ok tt, w).
Proof.
  unfold install_requirements. destruct (truthy requirements_file); [|done].
  rewrite bind_run. unfold lift.
  destruct (os_path_join _ _) as [file|e]; [|done].
  rewrite bind_run. unfold emit. rewrite bind_run, execute_ssh_run. done.
Qed.

(** The steps between the venv step and the requirements step, on a
    world [w]: the commands they issue, in order. *)
Lemma after_venv_ok_inv remotekernel kwargs remote_python_cmd remote_pip_cmd
    remote_jupyter_cmd (overwrite : bool) w (r : bool * string) w1 :
  (sudo ← choose_sudo remotekernel remote_python_cmd;
   install_ipython remote_pip_cmd sudo;;
   check_remote remotekernel kwargs remote_jupyter_cmd;;
   create_ipy_kernel remotekernel remote_python_cmd sudo;;
   mret (overwrite, sudo)) w = (Ok r, w1) →
  ∃ probed sudo o2 e2 o3 e3 o4 e4,
    r = (overwrite, sudo)
    ∧ manifest_file w1 = manifest_file w
    ∧ trace w1 =
      trace w ++ probed
      ++ [Exec (sudo +:+ " " +:+ remote_pip_cmd +:+ " install jupyter") o2 e2;
          Exec (remote_jupyter_cmd +:+ " kernelspec list") o3 e3;
          Exec (sudo +:+ " " +:+ remote_python_cmd
                +:+ " -m ipykernel install --name=" +:+ rk_id remotekernel) o4 e4]
    ∧ ((truthy (venv_name remotekernel) = true
        ∧ probed = [] ∧ sudo = EmptyString)
       ∨ (truthy (venv_name remotekernel) = false
          ∧ ∃ o1 e1,
              probed = [Exec ("which " +:+ remote_python_cmd) o1 e1]
              ∧ sudo = if startswith o1 "/usr" then "sudo" else EmptyString)).
Proof.
  intros H.
  apply bind_ok_inv in H as (sudo & wa & Hsudo & H).
  apply bind_ok_inv in H as ([] & wb & Hinst & H).
  apply bind_ok_inv in H as ([] & wc & Hrem & H).
  apply bind_ok_inv in H as ([] & wd & Hipy & H).
  injection H as <- <-.
  rewrite install_ipython_run in Hinst. injection Hinst as <-.
  rewrite check_remote_run in Hrem.
  destruct (_ && _) in Hrem; [discriminate|]. injection Hrem as <-.
  rewrite create_ipy_kernel_run in Hipy. injection Hipy as <-. simpl.
  rewrite choose_sudo_run in Hsudo.
  destruct (truthy (venv_name remotekernel)) eqn:Hvenv.
  - injection Hsudo as <- <-.
    eexists [], EmptyString, _, _, _, _, _, _.
    split_and!; [done|done| |left; done].
    simpl. by rewrite <- !app_assoc.
  - simpl in Hsudo. injection Hsudo as <- <-.
    eexists [_], _, _, _, _, _, _, _.
    split_and!; [done|done| |right; split; [done|eauto]].
    simpl. by rewrite <- !app_assoc.
Qed.

Lemma find_or_create_venv_skipped remotekernel remote_venv_dir w :
  truthy (venv_name remotekernel) = false →
  find_or_create_venv remotekernel remote_venv_dir w = (Ok tt, w).
Proof. intros H. unfold find_or_create_venv. by rewrite H. Qed.

(** What is run at the end of [__create]: the file and the registrar. *)
Lemma persist_ok_inv remotekernel remote_username overwrite w w' :
  (add_to_local_config remotekernel remote_username;;
   init_rk remotekernel overwrite) w = (Ok tt, w') →
  trace w' =
  trace w
  ++ (if overwrite
      then [Run ["sudo"; "rk"; "uninstall"; rk_id remotekernel]] else [])
  ++ [Run ["sudo"; "rk"; "install"; rk_id remotekernel]].
Proof.
  intros H. apply bind_ok_inv in H as ([] & w1 & Hadd & Hinit).
  rewrite add_to_local_config_run in Hadd.
  apply init_rk_ok_inv in Hinit as ->. simpl.
  destruct (manifest_file w) as [| | |v]; try discriminate.
  destruct v; try discriminate.
  destruct (write_reply ssh (trace w)); [discriminate|]. by injection Hadd as <-.
Qed.

(** X12.  The script of a [create] without a venv that returns.  No
    requirements file was given.  After the connection the remote commands
    are, in order: [which python]; the install of [jupyter] with [pip]; the
    listing of kernel specs; the registration of the kernel with [python].
    The install and the registration are prefixed with [sudo] exactly when
    [which python] printed a path under [/usr].  The interpreter command of
    the descriptor is in none of them.  The local registrar runs last. *)
Theorem create_without_venv_script (remotekernel : RemoteKernel)
    (ssh_key requirements_file : pyval) (kwargs : gmap string pyval)
    (w w' : world) :
  truthy (venv_name remotekernel) = false →
  create remotekernel ssh_key requirements_file kwargs w = (Ok tt, w') →
  truthy requirements_file = false
  ∧ ∃ (overwrite : bool) o1 e1 o2 e2 o3 e3 o4 e4,
      let sudo := if startswith o1 "/usr" then "sudo" else EmptyString in
      trace w' =
      trace w
      ++ [Connect (uri remotekernel)
            (py_or (kwargs_get kwargs "remote_username") (PStr "ubuntu")) ssh_key;
          Exec "which python" o1 e1;
          Exec (sudo +:+ " pip install jupyter") o2 e2;
          Exec "jupyter kernelspec list" o3 e3;
          Exec (sudo +:+ " python -m ipykernel install --name="
                +:+ rk_id remotekernel) o4 e4]
      ++ (if overwrite
          then [Run ["sudo"; "rk"; "uninstall"; rk_id remotekernel]] else [])
      ++ [Run ["sudo"; "rk"; "install"; rk_id remotekernel]].
Proof.
  intros Hvenv Hcreate.
  set (user := py_or (kwargs_get kwargs "remote_username") (PStr "ubuntu")) in *.
  assert (Hrun : __run_remote
      (__create remotekernel requirements_file kwargs PNone
         "python" "pip" "jupyter" user) remotekernel ssh_key user w = (Ok tt, w')).
  { rewrite <- Hcreate. unfold create. rewrite Hvenv. reflexivity. }
  apply run_remote_ok_inv in Hrun.
  set (w0 := {| manifest_file := manifest_file w; trace := _ |}) in Hrun.
  unfold __create in Hrun.
  apply bind_ok_inv in Hrun as ([overwrite sudo] & w1 & Hprov & Hfinish).
  unfold provision in Hprov.
  apply bind_ok_inv in Hprov as (ov & w0' & Hcl & Hprov).
  pose proof (check_local_world remotekernel kwargs w0) as Hw0.
  rewrite Hcl in Hw0. simpl in Hw0. subst w0'.
  apply bind_ok_inv in Hprov as ([] & w0' & Hv & Hprov).
  rewrite find_or_create_venv_skipped in Hv by done. injection Hv as <-.
  apply after_venv_ok_inv in Hprov
    as (probed & sudo' & o2 & e2 & o3 & e3 & o4 & e4 & Hr & _ & Ht1 & Hcase).
  injection Hr as -> ->.
  destruct Hcase as [[Habs _] | (_ & o1 & e1 & -> & ->)]; [congruence|].
  unfold finish in Hfinish.
  apply bind_ok_inv in Hfinish as ([] & w2 & Hreq & Hpersist).
  rewrite install_requirements_run in Hreq.
  destruct (truthy requirements_file); [discriminate|].
  injection Hreq as <-. split; [done|].
  apply persist_ok_inv in Hpersist.
  exists ov, o1, e1, o2, e2, o3, e3, o4, e4. simpl.
  rewrite Hpersist, Ht1. simpl. by rewrite <- !app_assoc.
Qed.

(** The script of a [create] with a venv that returns, with the probe and
    the creation command as [find_or_create_venv] builds them. *)
Lemma create_with_venv_script_events (remotekernel : RemoteKernel)
    (ssh_key requirements_file : pyval) (kwargs : gmap string pyval)
    (w w' : world) :
  truthy (venv_name remotekernel) = true →
  create remotekernel ssh_key requirements_file kwargs w = (Ok tt, w') →
  ∃ dir (overwrite : bool) o1 e1 created o2 e2 o3 e3 o4 e4 copied,
    os_path_join (py_or (kwargs_get kwargs "remote_venv_root_dir") (PStr "~/"))
      (venv_name remotekernel) = Ok dir
    ∧ trace w' =
      trace w
      ++ [Connect (uri remotekernel)
            (py_or (kwargs_get kwargs "remote_username") (PStr "ubuntu")) ssh_key;
          Exec (cmd_does_venv_exist (PStr dir)) o1 e1]
      ++ created
      ++ [Exec (" " +:+ posix_join dir "pip" +:+ " install jupyter") o2 e2;
          Exec (posix_join dir "jupyter" +:+ " kernelspec list") o3 e3;
          Exec (" " +:+ posix_join dir "python"
                +:+ " -m ipykernel install --name=" +:+ rk_id remotekernel) o4 e4]
      ++ copied
      ++ (if overwrite
          then [Run ["sudo"; "rk"; "uninstall"; rk_id remotekernel]] else [])
      ++ [Run ["sudo"; "rk"; "install"; rk_id remotekernel]]
    ∧ ((o1 = EmptyString
        ∧ ∃ o e, created = [Exec (cmd_create_venv remotekernel (PStr dir)) o e])
       ∨ (o1 ≠ EmptyString ∧ created = []))
    ∧ ((truthy requirements_file = false ∧ copied = [])
       ∨ (truthy requirements_file = true
          ∧ ∃ o e,
              copied =
              [Put requirements_file (posix_join dir "requirements.txt");
               Exec (" " +:+ posix_join dir "pip" +:+ " install -r "
                     +:+ posix_join dir "requirements.txt") o e])).
Proof.
  intros Hvenv Hcreate.
  set (user := py_or (kwargs_get kwargs "remote_username") (PStr "ubuntu")) in *.
  destruct (os_path_join _ (venv_name remotekernel)) as [dir|e] eqn:Hjoin.
  2: { unfold create in Hcreate. rewrite Hvenv, Hjoin in Hcreate. discriminate. }
  assert (Hrun : __run_remote
      (__create remotekernel requirements_file kwargs (PStr dir)
         (posix_join dir "python") (posix_join dir "pip")
         (posix_join dir "jupyter") user) remotekernel ssh_key user w = (Ok tt, w')).
  { rewrite <- Hcreate. unfold create. rewrite Hvenv, Hjoin. rewrite bind_run.
    simpl. rewrite bind_run. unfold lift at 1. rewrite os_path_join1_or_empty.
    reflexivity. }
  apply run_remote_ok_inv in Hrun.
  set (w0 := {| manifest_file := manifest_file w; trace := _ |}) in Hrun.
  unfold __create in Hrun.
  apply bind_ok_inv in Hrun as ([overwrite sudo] & w1 & Hprov & Hfinish).
  unfold provision in Hprov.
  apply bind_ok_inv in Hprov as (ov & w0' & Hcl & Hprov).
  pose proof (check_local_world remotekernel kwargs w0) as Hw0.
  rewrite Hcl in Hw0. simpl in Hw0. subst w0'.
  apply bind_ok_inv in Hprov as ([] & wv & Hv & Hprov).
  destruct (find_or_create_venv_run remotekernel (PStr dir) w0 Hvenv)
    as (o1 & e1 & created & Hvrun & Hcreated).
  rewrite Hvrun in Hv. injection Hv as <-.
  apply after_venv_ok_inv in Hprov
    as (probed & sudo' & o2 & e2 & o3 & e3 & o4 & e4 & Hr & _ & Ht1 & Hcase).
  injection Hr as -> ->.
  destruct Hcase as [(_ & -> & ->) | [Habs _]]; [|congruence].
  unfold finish in Hfinish.
  apply bind_ok_inv in Hfinish as ([] & w2 & Hreq & Hpersist).
  rewrite install_requirements_run in Hreq.
  apply persist_ok_inv in Hpersist.
  exists dir, ov, o1, e1, created, o2, e2, o3, e3, o4, e4.
  destruct (truthy requirements_file) eqn:Htr.
  - simpl in Hreq. injection Hreq as <-. eexists [_; _].
    split; [done|]. split; [|split; [done|right; split; [done|eauto]]].
    rewrite Hpersist. simpl. rewrite Ht1. simpl. by rewrite <- !app_assoc.
  - injection Hreq as <-. exists [].
    split; [done|]. split; [|split; [done|by left]].
    rewrite Hpersist, Ht1. simpl. by rewrite <- !app_assoc.
Qed.

(** X13.  The script of a [create] with a venv that returns.  The venv
    directory [dir] is the venv name joined onto [remote_venv_root_dir] (or
    ['~/']).  After the connection: the probe of [dir]; the creation of the
    venv when the probe printed nothing; the install of [jupyter] with
    [<dir>/pip]; the listing with [<dir>/jupyter]; the registration with
    [<dir>/python]; when a requirements file was given, its copy to
    [<dir>/requirements.txt] and the install from it.  Nothing is prefixed
    with [sudo], and [which] is not run.  The local registrar runs last.
    The probe and the creation command are written out character by
    character; character 34 is the double quote. *)
Theorem create_with_venv_script (remotekernel : RemoteKernel)
    (ssh_key requirements_file : pyval) (kwargs : gmap string pyval)
    (w w' : world) :
  truthy (venv_name remotekernel) = true →
  create remotekernel ssh_key requirements_file kwargs w = (Ok tt, w') →
  ∃ dir (overwrite : bool) o1 e1 created o2 e2 o3 e3 o4 e4 copied,
    os_path_join (py_or (kwargs_get kwargs "remote_venv_root_dir") (PStr "~/"))
      (venv_name remotekernel) = Ok dir
    ∧ trace w' =
      trace w
      ++ [Connect (uri remotekernel)
            (py_or (kwargs_get kwargs "remote_username") (PStr "ubuntu")) ssh_key;
          Exec ("[ -d " +:+ dir +:+ " ] && echo "
                +:+ String (ascii_of_nat 34) "True"
                +:+ String (ascii_of_nat 34) EmptyString) o1 e1]
      ++ created
      ++ [Exec (" " +:+ posix_join dir "pip" +:+ " install jupyter") o2 e2;
          Exec (posix_join dir "jupyter" +:+ " kernelspec list") o3 e3;
          Exec (" " +:+ posix_join dir "python"
                +:+ " -m ipykernel install --name=" +:+ rk_id remotekernel) o4 e4]
      ++ copied
      ++ (if overwrite
          then [Run ["sudo"; "rk"; "uninstall"; rk_id remotekernel]] else [])
      ++ [Run ["sudo"; "rk"; "install"; rk_id remotekernel]]
    ∧ ((o1 = EmptyString
        ∧ ∃ o e,
            created =
            [Exec ("virtualenv -p=" +:+ py_str (python_cmd remotekernel)
                   +:+ " " +:+ dir) o e])
       ∨ (o1 ≠ EmptyString ∧ created = []))
    ∧ ((truthy requirements_file = false ∧ copied = [])
       ∨ (truthy requirements_file = true
          ∧ ∃ o e,
              copied =
              [Put requirements_file (posix_join dir "requirements.txt");
               Exec (" " +:+ posix_join dir "pip" +:+ " install -r "
                     +:+ posix_join dir "requirements.txt") o e])).
Proof.
  intros Hvenv Hcreate.
  exact (create_with_venv_script_events remotekernel ssh_key requirements_file
           kwargs w w' Hvenv Hcreate).
Qed.

(** ** Errors of the listing, refused sessions, rendering *)

Lemma comprehension_raise_inv {A B} (f : A → result (option B)) (xs : list A) e :
  comprehension f xs = Raise e → ∃ x, x ∈ xs ∧ f x = Raise e.
Proof.
  induction xs as [|x xs IH]; simpl; [done|]. intros H.
  destruct (f x) as [o|e'] eqn:Hf.
  - destruct (comprehension f xs) as [ys|e'] eqn:Hc; [done|].
    injection H as ->. destruct IH as (x' & Hin & Hx'); [done|].
    exists x'. split; [by right|done].
  - injection H as ->. exists x. split; [by left|done].
Qed.

(** X14.  How a listing fails on a manifest that is a dict: the
    exception comes from one entry, and tells what is wrong with it.
    [TypeError]: the entry is not a dict.  [KeyError('remote_host')]: it is a
    dict without a [remote_host].  [ValueError]: its [remote_host] is not the
    filter, and the host, the key or the interpreter is empty.  No other
    exception is raised. *)
Theorem get_installed_error_names_entry (uri_ : pyval) (w w' : world)
    (kernel_dict : gmap string pyval) (e : exn) :
  manifest_file w = FileJson (PDict kernel_dict) →
  get_installed uri_ w = (Raise e, w') →
  ∃ x y, kernel_dict !! x = Some y
    ∧ ((e = TypeError ∧ ∀ r, y ≠ PDict r)
       ∨ (e = KeyError "remote_host"
          ∧ ∃ r, y = PDict r ∧ r !! "remote_host" = None)
       ∨ (e = ValueError
          ∧ ∃ r h, y = PDict r ∧ r !! "remote_host" = Some h ∧ h ≠ uri_
              ∧ (truthy h = false ∨ x = EmptyString
                 ∨ truthy (default PNone (r !! "interpreter")) = false))).
Proof.
  intros Hf Hg. rewrite (get_installed_run _ _ _ Hf) in Hg.
  injection Hg as Hc _.
  apply comprehension_raise_inv in Hc as ([x y] & Hin%elem_of_map_to_list & He).
  exists x, y. split; [done|].
  destruct y as [| | |r]; try (left; by injection He as <-).
  destruct (r !! "remote_host") as [h|] eqn:Hh.
  - rewrite (installed_entry_dict _ _ _ _ Hh) in He.
    destruct (decide (h = uri_)); [discriminate|].
    right. right.
    destruct (truthy h) eqn:Ht; simpl in He.
    + case_bool_decide as Hx; simpl in He.
      * injection He as <-. split; [done|]. exists r, h. split_and!; auto.
      * destruct (truthy (default _ _)) eqn:Hi; [discriminate|].
        injection He as <-. split; [done|]. exists r, h. split_and!; auto.
    + injection He as <-. split; [done|]. exists r, h. split_and!; auto.
  - unfold installed_entry, py_getitem in He. rewrite Hh in He.
    injection He as <-. right. left. eauto.
Qed.

(** X15.  When the session cannot be opened, [create] and [remove] raise
    what the transport raised, having done nothing but try to connect:
    [create] as the [remote_username] (or [ubuntu]), [remove] always as
    [ubuntu].  The manifest is not even read: a missing manifest goes
    unnoticed. *)
Theorem refused_session_stops_everything (remotekernel : RemoteKernel)
    (ssh_key requirements_file : pyval) (kwargs : gmap string pyval)
    (w : world) (e : exn) :
  let user := py_or (kwargs_get kwargs "remote_username") (PStr "ubuntu") in
  (is_opt_str (venv_name remotekernel) →
   is_opt_str (kwargs_get kwargs "remote_venv_root_dir") →
   connect_reply ssh (uri remotekernel) user ssh_key = Some e →
   create remotekernel ssh_key requirements_file kwargs w =
   (Raise e,
    {| manifest_file := manifest_file w;
       trace := trace w ++ [Connect (uri remotekernel) user ssh_key] |}))
  ∧ (connect_reply ssh (uri remotekernel) (PStr "ubuntu") ssh_key = Some e →
     remove remotekernel ssh_key w =
     (Raise e,
      {| manifest_file := manifest_file w;
         trace := trace w
                  ++ [Connect (uri remotekernel) (PStr "ubuntu") ssh_key] |})).
Proof.
  intros user. split.
  - intros Hvenv Hroot Hc.
    destruct (create_typed_run remotekernel ssh_key requirements_file kwargs
                Hvenv Hroot) as (dir & py & pip & jup & ->).
    by apply run_remote_refused.
  - intros Hc. unfold remove. by apply run_remote_refused.
Qed.

(** X16.  The rendering of a descriptor shows the kernel id, the host,
    the venv name and the interpreter command, and never the display name.
    A venv name that is [None], empty or [False] is rendered as nothing, so
    that the three cannot be told apart. *)
Theorem str_hides_false_venv_and_display_name (k : RemoteKernel)
    (v name : pyval) (id host venv interpreter : string) :
  (truthy v = false →
   RemoteKernel__str__ (renamed (rk_id k) name (with_venv v k))
   = RemoteKernel__str__ (with_venv PNone k))
  ∧ (id ≠ EmptyString → host ≠ EmptyString → venv ≠ EmptyString →
     interpreter ≠ EmptyString →
     RemoteKernel__str__
       {| rk_id := id; uri := PStr host; python_cmd := PStr interpreter;
          venv_name := PStr venv; display_name := name |}
     = "RemoteKernel " +:+ id +:+ " :: uri='" +:+ host +:+ "' " +:+ venv
       +:+ " python_cmd=" +:+ interpreter).
Proof.
  split.
  - intros Hv. unfold RemoteKernel__str__, str_field. simpl. by rewrite Hv.
  - intros Hid Hhost Hvenv Hint. unfold RemoteKernel__str__, str_field. simpl.
    by rewrite !bool_decide_eq_false_2.
Qed.

End Launcher.

(** * The properties on the example worlds *)

(** C1.  What the code does where the claim says otherwise: on a manifest
    holding [k1] and [k2], [remove] of [k1] returns, and the file it
    leaves is the record that was stored under [k1], not the manifest without
    [k1]: [k2] is no longer a key of it, and [get_installed] raises on
    it. *)
Theorem remove_writes_removed_record_only :
  two_kernels !! "k2" = Some (PDict record_k2)
  ∧ remove example_repr silent kernel_k1 PNone (world_of two_kernels) =
    (Ok tt,
     {| manifest_file := FileJson (PDict record_k1);
        trace := [Connect (PStr "10.0.0.5") (PStr "ubuntu") PNone;
                  Run ["sudo"; "rk"; "uninstall"; "k1"]] |})
  ∧ py_contains (PDict record_k1) "k2" = Ok false
  ∧ (get_installed example_repr PNone
       {| manifest_file := FileJson (PDict record_k1); trace := [] |}).1
    = Raise TypeError.
Proof. split_and!; reflexivity. Qed.

(** C2.  What the code does where the claim says otherwise.  After a
    successful [create] of the example descriptor on the empty manifest,
    [get_installed] with no filter returns one descriptor, under [k1], with
    the venv and interpreter of the input and the host [ubuntu@10.0.0.5]:
    [create] stored [<remote_username>@<host>] as the remote host and the
    listing hands it back as the host.  No listed descriptor has the host,
    venv and interpreter of the input.  The listed descriptor does not
    compare equal to the input, so the duplicate check of a later [create]
    of the same descriptor finds nothing. *)
Theorem create_then_list_host_differs :
  valid_descriptor kernel_k1
  ∧ (create example_repr silent kernel_k1 PNone PNone ∅ empty_manifest).1 = Ok tt
  ∧ (∃ rks,
      (get_installed example_repr PNone
         (create example_repr silent kernel_k1 PNone PNone ∅ empty_manifest).2).1
      = Ok rks
      ∧ ¬ ∃ k, k ∈ rks ∧ rk_id k = rk_id kernel_k1 ∧ uri k = uri kernel_k1
               ∧ venv_name k = venv_name kernel_k1
               ∧ python_cmd k = python_cmd kernel_k1)
  ∧ (get_installed example_repr PNone
       (create example_repr silent kernel_k1 PNone PNone ∅ empty_manifest).2).1
    = Ok [{| rk_id := "k1"; uri := PStr "ubuntu@10.0.0.5";
             python_cmd := PStr "python3.8"; venv_name := PStr "envA";
             display_name := PStr "ubuntu@10.0.0.5 :: k1" |}]
  ∧ RemoteKernel__eq__
      {| rk_id := "k1"; uri := PStr "ubuntu@10.0.0.5";
         python_cmd := PStr "python3.8"; venv_name := PStr "envA";
         display_name := PStr "ubuntu@10.0.0.5 :: k1" |}
      (ObjKernel kernel_k1) = false
  ∧ (check_local example_repr kernel_k1 ∅
       (create example_repr silent kernel_k1 PNone PNone ∅ empty_manifest).2).1
    = Ok false.
Proof.
  split; [split_and!; [reflexivity|discriminate|reflexivity]|].
  split; [reflexivity|].
  split; [|split_and!; vm_compute; reflexivity].
  eexists. split; [vm_compute; reflexivity|].
  intros (k & Hin & _ & Hu & _).
  apply list_elem_of_singleton in Hin. subst k. discriminate.
Qed.

(** C3.  What the code does where the claim says otherwise.  [create] of
    the example descriptor on the empty manifest returns and leaves the
    manifest holding, under [k1], the record of that descriptor: its venv
    and interpreter, and the remote host [ubuntu@10.0.0.5].  The same
    [create] again, without [overwrite], on the manifest so written does not
    raise the already-exists exception: the stored remote host is not the
    descriptor's host, so the duplicate check finds nothing; the call goes
    through its steps, registers the kernel again and returns.  The remote
    remembers the venv, so the second probe prints [True]. *)
Theorem create_again_without_overwrite_returns :
  (create example_repr remembering kernel_k1 PNone PNone ∅ empty_manifest).1
  = Ok tt
  ∧ manifest_file
      (create example_repr remembering kernel_k1 PNone PNone ∅ empty_manifest).2
    = FileJson (PDict (<["k1" := PDict record_k1]> ∅))
  ∧ record_k1 !! "remote_host" = Some (PStr "ubuntu@10.0.0.5")
  ∧ record_k1 !! "venv" = Some (venv_name kernel_k1)
  ∧ record_k1 !! "interpreter" = Some (python_cmd kernel_k1)
  ∧ truthy (kwargs_get ∅ "overwrite") = false
  ∧ create example_repr remembering kernel_k1 PNone PNone ∅
      (create example_repr remembering kernel_k1 PNone PNone ∅ empty_manifest).2
    = (Ok tt,
       {| manifest_file := FileJson (PDict (<["k1" := PDict record_k1]> ∅));
          trace :=
            trace (create example_repr remembering kernel_k1 PNone PNone ∅
                     empty_manifest).2
            ++ [Connect (PStr "10.0.0.5") (PStr "ubuntu") PNone;
                Exec ("[ -d ~/envA ] && echo "
                      +:+ String (ascii_of_nat 34) "True"
                      +:+ String (ascii_of_nat 34) EmptyString)
                  ("True" +:+ nl) EmptyString;
                Exec " ~/envA/pip install jupyter" EmptyString EmptyString;
                Exec "~/envA/jupyter kernelspec list" EmptyString EmptyString;
                Exec " ~/envA/python -m ipykernel install --name=k1"
                  EmptyString EmptyString;
                Run ["sudo"; "rk"; "install"; "k1"]] |})
  ∧ ∀ e, AlreadyExistsError "k1" e →
      (create example_repr remembering kernel_k1 PNone PNone ∅
         (create example_repr remembering kernel_k1 PNone PNone ∅
            empty_manifest).2).1 ≠ Raise e.
Proof.
  split_and!; try (vm_compute; reflexivity).
  intros e _. vm_compute. discriminate.
Qed.

(** The listing after [create] of the example descriptor. *)
Lemma create_then_get_installed_lists_kernel_witness :
  valid_descriptor kernel_k1
  ∧ ∃ rks k,
      get_installed example_repr PNone
        (create example_repr silent kernel_k1 PNone PNone ∅ empty_manifest).2
      = (Ok rks,
         (create example_repr silent kernel_k1 PNone PNone ∅ empty_manifest).2)
      ∧ k ∈ rks
      ∧ rk_id k = rk_id kernel_k1
      ∧ uri k = PStr (py_str example_repr
                        (py_or (kwargs_get ∅ "remote_username") (PStr "ubuntu"))
                      +:+ "@" +:+ py_str example_repr (uri kernel_k1))
      ∧ venv_name k = venv_name kernel_k1
      ∧ python_cmd k = python_cmd kernel_k1.
Proof.
  assert (Hv : valid_descriptor kernel_k1)
    by (split_and!; [reflexivity|discriminate|reflexivity]).
  split; [exact Hv|].
  apply (create_then_get_installed_lists_kernel example_repr silent kernel_k1
           PNone PNone ∅ empty_manifest _ Hv).
  vm_compute. reflexivity.
Defined.

(** The duplicate check on a record written by hand with the bare host. *)
Lemma create_existing_without_overwrite_raises_witness :
  ∃ e, AlreadyExistsError (rk_id kernel_k1) e
    ∧ create example_repr silent kernel_k1 PNone PNone ∅ (world_of k1_bare_host) =
      (Raise e,
       {| manifest_file := FileJson (PDict k1_bare_host);
          trace := trace (world_of k1_bare_host)
                   ++ [Connect (uri kernel_k1)
                         (py_or (kwargs_get ∅ "remote_username") (PStr "ubuntu"))
                         PNone] |}).
Proof.
  apply (create_existing_without_overwrite_raises example_repr silent kernel_k1
           PNone PNone ∅ (world_of k1_bare_host) k1_bare_host record_k1_bare_host).
  - split_and!; [reflexivity|discriminate|reflexivity].
  - exact I.
  - exact I.
  - reflexivity.
  - reflexivity.
  - intros x y H. unfold k1_bare_host in H.
    apply lookup_insert_Some in H as [[<- <-] | [_ H]].
    + eexists. vm_compute. reflexivity.
    + by rewrite lookup_empty in H.
  - reflexivity.
  - reflexivity.
  - reflexivity.
  - reflexivity.
  - reflexivity.
Defined.

(** C4.  What the code does where the claim says otherwise.  With [k1]
    listed on the standard output of [jupyter kernelspec list] and
    [overwrite] not set, [create] of [k1] goes on to register the kernel and
    returns.  With nothing listed and [k1] on standard error, it raises the
    exists-on-remote exception. *)
Theorem create_ignores_remote_listing :
  create example_repr k1_registered kernel_k1 PNone PNone ∅ empty_manifest =
  (Ok tt,
   {| manifest_file := FileJson (PDict (<["k1" := PDict record_k1]> ∅));
      trace :=
        [Connect (PStr "10.0.0.5") (PStr "ubuntu") PNone;
         Exec (cmd_does_venv_exist example_repr (PStr "~/envA"))
           EmptyString EmptyString;
         Exec "virtualenv -p=python3.8 ~/envA" EmptyString EmptyString;
         Exec " ~/envA/pip install jupyter" EmptyString EmptyString;
         Exec "~/envA/jupyter kernelspec list" kernelspec_listing EmptyString;
         Exec " ~/envA/python -m ipykernel install --name=k1"
           EmptyString EmptyString;
         Run ["sudo"; "rk"; "install"; "k1"]] |})
  ∧ (create example_repr k1_on_stderr kernel_k1 PNone PNone ∅ empty_manifest).1
    = Raise (PyException (remote_exists_msg "k1")).
Proof. split; reflexivity. Qed.

Lemma create_venv_created_iff_probe_absent_witness :
  truthy (venv_name kernel_k1) = true
  ∧ ∃ evs,
      trace (create example_repr silent kernel_k1 PNone PNone ∅ empty_manifest).2
        = trace empty_manifest ++ evs
      ∧ ((∃ out err, Exec "virtualenv -p=python3.8 ~/envA" out err ∈ evs)
         ↔ (∃ err,
              Exec ("[ -d ~/envA ] && echo "
                    +:+ String (ascii_of_nat 34) "True"
                    +:+ String (ascii_of_nat 34) EmptyString)
                EmptyString err ∈ evs))
      ∧ ((∃ overwrite w1,
            __run_remote silent (check_local example_repr kernel_k1 ∅) kernel_k1
              PNone (py_or (kwargs_get ∅ "remote_username") (PStr "ubuntu"))
              empty_manifest
            = (Ok overwrite, w1)) →
         ∃ out err,
           Exec ("[ -d ~/envA ] && echo "
                 +:+ String (ascii_of_nat 34) "True"
                 +:+ String (ascii_of_nat 34) EmptyString) out err ∈ evs).
Proof.
  split; [reflexivity|].
  exact (create_venv_created_iff_probe_absent example_repr silent kernel_k1
           PNone PNone ∅ empty_manifest eq_refl).
Defined.

Lemma RemoteKernel_init_validates_witness :
  (∃ e, RemoteKernel__init__ example_repr (PStr "10.0.0.5") EmptyString
          (PStr "envA") (PStr "python3.8") PNone = Raise e
        ∧ ValidationError e)
  ∧ (∃ k, RemoteKernel__init__ example_repr (PStr "10.0.0.5") "k1"
            (PStr "envA") (PStr "python3.8") PNone = Ok k
          ∧ uri k = PStr "10.0.0.5" ∧ rk_id k = "k1" ∧ venv_name k = PStr "envA"
          ∧ python_cmd k = PStr "python3.8").
Proof.
  split.
  - apply (RemoteKernel_init_validates example_repr (PStr "10.0.0.5") EmptyString
             (PStr "envA") (PStr "python3.8") PNone).
    right. left. reflexivity.
  - apply (RemoteKernel_init_validates example_repr (PStr "10.0.0.5") "k1"
             (PStr "envA") (PStr "python3.8") PNone);
      [reflexivity|discriminate|reflexivity].
Defined.

Lemma remove_absent_raises_not_found_witness :
  connect_reply silent (uri kernel_k1) (PStr "ubuntu") PNone = None
  ∧ ∃ e, NotFoundError example_repr kernel_k1 e
      ∧ remove example_repr silent kernel_k1 PNone
          (world_of (<["k2" := PDict record_k2]> ∅)) =
        (Raise e,
         {| manifest_file := FileJson (PDict (<["k2" := PDict record_k2]> ∅));
            trace := trace (world_of (<["k2" := PDict record_k2]> ∅))
                     ++ [Connect (uri kernel_k1) (PStr "ubuntu") PNone] |}).
Proof.
  split; [reflexivity|].
  apply (remove_absent_raises_not_found example_repr silent kernel_k1 PNone
           (world_of (<["k2" := PDict record_k2]> ∅))); reflexivity.
Defined.

Lemma create_requirements_without_venv_raises_witness :
  truthy (venv_name kernel_k1_no_venv) = false
  ∧ truthy (PStr "requirements.txt") = true
  ∧ ∃ e w',
      create example_repr silent kernel_k1_no_venv PNone (PStr "requirements.txt")
        ∅ empty_manifest = (Raise e, w')
      ∧ quiet (λ ev, ¬ requirements_event "pip" ev) empty_manifest w'
      ∧ ∀ r w1,
          __run_remote silent
            (provision example_repr silent kernel_k1_no_venv ∅ PNone
               "python" "pip" "jupyter")
            kernel_k1_no_venv PNone
            (py_or (kwargs_get ∅ "remote_username") (PStr "ubuntu")) empty_manifest
          = (Ok r, w1) →
          e = TypeError ∧ w' = w1.
Proof.
  split; [reflexivity|]. split; [reflexivity|].
  apply (create_requirements_without_venv_raises example_repr silent
           kernel_k1_no_venv PNone (PStr "requirements.txt") ∅ empty_manifest);
    reflexivity.
Defined.

(** On a remote that remembers, [create] run twice in a row creates the
    venv once: the second probe finds the directory. *)
Lemma repeated_create_creates_venv_once :
  let w1 := (create example_repr remembering kernel_k1 PNone PNone ∅
               empty_manifest).2 in
  let w2 := (create example_repr remembering kernel_k1 PNone PNone ∅ w1).2 in
  length (filter (λ e, is_creation e = true) (trace w1)) = 1
  ∧ length (filter (λ e, is_creation e = true) (trace w2)) = 1
  ∧ length (trace w2) = 13.
Proof. split_and!; vm_compute; reflexivity. Qed.

(** * The further properties on the example worlds *)

Lemma get_installed_lists_entries_witness :
  get_installed example_repr PNone (world_of two_kernels)
  = (Ok [listed example_repr "k1" record_k1 (PStr "ubuntu@10.0.0.5");
         listed example_repr "k2" record_k2 (PStr "ubuntu@10.0.0.6")],
     world_of two_kernels)
  ∧ ∀ k,
    (k ∈ [listed example_repr "k1" record_k1 (PStr "ubuntu@10.0.0.5");
          listed example_repr "k2" record_k2 (PStr "ubuntu@10.0.0.6")]
     ↔ ∃ r, two_kernels !! rk_id k = Some (PDict r)
            ∧ r !! "remote_host" = Some (uri k) ∧ uri k ≠ PNone
            ∧ k = listed example_repr (rk_id k) r (uri k))
    ∧ (k ∈ [listed example_repr "k1" record_k1 (PStr "ubuntu@10.0.0.5");
            listed example_repr "k2" record_k2 (PStr "ubuntu@10.0.0.6")]
       → valid_descriptor k).
Proof.
  split; [reflexivity|].
  apply (get_installed_lists_entries example_repr PNone (world_of two_kernels)
           (world_of two_kernels) two_kernels); reflexivity.
Defined.

Lemma get_installed_distinct_ids_witness :
  NoDup (rk_id <$> [listed example_repr "k1" record_k1 (PStr "ubuntu@10.0.0.5");
                    listed example_repr "k2" record_k2 (PStr "ubuntu@10.0.0.6")])
  ∧ length [listed example_repr "k1" record_k1 (PStr "ubuntu@10.0.0.5");
            listed example_repr "k2" record_k2 (PStr "ubuntu@10.0.0.6")]
    ≤ size two_kernels.
Proof.
  apply (get_installed_distinct_ids example_repr PNone (world_of two_kernels)
           (world_of two_kernels) two_kernels); reflexivity.
Defined.

Lemma k1_bare_host_entries_ok :
  ∀ x y, k1_bare_host !! x = Some y → entry_ok PNone x y.
Proof.
  intros x y H. unfold k1_bare_host in H.
  apply lookup_insert_Some in H as [[<- <-] | [_ H]].
  - exists record_k1_bare_host, (PStr "10.0.0.5"). split_and!; [done..|].
    right. split_and!; [reflexivity|discriminate|reflexivity].
  - by rewrite lookup_empty in H.
Defined.

Lemma valid_kernel_k1 : valid_descriptor kernel_k1.
Proof. split_and!; [reflexivity|discriminate|reflexivity]. Defined.

Lemma check_local_cases_witness :
  (holds_same k1_bare_host kernel_k1 →
   check_local example_repr kernel_k1 ∅ (world_of k1_bare_host) =
   (if truthy (kwargs_get ∅ "overwrite") then Ok true
    else Raise (PyException (already_exists_msg (rk_id kernel_k1))),
    world_of k1_bare_host))
  ∧ (¬ holds_same k1_bare_host kernel_k1 →
     check_local example_repr kernel_k1 ∅ (world_of k1_bare_host)
     = (Ok false, world_of k1_bare_host)).
Proof.
  apply (check_local_cases example_repr kernel_k1 ∅ (world_of k1_bare_host)
           k1_bare_host valid_kernel_k1 eq_refl k1_bare_host_entries_ok).
Defined.

Lemma create_success_updates_manifest_witness :
  ∃ kernel_dict kernel_dict' record,
    manifest_file empty_manifest = FileJson (PDict kernel_dict)
    ∧ manifest_file
        (create example_repr silent kernel_k1 PNone PNone ∅ empty_manifest).2
      = FileJson (PDict kernel_dict')
    ∧ kernel_dict' !! rk_id kernel_k1 = Some (PDict record)
    ∧ (∀ id, id ≠ rk_id kernel_k1 → kernel_dict' !! id = kernel_dict !! id)
    ∧ record !! "display_name" = Some (display_name kernel_k1)
    ∧ record !! "interpreter" = Some (python_cmd kernel_k1)
    ∧ record !! "language" = Some (PStr "python")
    ∧ record !! "remote_host" =
      Some (PStr (py_str example_repr (py_or (kwargs_get ∅ "remote_username")
                                             (PStr "ubuntu"))
                  +:+ "@" +:+ py_str example_repr (uri kernel_k1)))
    ∧ record !! "venv" = Some (venv_name kernel_k1)
    ∧ size record = 5.
Proof.
  apply (create_success_updates_manifest example_repr silent kernel_k1
           PNone PNone ∅ empty_manifest).
  vm_compute. reflexivity.
Defined.

Lemma create_failure_manifest_witness :
  (create example_repr no_registrar kernel_k1 PNone PNone ∅ empty_manifest).1
  = Raise FileNotFoundError
  ∧ manifest_file
      (create example_repr no_registrar kernel_k1 PNone PNone ∅ empty_manifest).2
    = FileJson (PDict (<["k1" := PDict record_k1]> ∅))
  ∧ ((manifest_file
        (create example_repr no_registrar kernel_k1 PNone PNone ∅ empty_manifest).2
      = manifest_file empty_manifest
      ∧ ∃ evs,
          trace (create example_repr no_registrar kernel_k1 PNone PNone ∅
                   empty_manifest).2
          = trace empty_manifest ++ evs
          ∧ Forall (λ ev, ¬ is_run ev) evs)
     ∨ (∃ kernel_dict evs pre argv,
          manifest_file empty_manifest = FileJson (PDict kernel_dict)
          ∧ manifest_file
              (create example_repr no_registrar kernel_k1 PNone PNone ∅
                 empty_manifest).2
            = FileJson (PDict (<[rk_id kernel_k1 :=
                                   PDict (manifest_record example_repr kernel_k1
                                            (py_or (kwargs_get ∅ "remote_username")
                                                   (PStr "ubuntu")))]> kernel_dict))
          ∧ trace (create example_repr no_registrar kernel_k1 PNone PNone ∅
                     empty_manifest).2
            = trace empty_manifest ++ evs ++ pre ++ [Run argv]
          ∧ Forall (λ ev, ¬ is_run ev) evs
          ∧ run_reply no_registrar (trace empty_manifest ++ evs ++ pre) argv
            = Some FileNotFoundError
          ∧ (pre = [] ∧ argv = ["sudo"; "rk"; "uninstall"; rk_id kernel_k1]
             ∨ pre = [] ∧ argv = ["sudo"; "rk"; "install"; rk_id kernel_k1]
             ∨ pre = [Run ["sudo"; "rk"; "uninstall"; rk_id kernel_k1]]
               ∧ argv = ["sudo"; "rk"; "install"; rk_id kernel_k1]))).
Proof.
  split; [vm_compute; reflexivity|]. split; [vm_compute; reflexivity|].
  apply (create_failure_manifest example_repr no_registrar kernel_k1
           PNone PNone ∅ empty_manifest _ FileNotFoundError).
  vm_compute. reflexivity.
Defined.

Lemma create_runs_registrar_last_witness :
  ∃ evs overwrite,
    trace (create example_repr silent kernel_k1 PNone PNone ∅ empty_manifest).2
    = trace empty_manifest ++ evs
      ++ (if overwrite : bool
          then [Run ["sudo"; "rk"; "uninstall"; rk_id kernel_k1]] else [])
      ++ [Run ["sudo"; "rk"; "install"; rk_id kernel_k1]]
    ∧ Forall (λ ev, ¬ is_run ev) evs
    ∧ (overwrite = true ↔
       truthy (kwargs_get ∅ "overwrite") = true ∧ holds_same ∅ kernel_k1).
Proof.
  apply (create_runs_registrar_last example_repr silent kernel_k1
           PNone PNone ∅ empty_manifest _ ∅ valid_kernel_k1 eq_refl).
  vm_compute. reflexivity.
Defined.

Lemma create_again_passes_local_check_witness :
  check_local example_repr kernel_k1 ∅
    (create example_repr silent kernel_k1 PNone PNone ∅ empty_manifest).2
  = (Ok false,
     (create example_repr silent kernel_k1 PNone PNone ∅ empty_manifest).2).
Proof.
  apply (create_again_passes_local_check example_repr silent kernel_k1
           PNone PNone ∅ ∅ empty_manifest _ valid_kernel_k1).
  vm_compute. reflexivity.
Defined.

Lemma create_then_remove_breaks_listing_witness :
  ∃ w2,
    remove example_repr silent kernel_k1 PNone
      (create example_repr silent kernel_k1 PNone PNone ∅ empty_manifest).2
    = (Ok tt, w2)
    ∧ manifest_file w2 =
      FileJson (PDict (manifest_record example_repr kernel_k1
                         (py_or (kwargs_get ∅ "remote_username") (PStr "ubuntu"))))
    ∧ (∀ uri_, ∃ e, get_installed example_repr uri_ w2 = (Raise e, w2))
    ∧ (∀ other kwargs', ∃ e,
         check_local example_repr other kwargs' w2 = (Raise e, w2)).
Proof.
  apply (create_then_remove_breaks_listing example_repr silent kernel_k1
           PNone PNone PNone ∅ empty_manifest).
  - vm_compute. reflexivity.
  - reflexivity.
  - reflexivity.
  - reflexivity.
Defined.

(** [remove] of [k1] when the manifest cannot be opened for writing: the
    registrar has been called by the time [open] raises, and the file still
    holds both kernels. *)
Lemma remove_read_only_manifest_raises_late :
  remove example_repr read_only_manifest kernel_k1 PNone (world_of two_kernels) =
  (Raise PermissionError,
   {| manifest_file := FileJson (PDict two_kernels);
      trace := [Connect (PStr "10.0.0.5") (PStr "ubuntu") PNone;
                Run ["sudo"; "rk"; "uninstall"; "k1"]] |}).
Proof. reflexivity. Qed.

Lemma create_reads_three_options_witness :
  create example_repr silent kernel_k1 PNone PNone
    (<["remote_username" := PStr EmptyString]> (<["colour" := PStr "red"]> ∅))
    empty_manifest
  = create example_repr silent kernel_k1 PNone PNone ∅ empty_manifest.
Proof.
  apply (create_reads_three_options example_repr silent kernel_k1 PNone PNone
           (<["remote_username" := PStr EmptyString]>
              (<["colour" := PStr "red"]> ∅)) ∅ empty_manifest);
    reflexivity.
Defined.

Lemma create_without_venv_script_witness :
  truthy PNone = false
  ∧ ∃ (overwrite : bool) o1 e1 o2 e2 o3 e3 o4 e4,
      let sudo := if startswith o1 "/usr" then "sudo" else EmptyString in
      trace (create example_repr system_python kernel_k1_no_venv PNone PNone ∅
               empty_manifest).2 =
      trace empty_manifest
      ++ [Connect (uri kernel_k1_no_venv)
            (py_or (kwargs_get ∅ "remote_username") (PStr "ubuntu")) PNone;
          Exec "which python" o1 e1;
          Exec (sudo +:+ " pip install jupyter") o2 e2;
          Exec "jupyter kernelspec list" o3 e3;
          Exec (sudo +:+ " python -m ipykernel install --name="
                +:+ rk_id kernel_k1_no_venv) o4 e4]
      ++ (if overwrite
          then [Run ["sudo"; "rk"; "uninstall"; rk_id kernel_k1_no_venv]] else [])
      ++ [Run ["sudo"; "rk"; "install"; rk_id kernel_k1_no_venv]].
Proof.
  apply (create_without_venv_script example_repr system_python kernel_k1_no_venv
           PNone PNone ∅ empty_manifest _ eq_refl).
  vm_compute. reflexivity.
Defined.

Lemma create_with_venv_script_witness :
  ∃ dir (overwrite : bool) o1 e1 created o2 e2 o3 e3 o4 e4 copied,
    os_path_join (py_or (kwargs_get ∅ "remote_venv_root_dir") (PStr "~/"))
      (venv_name kernel_k1) = Ok dir
    ∧ trace (create example_repr silent kernel_k1 PNone (PStr "reqs.txt") ∅
               empty_manifest).2 =
      trace empty_manifest
      ++ [Connect (uri kernel_k1)
            (py_or (kwargs_get ∅ "remote_username") (PStr "ubuntu")) PNone;
          Exec ("[ -d " +:+ dir +:+ " ] && echo "
                +:+ String (ascii_of_nat 34) "True"
                +:+ String (ascii_of_nat 34) EmptyString) o1 e1]
      ++ created
      ++ [Exec (" " +:+ posix_join dir "pip" +:+ " install jupyter") o2 e2;
          Exec (posix_join dir "jupyter" +:+ " kernelspec list") o3 e3;
          Exec (" " +:+ posix_join dir "python"
                +:+ " -m ipykernel install --name=" +:+ rk_id kernel_k1) o4 e4]
      ++ copied
      ++ (if overwrite
          then [Run ["sudo"; "rk"; "uninstall"; rk_id kernel_k1]] else [])
      ++ [Run ["sudo"; "rk"; "install"; rk_id kernel_k1]]
    ∧ ((o1 = EmptyString
        ∧ ∃ o e,
            created =
            [Exec ("virtualenv -p=" +:+ py_str example_repr (python_cmd kernel_k1)
                   +:+ " " +:+ dir) o e])
       ∨ (o1 ≠ EmptyString ∧ created = []))
    ∧ ((truthy (PStr "reqs.txt") = false ∧ copied = [])
       ∨ (truthy (PStr "reqs.txt") = true
          ∧ ∃ o e,
              copied =
              [Put (PStr "reqs.txt") (posix_join dir "requirements.txt");
               Exec (" " +:+ posix_join dir "pip" +:+ " install -r "
                     +:+ posix_join dir "requirements.txt") o e])).
Proof.
  apply (create_with_venv_script example_repr silent kernel_k1
           PNone (PStr "reqs.txt") ∅ empty_manifest _ eq_refl).
  vm_compute. reflexivity.
Defined.

Lemma get_installed_error_names_entry_witness :
  ∃ x y, (<["k1" := PStr "10.0.0.5"]> ∅ : gmap string pyval) !! x = Some y
    ∧ ((TypeError = TypeError ∧ ∀ r, y ≠ PDict r)
       ∨ (TypeError = KeyError "remote_host"
          ∧ ∃ r, y = PDict r ∧ r !! "remote_host" = None)
       ∨ (TypeError = ValueError
          ∧ ∃ r h, y = PDict r ∧ r !! "remote_host" = Some h ∧ h ≠ PNone
              ∧ (truthy h = false ∨ x = EmptyString
                 ∨ truthy (default PNone (r !! "interpreter")) = false))).
Proof.
  apply (get_installed_error_names_entry example_repr PNone
           (world_of (<["k1" := PStr "10.0.0.5"]> ∅))
           (world_of (<["k1" := PStr "10.0.0.5"]> ∅))
           (<["k1" := PStr "10.0.0.5"]> ∅) TypeError); reflexivity.
Defined.

Lemma refused_session_stops_everything_witness :
  create example_repr refusing kernel_k1 PNone PNone ∅
    {| manifest_file := FileMissing; trace := [] |} =
  (Raise SSHException,
   {| manifest_file := FileMissing;
      trace := [] ++ [Connect (uri kernel_k1)
                        (py_or (kwargs_get ∅ "remote_username") (PStr "ubuntu"))
                        PNone] |})
  ∧ remove example_repr refusing kernel_k1 PNone
      {| manifest_file := FileMissing; trace := [] |} =
    (Raise SSHException,
     {| manifest_file := FileMissing;
        trace := [] ++ [Connect (uri kernel_k1) (PStr "ubuntu") PNone] |}).
Proof.
  destruct (refused_session_stops_everything example_repr refusing kernel_k1
              PNone PNone ∅ {| manifest_file := FileMissing; trace := [] |}
              SSHException) as [Hcreate Hremove].
  split.
  - apply Hcreate; [exact I|exact I|reflexivity].
  - apply Hremove. reflexivity.
Defined.

Lemma str_hides_false_venv_and_display_name_witness :
  RemoteKernel__str__ example_repr
    (renamed (rk_id kernel_k1) (PStr "mine") (with_venv (PStr EmptyString) kernel_k1))
  = RemoteKernel__str__ example_repr (with_venv PNone kernel_k1)
  ∧ RemoteKernel__str__ example_repr
      {| rk_id := "k1"; uri := PStr "10.0.0.5"; python_cmd := PStr "python3.8";
         venv_name := PStr "envA"; display_name := PStr "mine" |}
    = "RemoteKernel " +:+ "k1" +:+ " :: uri='" +:+ "10.0.0.5" +:+ "' " +:+ "envA"
      +:+ " python_cmd=" +:+ "python3.8".
Proof.
  destruct (str_hides_false_venv_and_display_name example_repr kernel_k1
              (PStr EmptyString) (PStr "mine") "k1" "10.0.0.5" "envA" "python3.8")
    as [Hfalse Hfull].
  split.
  - apply Hfalse. reflexivity.
  - apply Hfull; discriminate.
Defined.
